(** * Appointment scheduling assistant: identity resolver, slot allocator,
      booking finalizer and the decision stage of the conversation

    A shallow embedding of

    - [src/agents/patient_lookup_agent.py]        (module [Lookup]),
    - [src/agents/appointment_scheduler_agent.py] (module [Scheduler]),
    - [src/agents/confirmation_agent.py]          (module [Confirmation]),
    - [src/agents/form_agent.py] and the stages of [app.py] from
      [COLLECTING_EMAIL] on                       (module [App]),
    - the stages of [app.py] from the insurance questions to the date,
      with [src/agents/insurance_agent.py]        (module [Intake]),
    - the lookup node and its router of [patient_flow_graph.py]
                                                  (module [Graph]),
    - [normalize_output] of [src/agents/patient_info_agent.py]
                                                  (module [PatientInfo]),
    - the formatting of telephone numbers         (module [Phone]),

    with the Python library functions they call embedded in [PyStr] ([str]
    methods and the two regular expressions of [normalize_name]) and in
    [Strptime] ([datetime.strptime]).  [Session] holds the state dictionary
    of the agents and the three files on disk as one [World] value that
    every agent takes and returns; [Samples] holds the stores and states
    of the repository's tests; [Spec] holds the notions of the
    specification that the statements compare the code with; [Frame] says
    which files and messages a call may touch.

    Text is ASCII: a Rocq [string] stands for the Python [str] with the same
    code points, all below 128.  A dictionary with a fixed set of keys is a
    record whose fields are options, [None] for an absent key. *)

From Stdlib Require Import ZArith QArith Ascii String List Bool Lia Sorted Permutation.
From stdpp Require Import base list strings sorting.

Open Scope string_scope.
Open Scope list_scope.

(** ** Python [str] methods and the regular expressions of the source *)

Module PyStr.

Definition code (c : ascii) : N := N_of_ascii c.

Definition between (lo hi : N) (c : ascii) : bool :=
  ((lo <=? code c) && (code c <=? hi))%N.

(** [str.isspace] on ASCII: tab, line feed, vertical tab, form feed,
    carriage return, the four separators 28..31, and the space.  The class
    [\s] of [re] on [str] patterns is the same set. *)
Definition isspace (c : ascii) : bool := between 9 13 c || between 28 32 c.

Definition isupper (c : ascii) : bool := between 65 90 c.
Definition islower (c : ascii) : bool := between 97 122 c.
Definition isdigit (c : ascii) : bool := between 48 57 c.

(** [string.punctuation]: the 32 ASCII punctuation characters. *)
Definition ispunct (c : ascii) : bool :=
  between 33 47 c || between 58 64 c || between 91 96 c || between 123 126 c.

Definition lower_char (c : ascii) : ascii :=
  if isupper c then ascii_of_N (code c + 32) else c.

Definition upper_char (c : ascii) : ascii :=
  if islower c then ascii_of_N (code c - 32) else c.

Fixpoint map_chars (f : ascii -> ascii) (s : string) : string :=
  match s with
  | EmptyString => EmptyString
  | String c s' => String (f c) (map_chars f s')
  end.

Definition lower : string -> string := map_chars lower_char.
Definition upper : string -> string := map_chars upper_char.

Fixpoint lstrip (s : string) : string :=
  match s with
  | EmptyString => EmptyString
  | String c s' => if isspace c then lstrip s' else s
  end.

Fixpoint rstrip (s : string) : string :=
  match s with
  | EmptyString => EmptyString
  | String c s' =>
      match rstrip s' with
      | EmptyString => if isspace c then EmptyString else String c EmptyString
      | r => String c r
      end
  end.

(** [s.strip()] *)
Definition strip (s : string) : string := rstrip (lstrip s).

(** [s.translate(PUNCT_TABLE)] with
    [PUNCT_TABLE = str.maketrans("", "", string.punctuation)]: every
    punctuation character is deleted. *)
Fixpoint translate_punct (s : string) : string :=
  match s with
  | EmptyString => EmptyString
  | String c s' =>
      if ispunct c then translate_punct s' else String c (translate_punct s')
  end.

(** [re.sub(r"\s+", " ", s)]: every maximal run of whitespace becomes one
    space.  [in_run] says that the previous character was whitespace. *)
Fixpoint sub_ws_from (in_run : bool) (s : string) : string :=
  match s with
  | EmptyString => EmptyString
  | String c s' =>
      if isspace c
      then (if in_run then sub_ws_from true s'
            else String " " (sub_ws_from true s'))
      else String c (sub_ws_from false s')
  end.

Definition sub_ws : string -> string := sub_ws_from false.

(** A literal of a pattern compiled with [re.IGNORECASE], matched at the
    start of [s]; the literal [p] is given in lower case.  Returns what
    follows the match. *)
Fixpoint match_ci (p s : string) : option string :=
  match p with
  | EmptyString => Some s
  | String a p' =>
      match s with
      | EmptyString => None
      | String c s' =>
          if Ascii.eqb (lower_char c) a then match_ci p' s' else None
      end
  end.

(** [\s+] at the start of [s] (greedy): what follows the run. *)
Definition match_ws1 (s : string) : option string :=
  match s with
  | String c s' => if isspace c then Some (lstrip s') else None
  | EmptyString => None
  end.

(** [\.?\s+]: the optional dot is tried first; when the rest then fails, the
    matcher backtracks to the empty match of [\.?]. *)
Definition match_dot_ws (s : string) : option string :=
  match s with
  | String "." s' =>
      match match_ws1 s' with
      | Some r => Some r
      | None => match_ws1 s
      end
  | _ => match_ws1 s
  end.

(** The alternation [(dr|mr|mrs|ms)] followed by [\.?\s+]: alternatives in
    the order of the pattern, the next one tried when the rest fails. *)
Fixpoint match_titles (ts : list string) (s : string) : option string :=
  match ts with
  | [] => None
  | t :: ts' =>
      match match_ci t s with
      | Some rest =>
          match match_dot_ws rest with
          | Some r => Some r
          | None => match_titles ts' s
          end
      | None => match_titles ts' s
      end
  end.

Definition TITLES : list string := ["dr"; "mr"; "mrs"; "ms"].

(** The match of [r"^\b(dr|mr|mrs|ms)\.?\s+"] on [s], when there is one:
    the text after it.  [^] anchors the only possible match at position 0,
    and [\b] holds there because every alternative starts with a letter. *)
Definition match_title_prefix (s : string) : option string :=
  match_titles TITLES s.

(** [re.sub(r"^\b(dr|mr|mrs|ms)\.?\s+", "", s, flags=re.IGNORECASE)] *)
Definition sub_title (s : string) : string :=
  match match_title_prefix s with
  | Some r => r
  | None => s
  end.

(** [needle in hay] *)
Fixpoint startswith (p s : string) : bool :=
  match p with
  | EmptyString => true
  | String a p' =>
      match s with
      | EmptyString => false
      | String c s' => Ascii.eqb a c && startswith p' s'
      end
  end.

Fixpoint contains (needle hay : string) : bool :=
  startswith needle hay ||
  match hay with
  | EmptyString => false
  | String _ hay' => contains needle hay'
  end.

(** [s.replace(a, b)] for single characters. *)
Definition replace_char (a b : ascii) : string -> string :=
  map_chars (fun c => if Ascii.eqb c a then b else c).

Definition cons_nonempty (tok : string) (l : list string) : list string :=
  match tok with
  | EmptyString => l
  | _ => tok :: l
  end.

(** [s.split()]: the maximal runs of non-whitespace. [split_open s] is the
    (possibly empty) token that starts [s] and the tokens after it. *)
Fixpoint split_open (s : string) : string * list string :=
  match s with
  | EmptyString => (EmptyString, [])
  | String c s' =>
      let '(tok, rest) := split_open s' in
      if isspace c then (EmptyString, cons_nonempty tok rest)
      else (String c tok, rest)
  end.

Definition split (s : string) : list string :=
  let '(tok, rest) := split_open s in cons_nonempty tok rest.

(** [sep.join(l)] *)
Fixpoint join (sep : string) (l : list string) : string :=
  match l with
  | [] => EmptyString
  | [x] => x
  | x :: l' => x +:+ sep +:+ join sep l'
  end.

(** [sorted(l)] on strings: ascending by code points. *)
Fixpoint insert_sorted (x : string) (l : list string) : list string :=
  match l with
  | [] => [x]
  | y :: l' => if String.leb x y then x :: l else y :: insert_sorted x l'
  end.

Definition sorted (l : list string) : list string :=
  foldr insert_sorted [] l.

(** [s.split(sep)] for a one-character separator: the pieces between the
    separators, empty pieces kept. *)
Fixpoint split_on (sep : ascii) (s : string) : list string :=
  match s with
  | EmptyString => [EmptyString]
  | String c s' =>
      match split_on sep s' with
      | [] => [EmptyString]
      | tok :: rest =>
          if Ascii.eqb c sep then EmptyString :: tok :: rest
          else String c tok :: rest
      end
  end.

(** The text of an optional value inside an f-string: [None] prints as
    ["None"]. *)
Definition fmt (o : option string) : string :=
  match o with
  | Some s => s
  | None => "None"
  end.

End PyStr.

(** ** [datetime.strptime] for the directives the source uses *)

Module Strptime.
Import PyStr.

(** A [datetime] at midnight, which is all that [strptime] builds from
    these formats; [.date()] is the identity on it. *)
Record date := Date { year : Z; month : Z; day : Z }.

Definition date_eqb (a b : date) : bool :=
  ((year a =? year b) && (month a =? month b) && (day a =? day b))%Z.

Definition is_leap (y : Z) : bool :=
  ((y mod 4 =? 0) && (negb (y mod 100 =? 0) || (y mod 400 =? 0)))%Z.

Definition days_in_month (y m : Z) : Z :=
  (if m =? 2 then (if is_leap y then 29 else 28)
   else if (m =? 4) || (m =? 6) || (m =? 9) || (m =? 11) then 30
   else 31)%Z.

(** The check of the [datetime] constructor (MINYEAR = 1, MAXYEAR = 9999);
    [None] stands for its [ValueError]. *)
Definition make_date (y m d : Z) : option date :=
  if ((1 <=? y) && (y <=? 9999) && (1 <=? m) && (m <=? 12)
      && (1 <=? d) && (d <=? days_in_month y m))%Z
  then Some (Date y m d) else None.

(** [dt.replace(year=y)] *)
Definition replace_year (dt : date) (y : Z) : option date :=
  make_date y (month dt) (day dt).

Inductive directive := Dir_d | Dir_m | Dir_Y | Dir_y | Lit (c : ascii).

(** The format string as a list of directives and literal characters. *)
Fixpoint parse_format (fmt : string) : list directive :=
  match fmt with
  | EmptyString => []
  | String "%" (String "d" r) => Dir_d :: parse_format r
  | String "%" (String "m" r) => Dir_m :: parse_format r
  | String "%" (String "Y" r) => Dir_Y :: parse_format r
  | String "%" (String "y" r) => Dir_y :: parse_format r
  | String c r => Lit c :: parse_format r
  end.

Definition digit_val (c : ascii) : Z := Z.of_N (code c) - 48.

(** One digit in the class [[lo-hi]] at the start of [s]. *)
Definition digit_in (lo hi : Z) (s : string) : list (Z * string) :=
  match s with
  | String c s' =>
      if isdigit c && (lo <=? digit_val c)%Z && (digit_val c <=? hi)%Z
      then [(digit_val c, s')] else []
  | EmptyString => []
  end.

(** Two digits, the first in [[a-b]] and the second in [[c-d]]. *)
Definition digits2 (a b c d : Z) (s : string) : list (Z * string) :=
  '(v1, r1) ← digit_in a b s;
  '(v2, r2) ← digit_in c d r1;
  [((10 * v1 + v2)%Z, r2)].

Definition space_digit (s : string) : list (Z * string) :=
  match s with
  | String " " s' => digit_in 1 9 s'
  | _ => []
  end.

(** The regular expressions that [_strptime.TimeRE] compiles the directives
    to.  Each function lists the matches at the start of [s] in the order in
    which the backtracking matcher tries them. *)

(** [%d]: [(3[0-1]|[1-2]\d|0[1-9]|[1-9]| [1-9])] *)
Definition re_d (s : string) : list (Z * string) :=
  digits2 3 3 0 1 s ++ digits2 1 2 0 9 s ++ digits2 0 0 1 9 s
  ++ digit_in 1 9 s ++ space_digit s.

(** [%m]: [(1[0-2]|0[1-9]|[1-9])] *)
Definition re_m (s : string) : list (Z * string) :=
  digits2 1 1 0 2 s ++ digits2 0 0 1 9 s ++ digit_in 1 9 s.

(** [%y]: [(\d\d)] *)
Definition re_y (s : string) : list (Z * string) := digits2 0 9 0 9 s.

(** [%Y]: [(\d\d\d\d)] *)
Definition re_Y (s : string) : list (Z * string) :=
  '(hi, r1) ← digits2 0 9 0 9 s;
  '(lo, r2) ← digits2 0 9 0 9 r1;
  [((100 * hi + lo)%Z, r2)].

(** The named groups of a match. *)
Record groups := Groups {
  g_d : option Z; g_m : option Z; g_Y : option Z; g_y : option Z }.

Definition no_groups : groups := Groups None None None None.

(** All matches of the compiled format at the start of [s], first choice
    first: [re.match] returns the head of this list. *)
Fixpoint re_match (fmt : list directive) (g : groups) (s : string)
  : list (groups * string) :=
  match fmt with
  | [] => [(g, s)]
  | Dir_d :: fmt' =>
      '(v, r) ← re_d s;
      re_match fmt' (Groups (Some v) (g_m g) (g_Y g) (g_y g)) r
  | Dir_m :: fmt' =>
      '(v, r) ← re_m s;
      re_match fmt' (Groups (g_d g) (Some v) (g_Y g) (g_y g)) r
  | Dir_Y :: fmt' =>
      '(v, r) ← re_Y s;
      re_match fmt' (Groups (g_d g) (g_m g) (Some v) (g_y g)) r
  | Dir_y :: fmt' =>
      '(v, r) ← re_y s;
      re_match fmt' (Groups (g_d g) (g_m g) (g_Y g) (Some v)) r
  | Lit c :: fmt' =>
      match s with
      | String c' r => if Ascii.eqb c c' then re_match fmt' g r else []
      | EmptyString => []
      end
  end.

(** The year of a match: [%y] follows POSIX, 0..68 are 2000..2068 and
    69..99 are 1969..1999; without a year directive the year is 1900. *)
Definition year_of (g : groups) : Z :=
  match g_y g, g_Y g with
  | Some y, _ => (if y <=? 68 then 2000 + y else 1900 + y)%Z
  | None, Some y => y
  | None, None => 1900%Z
  end.

(** [datetime.strptime(s, fmt)]; [None] stands for [ValueError] (no match,
    unconverted data after the match, or a day that does not exist). *)
Definition strptime (s fmt : string) : option date :=
  match re_match (parse_format fmt) no_groups s with
  | [] => None
  | (g, rest) :: _ =>
      match rest with
      | EmptyString =>
          make_date (year_of g) (default 1%Z (g_m g)) (default 1%Z (g_d g))
      | _ => None
      end
  end.

Definition pad2 (z : Z) : string :=
  String (ascii_of_N (48 + Z.to_N (z / 10)))
    (String (ascii_of_N (48 + Z.to_N (z mod 10))) EmptyString).

(** [dt.strftime("%d-%m-%Y")], for the years 1000..9999 that print with
    four digits on every platform. *)
Definition strftime_dmY (dt : date) : string :=
  pad2 (day dt) +:+ "-" +:+ pad2 (month dt) +:+ "-"
  +:+ pad2 (year dt / 100) +:+ pad2 (year dt mod 100).

End Strptime.

(** ** The identity resolver: [src/agents/patient_lookup_agent.py] *)

Module Lookup.
Import PyStr Strptime.

Definition ALIASES (key : string) : list string :=
  if String.eqb key "name" then ["name"; "patient_name"; "full_name"]
  else if String.eqb key "dob" then ["dob"; "date_of_birth"; "birthdate"]
  else if String.eqb key "location" then ["location"; "city"]
  else if String.eqb key "insurance_carrier"
       then ["insurance_carrier"; "carrier"; "insurance"]
  else if String.eqb key "member_id"
       then ["member_id"; "memberid"; "policy_number"; "policy_no"]
  else if String.eqb key "group" then ["group"; "group_id"; "group_number"]
  else [].

(** The patient CSV as [pandas] reads it: the header and the rows, every
    cell a text. *)
Record DataFrame := { columns : list string; rows : list (list string) }.

(** [row[col]] *)
Definition cell (df : DataFrame) (row : list string) (col : string) : string :=
  match list_find (λ c, c = col) (columns df) with
  | Some (i, _) => default "" (row !! i)
  | None => ""
  end.

(** [lower_cols[alias]] for [lower_cols = {c.lower(): c for c in df.columns}]:
    a later column replaces an earlier one with the same lower-cased name. *)
Definition lower_cols_get (cols : list string) (alias : string) : option string :=
  last (filter (λ c, lower c = alias) cols).

Fixpoint first_alias (cols aliases : list string) : option string :=
  match aliases with
  | [] => None
  | alias :: aliases' =>
      match lower_cols_get cols alias with
      | Some c => Some c
      | None => first_alias cols aliases'
      end
  end.

Definition _find_col (df : DataFrame) (key : string) : option string :=
  first_alias (columns df) (ALIASES key).

Definition normalize_name (name : string) : string :=
  match name with
  | EmptyString => ""
  | _ => lower (strip (sub_ws (translate_punct (sub_title (strip name)))))
  end.

Definition token_sort_key (name : string) : string :=
  join " " (sorted (split (normalize_name name))).

Definition FMTS : list string := ["%d-%m-%Y"; "%Y-%m-%d"; "%d-%m-%y"].

(** One turn of the loop over [fmts]: [None] is the [continue] of the
    [except] clause. *)
Definition try_format (s fmt : string) : option date :=
  match strptime s fmt with
  | Some dt =>
      if (year dt <? 100)%Z
      then replace_year dt
             (year dt + (if (20 <=? year dt)%Z then 1900 else 2000))%Z
      else Some dt
  | None => None
  end.

Fixpoint first_format (s : string) (fmts : list string) : option date :=
  match fmts with
  | [] => None
  | fmt :: fmts' =>
      match try_format s fmt with
      | Some dt => Some dt
      | None => first_format s fmts'
      end
  end.

Definition _parse_dob_any (dob : string) : option date :=
  match dob, strip dob with
  | EmptyString, _ | _, EmptyString => None
  | _, _ => first_format (replace_char "/" "-" (strip dob)) FMTS
  end.

Definition _dob_equal (a b : string) : bool :=
  match _parse_dob_any a, _parse_dob_any b with
  | Some da, Some db => date_eqb da db
  | _, _ => false
  end.

Definition _dob_to_str (dt : date) : string := strftime_dmY dt.

Record Patient := {
  name : string;
  dob : string;
  location : option string;
  insurance_carrier : option string;
  member_id : option string;
  group : option string }.

Record LookupResult := {
  status : string;
  match_score : option Q;
  patient : option Patient;
  duplicates : nat;
  reason : string }.

Definition new_result (why : string) : LookupResult :=
  {| status := "new"; match_score := None; patient := None;
     duplicates := 0; reason := why |}.

(** [df.iterrows()] with the default index 0, 1, 2, ... *)
Definition iterrows (df : DataFrame) : list (nat * list string) :=
  zip (seq 0 (length (rows df))) (rows df).

Definition Qgtb (a b : Q) : bool := negb (Qle_bool a b).

Section WithFloats.

(** The two floating-point library functions of the module:
    [SequenceMatcher(None, a, b).ratio()] and [round(x, 3)].  Their values
    are rationals here; the source only compares them. *)
Variable ratio : string -> string -> Q.
Variable round3 : Q -> Q.

Definition name_similarity (a b : string) : Q :=
  ratio (token_sort_key a) (token_sort_key b).

(** The [patient] entry of a [returning] result. The row has passed
    [_dob_equal], so its date of birth parses. *)
Definition patient_of (df : DataFrame) (row : list string)
    (col_name col_dob : string) : Patient :=
  let opt key :=
    match _find_col df key with
    | Some (String _ _ as col) => Some (cell df row col)
    | _ => None
    end in
  {| name := cell df row col_name;
     dob := from_option _dob_to_str "" (_parse_dob_any (cell df row col_dob));
     location := opt "location";
     insurance_carrier := opt "insurance_carrier";
     member_id := opt "member_id";
     group := opt "group" |}.

(** The list [matches_exact] of the first loop (the indices; the score is
    always 1.0). *)
Definition matches_exact (df : DataFrame) (col_name col_dob : string)
    (name_in dob_in : string) : list nat :=
  fst <$> List.filter
    (λ '(idx, row),
       _dob_equal dob_in (cell df row col_dob)
       && String.eqb (normalize_name (cell df row col_name)) name_in)
    (iterrows df).

(** One turn of the second loop on the pair [(best_idx, best_score)]. *)
Definition fuzzy_step (df : DataFrame) (col_name col_dob : string)
    (name_in dob_in : string) (best : option nat * Q)
    (it : nat * list string) : option nat * Q :=
  let '(idx, row) := it in
  if _dob_equal dob_in (cell df row col_dob) then
    let score := name_similarity name_in (cell df row col_name) in
    if Qgtb score (snd best) then (Some idx, score) else best
  else best.

Definition fuzzy_best (df : DataFrame) (col_name col_dob : string)
    (name_in dob_in : string) : option nat * Q :=
  fold_left (fuzzy_step df col_name col_dob name_in dob_in)
    (iterrows df) (None, 0%Q).

(** [csv] is the file at [csv_path], [None] when there is no such file.
    The [location] argument, which the source never reads, is left out. *)
Definition lookup_patient (csv_path : string) (csv : option DataFrame)
    (name dob : option string) (fuzzy_threshold : Q) : LookupResult :=
  match csv with
  | None => new_result ("CSV not found at " +:+ csv_path)
  | Some df =>
      match _find_col df "name", _find_col df "dob" with
      | Some (String a1 a2 as col_name), Some (String b1 b2 as col_dob) =>
          let name_in := normalize_name (default "" name) in
          let dob_in := default "" dob in
          match name_in, _parse_dob_any dob_in with
          | EmptyString, _ | _, None =>
              new_result "Insufficient info for lookup (need name + valid dob)"
          | _, Some _ =>
              match matches_exact df col_name col_dob name_in dob_in with
              | idx :: others =>
                  {| status := "returning";
                     match_score := Some 1%Q;
                     patient :=
                       Some (patient_of df (default [] (rows df !! idx))
                               col_name col_dob);
                     duplicates := length (idx :: others) - 1;
                     reason := "Exact name+dob match." |}
              | [] =>
                  match fuzzy_best df col_name col_dob name_in dob_in with
                  | (Some best_idx, best_score) =>
                      if Qle_bool fuzzy_threshold best_score then
                        {| status := "returning";
                           match_score := Some (round3 best_score);
                           patient :=
                             Some (patient_of df
                                     (default [] (rows df !! best_idx))
                                     col_name col_dob);
                           duplicates := 0;
                           reason := "Fuzzy name match with exact dob." |}
                      else new_result "No match found for name+dob"
                  | (None, _) => new_result "No match found for name+dob"
                  end
              end
          end
      | _, _ => new_result "CSV missing required columns for name/dob"
      end
  end.

End WithFloats.

Definition DEFAULT_CSV : string := "data/synthetic_patients.csv".

(** The default of [fuzzy_threshold], 0.87. *)
Definition DEFAULT_FUZZY_THRESHOLD : Q := 87 # 100.

(** *** [difflib.SequenceMatcher] without junk

    [ratio] is 2*M/T, where T is the total length and M the size of the
    matching blocks: the longest common block (the earliest in [a], then the
    earliest in [b], among the longest), then the same to its left and to
    its right.  This is what [difflib] computes while [b] is shorter than
    200 characters, where its automatic junk heuristic is off. *)

Fixpoint common_prefix (a b : string) : nat :=
  match a, b with
  | String x a', String y b' =>
      if Ascii.eqb x y then S (common_prefix a' b') else 0
  | _, _ => 0
  end.

Fixpoint suffixes (s : string) : list string :=
  s :: match s with
       | EmptyString => []
       | String _ s' => suffixes s'
       end.

Definition better (cur new : nat * nat * nat) : nat * nat * nat :=
  if (snd cur <? snd new)%nat then new else cur.

(** [find_longest_match]: [(i, j, k)] with [a[i:i+k] == b[j:j+k]]. *)
Definition find_longest_match (a b : string) : nat * nat * nat :=
  fold_left better
    (mjoin (imap (λ i sa, imap (λ j sb, (i, j, common_prefix sa sb))
                            (suffixes b))
                 (suffixes a)))
    (0, 0, 0)%nat.

Definition substr (start len : nat) (s : string) : string :=
  String.substring start len s.

Fixpoint matching_size (fuel : nat) (a b : string) : nat :=
  match fuel with
  | O => 0
  | S fuel' =>
      let '(i, j, k) := find_longest_match a b in
      match k with
      | O => 0
      | _ =>
          k + matching_size fuel' (substr 0 i a) (substr 0 j b)
            + matching_size fuel'
                (substr (i + k) (String.length a - (i + k)) a)
                (substr (j + k) (String.length b - (j + k)) b)
      end
  end.

Definition sequence_ratio (a b : string) : Q :=
  let total := (String.length a + String.length b)%nat in
  match total with
  | O => 1%Q
  | _ =>
      Z.of_nat (2 * matching_size (S (String.length a)) a b)
      # Pos.of_nat total
  end.

(** [round(x, 3)] on the rational value: the nearest multiple of 1/1000,
    the even one at a tie. *)
Definition round3_q (x : Q) : Q :=
  let n := (Qnum x * 1000)%Z in
  let d := Zpos (Qden x) in
  let q := (n / d)%Z in
  let r := (n mod d)%Z in
  let up := ((d <? 2 * r) || ((d =? 2 * r) && Z.odd q))%Z in
  (if up then q + 1 else q)%Z # 1000.

End Lookup.

(** ** The conversation state and the files on disk *)

Module Session.
Import PyStr Strptime.

(** The [extracted_info] dictionary as the agents read it with [get]:
    [None] is an absent key or the value [None]. *)
Record ExtractedInfo := {
  ei_name : option string;
  ei_dob : option string;
  ei_doctor : option string;
  ei_location : option string }.

(** The [scheduled_slot] dictionary in its three shapes: an error or an
    unavailability carries [status] and [message], a reservation carries
    [status], [doctor], [date], [time] and [location]. *)
Record Slot := {
  slot_status : option string;
  slot_message : option string;
  slot_doctor : option string;
  slot_date : option string;
  slot_time : option string;
  slot_location : option string }.

(** The state dictionary that the agents receive. *)
Record State := {
  extracted_info : option ExtractedInfo;
  status : option string;
  lookup_result : option Lookup.LookupResult;
  insurance_carrier : option string;
  member_id : option string;
  group_number : option string;
  scheduled_slot : option Slot }.

Definition set_scheduled_slot (state : State) (slot : Slot) : State :=
  {| extracted_info := extracted_info state;
     status := status state;
     lookup_result := lookup_result state;
     insurance_carrier := insurance_carrier state;
     member_id := member_id state;
     group_number := group_number state;
     scheduled_slot := Some slot |}.

(** A row of the doctor schedule: the cells of its doctor, date, time and
    status columns, the date already a calendar date ([None] is [NaT]). *)
Record SchedRow := {
  r_doctor : string;
  r_date : option date;
  r_time : string;
  r_status : string }.

Definition with_status (row : SchedRow) (s : string) : SchedRow :=
  {| r_doctor := r_doctor row; r_date := r_date row;
     r_time := r_time row; r_status := s |}.

Record Schedule := { sched_columns : list string; sched_rows : list SchedRow }.

(** A row of the booking ledger ([APPOINTMENT_STATUS_COLUMNS]). *)
Record StatusRow := {
  Patient_Name : option string;
  Patient_DOB : option string;
  Doctor_Name : option string;
  DOA : option string;
  Time_Slot : option string;
  Email : option string;
  Phone_Number : option string;
  Status : string;
  Form_Filled : string;
  Cancellation_Reason : string }.

Inductive file := PATIENT_DB_FILE | APPOINTMENT_STATUS_FILE | DOCTOR_SCHEDULE_FILE.

Definition file_eqb (a b : file) : bool :=
  match a, b with
  | PATIENT_DB_FILE, PATIENT_DB_FILE
  | APPOINTMENT_STATUS_FILE, APPOINTMENT_STATUS_FILE
  | DOCTOR_SCHEDULE_FILE, DOCTOR_SCHEDULE_FILE => true
  | _, _ => false
  end.

(** What the agents do to the outside, in the order in which they do it: a
    [to_csv]/[to_excel] call with its success, and a text message handed
    to the notification sender. *)
Inductive Event :=
| EvWrite (f : file) (ok : bool)
| EvSms (phone body : string).

(** The three files ([None]: the file does not exist), which reads and
    writes raise, and the events so far (oldest first). *)
Record World := {
  patient_db : option Lookup.DataFrame;
  appointment_status : option (list StatusRow);
  doctor_schedule : option Schedule;
  read_fails : file -> bool;
  write_fails : file -> bool;
  trace : list Event }.

Definition log (w : World) (e : Event) : World :=
  {| patient_db := patient_db w;
     appointment_status := appointment_status w;
     doctor_schedule := doctor_schedule w;
     read_fails := read_fails w;
     write_fails := write_fails w;
     trace := trace w ++ [e] |}.

Definition put_patient_db (w : World) (df : Lookup.DataFrame) : World :=
  {| patient_db := Some df;
     appointment_status := appointment_status w;
     doctor_schedule := doctor_schedule w;
     read_fails := read_fails w;
     write_fails := write_fails w;
     trace := trace w |}.

Definition put_appointment_status (w : World) (l : list StatusRow) : World :=
  {| patient_db := patient_db w;
     appointment_status := Some l;
     doctor_schedule := doctor_schedule w;
     read_fails := read_fails w;
     write_fails := write_fails w;
     trace := trace w |}.

Definition put_doctor_schedule (w : World) (s : Schedule) : World :=
  {| patient_db := patient_db w;
     appointment_status := appointment_status w;
     doctor_schedule := Some s;
     read_fails := read_fails w;
     write_fails := write_fails w;
     trace := trace w |}.

(** A call either returns or raises. *)
Inductive outcome (A : Type) :=
| Return (a : A)
| Raise (exn : string).
Arguments Return {A} a.
Arguments Raise {A} exn.

End Session.

(** ** The slot allocator: [src/agents/appointment_scheduler_agent.py] *)

Module Scheduler.
Import PyStr Strptime Session.

Definition _validate_date (date_str : string) : option date :=
  strptime date_str "%d-%m-%Y".

Definition morning (t : string) : bool := contains "10" t || contains "11" t.

Definition afternoon (t : string) : bool :=
  contains "2" t || contains "3" t || contains "4" t || contains "5" t.

Definition is_available (s : string) : bool := String.eqb (lower s) "available".

(** The test of the loop body on two neighbouring slots. *)
Definition pair_ok (a b : string * string) : bool :=
  is_available (snd a) && is_available (snd b)
  && ((morning (fst a) && morning (fst b))
      || (afternoon (fst a) && afternoon (fst b))).

(** The loop of [_find_consecutive_slots] from position [i] on. *)
Fixpoint find_from (i : nat) (slots : list (string * string))
  : option (nat * nat) :=
  match slots with
  | a :: (b :: _) as rest =>
      if pair_ok a b then Some (i, S i) else find_from (S i) rest
  | _ => None
  end.

Definition _find_consecutive_slots (slots : list (string * string))
  : option (nat * nat) := find_from 0 slots.

Definition col_map : list (string * list string) :=
  [("doctor", ["doctor"; "doctor name"; "dr"]);
   ("date", ["date"]);
   ("time", ["time"; "time slot"; "slot"]);
   ("status", ["status"; "availability"])].

(** [repr] of a list of plain words, as the f-string prints it. *)
Definition repr_list (l : list string) : string :=
  "[" +:+ join ", " ((λ s, "'" +:+ s +:+ "'") <$> l) +:+ "]".

Definition error_slot (kind msg : string) : Slot :=
  {| slot_status := Some kind; slot_message := Some msg;
     slot_doctor := None; slot_date := None; slot_time := None;
     slot_location := None |}.

Definition confirmed_slot (doctor preferred_date slot_time : string)
    (location : option string) : Slot :=
  {| slot_status := Some "confirmed"; slot_message := None;
     slot_doctor := Some doctor; slot_date := Some preferred_date;
     slot_time := Some slot_time; slot_location := location |}.

(** [df.to_excel(SCHEDULE_FILE, index=False)] *)
Definition to_excel (w : World) (df : Schedule) : outcome World :=
  if write_fails w DOCTOR_SCHEDULE_FILE
  then Raise "OSError"
  else Return (log (put_doctor_schedule w df) (EvWrite DOCTOR_SCHEDULE_FILE true)).

(** The rows of [date_match] with their index in [df]. *)
Definition date_match_of (rows : list SchedRow) (doctor : string) (dt : date)
  : list (nat * SchedRow) :=
  List.filter
    (λ '(_, row),
       String.eqb (lower (r_doctor row)) (lower doctor)
       && from_option (date_eqb dt) false (r_date row))
    (zip (seq 0 (length rows)) rows).

Definition book (rows : list SchedRow) (idx : nat) (patient_name : option string)
  : list SchedRow :=
  match rows !! idx with
  | Some row => <[idx := with_status row ("Booked by " +:+ fmt patient_name)]> rows
  | None => rows
  end.

(** [df.columns = [c.strip().lower() for c in df.columns]] *)
Definition normalized_columns (df : Schedule) : list string :=
  (λ c, lower (strip c)) <$> sched_columns df.

(** [missing = [k for k in col_map if k not in resolved]] *)
Definition missing_columns (df : Schedule) : list string :=
  let resolved key_aliases :=
    existsb (λ alias, bool_decide (alias ∈ normalized_columns df))
      (snd key_aliases) in
  fst <$> List.filter (λ ka, negb (resolved ka)) col_map.

Definition schedule_appointment (w : World) (state : State)
    (preferred_date : string) : outcome (State * World) :=
  let info := extracted_info state in
  let doctor := info ≫= ei_doctor in
  let patient_name := info ≫= ei_name in
  let location := info ≫= ei_location in
  match _validate_date preferred_date with
  | None =>
      Return (set_scheduled_slot state
                (error_slot "error" "Invalid date format. Use DD-MM-YYYY."), w)
  | Some dt =>
  match (if read_fails w DOCTOR_SCHEDULE_FILE then None else doctor_schedule w) with
  | None => Raise "FileNotFoundError"
  | Some df0 =>
  let columns := normalized_columns df0 in
  let missing := missing_columns df0 in
  match missing with
  | _ :: _ =>
      Return (set_scheduled_slot state
                (error_slot "error"
                   ("Schedule file missing columns: " +:+ repr_list missing
                    +:+ ". Found: " +:+ repr_list columns)), w)
  | [] =>
  match doctor with
  | None => Raise "AttributeError"
  | Some doctor =>
  let rows := sched_rows df0 in
  let date_match := date_match_of rows doctor dt in
  match date_match with
  | [] =>
      Return (set_scheduled_slot state
                (error_slot "error"
                   (doctor +:+ " not available on " +:+ preferred_date +:+ ".")), w)
  | _ :: _ =>
  if bool_decide (status state = Some "returning") then
    match List.filter (λ '(_, row), is_available (r_status row)) date_match with
    | (idx, row) :: _ =>
        match to_excel w {| sched_columns := columns;
                            sched_rows := book rows idx patient_name |} with
        | Raise e => Raise e
        | Return w' =>
            Return (set_scheduled_slot state
                      (confirmed_slot doctor preferred_date (r_time row) location),
                    w')
        end
    | [] =>
        Return (set_scheduled_slot state
                  (error_slot "unavailable"
                     ("No slots available for " +:+ doctor +:+ " on "
                      +:+ preferred_date +:+ ".")), w)
    end
  else if bool_decide (status state = Some "new") then
    let slots := (λ '(_, row), (r_time row, r_status row)) <$> date_match in
    match _find_consecutive_slots slots with
    | Some (i1, i2) =>
        match date_match !! i1, date_match !! i2 with
        | Some (idx1, row1), Some (idx2, row2) =>
            match to_excel w
                    {| sched_columns := columns;
                       sched_rows :=
                         book (book rows idx1 patient_name) idx2 patient_name |}
            with
            | Raise e => Raise e
            | Return w' =>
                Return (set_scheduled_slot state
                          (confirmed_slot doctor preferred_date
                             (r_time row1 +:+ " & " +:+ r_time row2) location),
                        w')
            end
        | _, _ => Raise "IndexError"
        end
    | None =>
        Return (set_scheduled_slot state
                  (error_slot "unavailable"
                     ("No 1 hour slots available for " +:+ doctor +:+ " on "
                      +:+ preferred_date +:+ ".")), w)
    end
  else
    Return (set_scheduled_slot state (error_slot "error" "Unknown patient status"), w)
  end end end end end.

End Scheduler.

(** ** The booking finalizer: [src/agents/confirmation_agent.py] *)

Module Confirmation.
Import PyStr Strptime Session.

Definition PATIENT_DB_COLUMNS : list string :=
  ["Name"; "DOB"; "Location"; "Insurance Carrier";
   "Member ID"; "Group Number"; "Email"; "Phone"].

(** The [patient_record] dictionary, keyed by [PATIENT_DB_COLUMNS]. *)
Record PatientRecord := {
  pr_Name : option string;
  pr_DOB : option string;
  pr_Location : option string;
  pr_Insurance_Carrier : option string;
  pr_Member_ID : option string;
  pr_Group_Number : option string;
  pr_Email : string;
  pr_Phone : string }.

Inductive ConfirmationStatus :=
| skipped_no_booking
| error_writing_to_csv (e : string)
| error_unknown_patient_status
| appointment_confirmed
| appointment_cancelled
| invalid_decision.

Record Result := {
  confirmation_status : ConfirmationStatus;
  patient_record : option PatientRecord }.

(** The row that [to_csv] writes for the record: [None] is an empty cell. *)
Definition csv_row (r : PatientRecord) : list string :=
  [default "" (pr_Name r); default "" (pr_DOB r); default "" (pr_Location r);
   default "" (pr_Insurance_Carrier r); default "" (pr_Member_ID r);
   default "" (pr_Group_Number r); pr_Email r; pr_Phone r].

(** [pd.concat([df, pd.DataFrame([patient_record])])[PATIENT_DB_COLUMNS]]:
    the rows of [df] on the eight columns (a missing column gives empty
    cells), then the new row. *)
Definition concat_patient (df : Lookup.DataFrame) (r : PatientRecord)
  : Lookup.DataFrame :=
  {| Lookup.columns := PATIENT_DB_COLUMNS;
     Lookup.rows :=
       ((λ row, (λ c, Lookup.cell df row c) <$> PATIENT_DB_COLUMNS)
          <$> Lookup.rows df) ++ [csv_row r] |}.

(** The [try] block that saves a new patient: the world after it and the
    exception it caught, if any. *)
Definition save_new_patient (w : World) (r : PatientRecord)
  : World * option string :=
  let df :=
    match patient_db w with
    | Some df => if read_fails w PATIENT_DB_FILE then None else Some df
    | None => Some {| Lookup.columns := PATIENT_DB_COLUMNS; Lookup.rows := [] |}
    end in
  match df with
  | None => (w, Some "read error")
  | Some df =>
      if write_fails w PATIENT_DB_FILE
      then (log w (EvWrite PATIENT_DB_FILE false), Some "write error")
      else (log (put_patient_db w (concat_patient df r))
              (EvWrite PATIENT_DB_FILE true), None)
  end.

(** The [try] block that appends the ledger row; an exception is printed
    and dropped. *)
Definition append_status (w : World) (row : StatusRow) : World :=
  let df :=
    match appointment_status w with
    | Some l => if read_fails w APPOINTMENT_STATUS_FILE then None else Some l
    | None => Some []
    end in
  match df with
  | None => w
  | Some l =>
      if write_fails w APPOINTMENT_STATUS_FILE
      then log w (EvWrite APPOINTMENT_STATUS_FILE false)
      else log (put_appointment_status w (l ++ [row]))
             (EvWrite APPOINTMENT_STATUS_FILE true)
  end.

Definition _send_twilio_confirmation_sms (w : World) (phone : string)
    (details : option Slot) : World :=
  match phone with
  | EmptyString => w
  | _ =>
      let doctor_name := default "[Doctor Name]" (details ≫= slot_doctor) in
      let appointment_date := default "[Date]" (details ≫= slot_date) in
      let time_slot := default "[Time]" (details ≫= slot_time) in
      log w (EvSms phone
               ("Hi. Thank you for using the scheduling AI. "
                +:+ "Your appointment with " +:+ doctor_name +:+ " on "
                +:+ appointment_date +:+ " is confirmed. "
                +:+ "Your time slot is " +:+ time_slot +:+ ". "
                +:+ "Please make sure to complete all necessary requirements and arrive 15 minutes early."))
  end.

Definition _send_twilio_cancellation_sms (w : World) (phone : string) : World :=
  match phone with
  | EmptyString => w
  | _ =>
      log w (EvSms phone
               "Your medical appointment has been successfully cancelled as requested.")
  end.

Definition col_map : list (string * list string) :=
  [("doctor", ["doctor name"; "doctor"; "dr"]);
   ("date", ["date"]);
   ("time", ["time slot"; "time"; "slot"]);
   ("status", ["status"; "availability"])].

(** [_resolve_schedule_columns(df) is not None]: every key has an alias
    among the stripped, lower-cased column names. *)
Definition _resolve_schedule_columns (df : Schedule) : bool :=
  let normalized_cols := (λ c, lower (strip c)) <$> sched_columns df in
  forallb
    (λ ka, existsb (λ alias, bool_decide (alias ∈ normalized_cols)) (snd ka))
    col_map.

(** The body of the [try] of [_revert_doctor_schedule]; every exception
    ends it without a change. [pd.to_datetime(s, format="%d-%m-%Y")] reads
    the date as [strptime] does. *)
Definition _revert_doctor_schedule (w : World) (state : State) : World :=
  match doctor_schedule w with
  | None => w
  | Some df =>
      if read_fails w DOCTOR_SCHEDULE_FILE then w
      else if negb (_resolve_schedule_columns df) then w
      else
        let slot_info := scheduled_slot state in
        match slot_info ≫= slot_doctor,
              (slot_info ≫= slot_date) ≫= (λ d, strptime d "%d-%m-%Y") with
        | Some doctor, Some date =>
            let times :=
              strip <$> split_on "&" (default "" (slot_info ≫= slot_time)) in
            let condition row :=
              String.eqb (lower (strip (r_doctor row))) (lower doctor)
              && from_option (date_eqb date) false (r_date row)
              && bool_decide (r_time row ∈ times) in
            if existsb condition (sched_rows df) then
              if write_fails w DOCTOR_SCHEDULE_FILE
              then log w (EvWrite DOCTOR_SCHEDULE_FILE false)
              else
                log (put_doctor_schedule w
                       {| sched_columns := sched_columns df;
                          sched_rows :=
                            (λ row, if condition row
                                    then with_status row "Available" else row)
                              <$> sched_rows df |})
                  (EvWrite DOCTOR_SCHEDULE_FILE true)
            else w
        | _, _ => w
        end
  end.

(** The index of the last element that satisfies [p]. *)
Definition last_index {A} (p : A -> bool) (l : list A) : option nat :=
  last (fst <$> List.filter (λ it, p (snd it)) (zip (seq 0 (length l)) l)).

(** The body of the [try] of [_remove_new_patient_record]. *)
Definition _remove_new_patient_record (w : World) (r : PatientRecord) : World :=
  match patient_db w with
  | None => w
  | Some df =>
      if read_fails w PATIENT_DB_FILE then w
      else if negb (bool_decide ("Name" ∈ Lookup.columns df)
                    && bool_decide ("DOB" ∈ Lookup.columns df)) then w
      else
        let condition row :=
          String.eqb (lower (strip (Lookup.cell df row "Name")))
                     (lower (fmt (pr_Name r)))
          && String.eqb (strip (Lookup.cell df row "DOB")) (fmt (pr_DOB r)) in
        match last_index condition (Lookup.rows df) with
        | None => w
        | Some i =>
            if write_fails w PATIENT_DB_FILE
            then log w (EvWrite PATIENT_DB_FILE false)
            else
              log (put_patient_db w
                     {| Lookup.columns := Lookup.columns df;
                        Lookup.rows := delete i (Lookup.rows df) |})
                (EvWrite PATIENT_DB_FILE true)
        end
  end.

(** [(decision or "").strip().upper()] *)
Definition normalize_decision (decision : option string) : string :=
  upper (strip (default "" decision)).

Definition _finalize_confirmation (w : World) (state : State)
    (patient_record : PatientRecord) (decision : option string)
  : Result * World :=
  let decision := normalize_decision decision in
  if String.eqb decision "CONFIRM" then
    let slot := scheduled_slot state in
    let status_data :=
      {| Patient_Name := pr_Name patient_record;
         Patient_DOB := pr_DOB patient_record;
         Doctor_Name := slot ≫= slot_doctor;
         DOA := slot ≫= slot_date;
         Time_Slot := slot ≫= slot_time;
         Email := Some (pr_Email patient_record);
         Phone_Number := Some (pr_Phone patient_record);
         Status := "Confirmed"; Form_Filled := "No";
         Cancellation_Reason := "" |} in
    let w1 := append_status w status_data in
    let w2 := _send_twilio_confirmation_sms w1 (pr_Phone patient_record) slot in
    ({| confirmation_status := appointment_confirmed;
        patient_record := Some patient_record |}, w2)
  else if String.eqb decision "CANCEL" then
    let w1 := _revert_doctor_schedule w state in
    let w2 := if bool_decide (status state = Some "new")
              then _remove_new_patient_record w1 patient_record else w1 in
    let w3 := _send_twilio_cancellation_sms w2 (pr_Phone patient_record) in
    ({| confirmation_status := appointment_cancelled;
        patient_record := Some patient_record |}, w3)
  else
    ({| confirmation_status := invalid_decision;
        patient_record := Some patient_record |}, w).

Definition has_booking (state : State) : bool :=
  bool_decide (scheduled_slot state ≫= slot_status = Some "confirmed").

Definition confirmation_agent (w : World) (state : State)
    (email phone decision : option string) : outcome (Result * World) :=
  if negb (has_booking state) then
    Return ({| confirmation_status := skipped_no_booking;
               patient_record := None |}, w)
  else if bool_decide (status state = Some "new") then
    let info := extracted_info state in
    let patient_record :=
      {| pr_Name := info ≫= ei_name;
         pr_DOB := info ≫= ei_dob;
         pr_Location := info ≫= ei_location;
         pr_Insurance_Carrier := insurance_carrier state;
         pr_Member_ID := member_id state;
         pr_Group_Number := group_number state;
         pr_Email := strip (default "" email);
         pr_Phone := strip (default "" phone) |} in
    match save_new_patient w patient_record with
    | (w', Some e) =>
        Return ({| confirmation_status := error_writing_to_csv e;
                   patient_record := None |}, w')
    | (w', None) => Return (_finalize_confirmation w' state patient_record decision)
    end
  else if bool_decide (status state = Some "returning") then
    match lookup_result state with
    | Some {| Lookup.patient := None |} => Raise "AttributeError"
    | lr =>
        let pr_raw := lr ≫= Lookup.patient in
        let transactional_record :=
          {| pr_Name := Lookup.name <$> pr_raw;
             pr_DOB := Lookup.dob <$> pr_raw;
             pr_Location := pr_raw ≫= Lookup.location;
             pr_Insurance_Carrier := pr_raw ≫= Lookup.insurance_carrier;
             pr_Member_ID := pr_raw ≫= Lookup.member_id;
             pr_Group_Number := pr_raw ≫= Lookup.group;
             pr_Email := strip (default "" email);
             pr_Phone := strip (default "" phone) |} in
        Return (_finalize_confirmation w state transactional_record decision)
    end
  else
    Return ({| confirmation_status := error_unknown_patient_status;
               patient_record := None |}, w).

End Confirmation.

(** ** The conversation: the chat loop of [app.py] *)

Module App.
Import PyStr Strptime Session.

(** The intake-form sender, [src/agents/form_agent.py]: its result string,
    one constructor per text. *)
Inductive FormStatus :=
| skipped_not_confirmed
| simulated_missing_credentials
| error_no_email_found
| error_pdf_not_found
| error_processing_pdf (e : string)
| sent_successfully
| error_sendgrid_api (status_code : Z)
| error_exception (e : string).

Inductive PdfRead := PdfOk | PdfNotFound | PdfError (e : string).
Inductive SendResult := SendStatus (status_code : Z) | SendException (e : string).

(** What the form sender meets outside: whether the SendGrid key and the
    sender address are set, the read of the PDF, the answer of the mail
    service. *)
Record Collaborators := {
  sendgrid_configured : bool;
  read_pdf : PdfRead;
  sendgrid_send : SendResult }.

Definition form_agent (env : Collaborators) (state : Confirmation.Result)
  : FormStatus :=
  match Confirmation.confirmation_status state with
  | Confirmation.appointment_confirmed =>
      if negb (sendgrid_configured env) then simulated_missing_credentials
      else
        match Confirmation.pr_Email <$> Confirmation.patient_record state with
        | None | Some EmptyString => error_no_email_found
        | Some _ =>
            match read_pdf env with
            | PdfNotFound => error_pdf_not_found
            | PdfError e => error_processing_pdf e
            | PdfOk =>
                match sendgrid_send env with
                | SendStatus code =>
                    if ((200 <=? code) && (code <? 300))%Z
                    then sent_successfully else error_sendgrid_api code
                | SendException e => error_exception e
                end
            end
        end
  | _ => skipped_not_confirmed
  end.

Inductive Stage :=
| GREETING
| COLLECTING_INFO
| COLLECTING_INSURANCE_CARRIER
| COLLECTING_INSURANCE_MEMBER_ID
| COLLECTING_INSURANCE_GROUP_NUMBER
| COLLECTING_DATE
| COLLECTING_EMAIL
| COLLECTING_PHONE
| COLLECTING_DECISION
| DONE.

(** [st.session_state.agent_state]: the state dictionary of the agents
    until the decision, then the dictionary that the finalizer returned,
    then the one of the form sender. *)
Inductive AgentState :=
| StateDict (state : State)
| ResultDict (r : Confirmation.Result)
| FormDict (form_sent_status : FormStatus).

Definition empty_state : State :=
  {| extracted_info := None; status := None;
     lookup_result := None; insurance_carrier := None; member_id := None;
     group_number := None; scheduled_slot := None |}.

(** The keys of the state dictionary as the agents read them with [get]:
    the two later dictionaries have none of them. *)
Definition as_state (a : AgentState) : State :=
  match a with
  | StateDict state => state
  | _ => empty_state
  end.

Inductive Role := user | assistant.

Record SessionState := {
  stage : Stage;
  messages : list (Role * string);
  agent_state : AgentState;
  temp_email : option string;
  temp_phone : option string }.

Definition say (s : SessionState) (role : Role) (content : string) : SessionState :=
  {| stage := stage s; messages := messages s ++ [(role, content)];
     agent_state := agent_state s;
     temp_email := temp_email s; temp_phone := temp_phone s |}.

Definition goto (s : SessionState) (st : Stage) : SessionState :=
  {| stage := st; messages := messages s; agent_state := agent_state s;
     temp_email := temp_email s; temp_phone := temp_phone s |}.

Definition set_agent_state (s : SessionState) (a : AgentState) : SessionState :=
  {| stage := stage s; messages := messages s; agent_state := a;
     temp_email := temp_email s; temp_phone := temp_phone s |}.

(** The answers of the decision stage (without their leading emoji). *)
Definition INVALID_INPUT : string :=
  " Invalid input. Please type **CONFIRM** or **CANCEL**.".

Definition CONFIRMED : string :=
  " Thank you! Your appointment is confirmed. "
  +:+ "You will receive an SMS and an email with the intake form shortly. "
  +:+ "You will be reminded when the appointment date is getting near. No need to worry."
  +:+ "Don't have a good day. Have a great day!".

Definition CANCELLED : string :=
  " Your appointment has been cancelled. "
  +:+ "If you'd like to rebook, just start over!".

(** The branch [elif st.session_state.stage == "COLLECTING_DECISION"].  An
    exception of the finalizer ends the run of the script: what was
    assigned before it stays, the stage is not touched. *)
Definition collecting_decision (env : Collaborators) (w : World)
    (s : SessionState) (prompt : string) : SessionState * World :=
  let decision := upper (strip prompt) in
  if negb (bool_decide (decision ∈ ["CONFIRM"; "CANCEL"])) then
    (say s assistant INVALID_INPUT, w)
  else
    match Confirmation.confirmation_agent w (as_state (agent_state s))
            (temp_email s) (temp_phone s) (Some decision) with
    | Raise _ => (s, w)
    | Return (r, w') =>
        let s1 := set_agent_state s (ResultDict r) in
        if String.eqb decision "CONFIRM" then
          let s2 := set_agent_state s1 (FormDict (form_agent env r)) in
          (goto (say s2 assistant CONFIRMED) DONE, w')
        else
          (goto (say s1 assistant CANCELLED) DONE, w')
    end.

Definition set_temp_email (s : SessionState) (v : string) : SessionState :=
  {| stage := stage s; messages := messages s; agent_state := agent_state s;
     temp_email := Some v; temp_phone := temp_phone s |}.

Definition set_temp_phone (s : SessionState) (v : string) : SessionState :=
  {| stage := stage s; messages := messages s; agent_state := agent_state s;
     temp_email := temp_email s; temp_phone := Some v |}.

Definition collecting_email (s : SessionState) (prompt : string) : SessionState :=
  goto (say (set_temp_email s (strip prompt)) assistant
          "Thanks! Now, could you please provide your **phone number**?")
    COLLECTING_PHONE.

Definition collecting_phone (s : SessionState) (prompt : string) : SessionState :=
  goto (say (set_temp_phone s (strip prompt)) assistant
          "Almost done! Please type **CONFIRM** to confirm your appointment or **CANCEL** to cancel it.")
    COLLECTING_DECISION.

(** The final [else]: the answer, then the reset. *)
Definition done (s : SessionState) : SessionState :=
  {| stage := GREETING;
     messages := messages s
       ++ [(assistant, "I'm ready to help with a new booking. Just let me know!")];
     agent_state := StateDict empty_state;
     temp_email := None; temp_phone := None |}.

(** One run of the script for a submitted [prompt].  The user's message is
    recorded first, then the branch of the current stage runs.  The stages
    before [COLLECTING_EMAIL] belong to the collection of details and to the
    slot search; their branches are not part of this development and [turn]
    gives [None] for them. *)
Definition turn (env : Collaborators) (w : World) (s : SessionState)
    (prompt : string) : option (SessionState * World) :=
  match prompt with
  | EmptyString => Some (s, w)
  | _ =>
      let s := say s user prompt in
      match stage s with
      | COLLECTING_EMAIL => Some (collecting_email s prompt, w)
      | COLLECTING_PHONE => Some (collecting_phone s prompt, w)
      | COLLECTING_DECISION => Some (collecting_decision env w s prompt)
      | DONE => Some (done s, w)
      | _ => None
      end
  end.

End App.

(** ** Sample data: the stores and states of the repository's tests *)

Module Samples.
Import Session.

Definition sept8 : Strptime.date := Strptime.Date 2025 9 8.

(** The schedule of [tests/confirmation_agent_test.py]. *)
Definition reed_schedule : Schedule :=
  {| sched_columns := ["Doctor Name"; "Date"; "Time Slot"; "Status"];
     sched_rows :=
       [ {| r_doctor := "Dr. Evelyn Reed"; r_date := Some sept8;
            r_time := "10:00-10:30"; r_status := "Booked" |};
         {| r_doctor := "Dr. Evelyn Reed"; r_date := Some sept8;
            r_time := "10:30-11:00"; r_status := "Booked" |};
         {| r_doctor := "Dr. Evelyn Reed"; r_date := Some sept8;
            r_time := "11:00-11:30"; r_status := "Available" |} ] |}.

(** The schedule of the scenario of the specification: two free morning
    slots of one doctor. *)
Definition morning_schedule : Schedule :=
  {| sched_columns := ["Doctor Name"; "Date"; "Time Slot"; "Status"];
     sched_rows :=
       [ {| r_doctor := "Dr. X"; r_date := Some sept8;
            r_time := "10:00-10:30"; r_status := "Available" |};
         {| r_doctor := "Dr. X"; r_date := Some sept8;
            r_time := "10:30-11:00"; r_status := "Available" |} ] |}.

(** A day of one doctor around the midday break: the last morning slot
    and the afternoon slots are free. *)
Definition midday_schedule : Schedule :=
  {| sched_columns := ["Doctor Name"; "Date"; "Time Slot"; "Status"];
     sched_rows :=
       [ {| r_doctor := "Dr. X"; r_date := Some sept8;
            r_time := "10:30-11:00"; r_status := "Booked" |};
         {| r_doctor := "Dr. X"; r_date := Some sept8;
            r_time := "11:00-11:30"; r_status := "Available" |};
         {| r_doctor := "Dr. X"; r_date := Some sept8;
            r_time := "2:00-2:30"; r_status := "Available" |};
         {| r_doctor := "Dr. X"; r_date := Some sept8;
            r_time := "2:30-3:00"; r_status := "Available" |} ] |}.

(** The patient file of the same test. *)
Definition patients : Lookup.DataFrame :=
  {| Lookup.columns := Confirmation.PATIENT_DB_COLUMNS;
     Lookup.rows :=
       [ ["Existing Patient"; "01-01-1990"; "Old Town"; "Old Insurance";
          "E123"; "G99"; "existing@test.com"; "9876543210"] ] |}.

(** A patient file in which two records are near matches of
    "Kishore Kumar", born on 12 March 1990. *)
Definition kishore_store : Lookup.DataFrame :=
  {| Lookup.columns := ["Name"; "DOB"; "Location"];
     Lookup.rows :=
       [ ["Kishore Kumar K"; "1990-03-12"; "Chennai"];
         ["K. Kumar Kishore"; "12/03/1990"; "Chennai"];
         ["Ravi Varma"; "1990-03-12"; "Bengaluru"] ] |}.

Definition never : file -> bool := λ _, false.

Definition world (sched : Schedule) : World :=
  {| patient_db := Some patients;
     appointment_status := None;
     doctor_schedule := Some sched;
     read_fails := never;
     write_fails := never;
     trace := [] |}.

(** The same files, with a ledger that cannot be written. *)
Definition world_ledger_down : World :=
  {| patient_db := Some patients;
     appointment_status := None;
     doctor_schedule := Some reed_schedule;
     read_fails := never;
     write_fails := λ f, file_eqb f APPOINTMENT_STATUS_FILE;
     trace := [] |}.

Definition reserved (time : string) : Slot :=
  {| slot_status := Some "confirmed"; slot_message := None;
     slot_doctor := Some "Dr. Evelyn Reed"; slot_date := Some "08-09-2025";
     slot_time := Some time; slot_location := None |}.

Definition info (name dob doctor : string) : ExtractedInfo :=
  {| ei_name := Some name; ei_dob := Some dob;
     ei_doctor := Some doctor; ei_location := None |}.

(** A new patient who holds a reservation. *)
Definition alice : State :=
  {| extracted_info := Some (info "New Patient Alice" "02-02-2000" "Dr. Evelyn Reed");
     status := Some "new";
     lookup_result := None;
     insurance_carrier := Some "HealthFirst";
     member_id := Some "N123";
     group_number := Some "G1";
     scheduled_slot := Some (reserved "11:00-11:30") |}.

(** A returning patient who holds a reservation. *)
Definition existing : State :=
  {| extracted_info := Some (info "Existing Patient" "01-01-1990" "Dr. Evelyn Reed");
     status := Some "returning";
     lookup_result :=
       Some {| Lookup.status := "returning";
               Lookup.match_score := Some 1%Q;
               Lookup.patient :=
                 Some {| Lookup.name := "Existing Patient";
                         Lookup.dob := "01-01-1990";
                         Lookup.location := Some "Old Town";
                         Lookup.insurance_carrier := Some "Old Insurance";
                         Lookup.member_id := Some "E123";
                         Lookup.group := Some "G99" |};
               Lookup.duplicates := 0;
               Lookup.reason := "Exact name+dob match." |};
     insurance_carrier := None;
     member_id := None;
     group_number := None;
     scheduled_slot := Some (reserved "11:00-11:30") |}.

(** A session before the lookup has classified the patient. *)
Definition unclassified (doctor : string) : State :=
  {| extracted_info := Some (info "Ravi Varma" "01-01-1980" doctor);
     status := Some "unknown";
     lookup_result := None;
     insurance_carrier := None;
     member_id := None;
     group_number := None;
     scheduled_slot := None |}.

Definition with_class (state : State) (class : string) : State :=
  {| extracted_info := extracted_info state;
     status := Some class;
     lookup_result := lookup_result state;
     insurance_carrier := insurance_carrier state;
     member_id := member_id state;
     group_number := group_number state;
     scheduled_slot := scheduled_slot state |}.

End Samples.

(** ** Words of the specification, for the statements below *)

Module Spec.
Import PyStr Session.

(** The scores of the records among [items] whose date of birth is the
    candidate's, in the order of [items]. *)
Definition scores_of (ratio : string -> string -> Q) (df : Lookup.DataFrame)
    (col_name col_dob name_in dob_in : string)
    (items : list (nat * list string)) : list Q :=
  (λ it, Lookup.name_similarity ratio name_in (Lookup.cell df (snd it) col_name))
    <$> List.filter (λ it, Lookup._dob_equal dob_in (Lookup.cell df (snd it) col_dob))
          items.

(** The scores that the fuzzy pass looks at: one for each record of the
    store whose date of birth is the candidate's, in store order. *)
Definition fuzzy_scores (ratio : string -> string -> Q) (df : Lookup.DataFrame)
    (col_name col_dob name_in dob_in : string) : list Q :=
  scores_of ratio df col_name col_dob name_in dob_in (Lookup.iterrows df).

(** The highest score of a list, when it has one. *)
Fixpoint highest (l : list Q) : option Q :=
  match l with
  | [] => None
  | x :: l' =>
      match highest l' with
      | None => Some x
      | Some y => Some (if Qle_bool y x then x else y)
      end
  end.

(** The lookup gets as far as its fuzzy pass: the file is there, its name
    and date-of-birth columns are [col_name] and [col_dob], the candidate
    has a name and a date of birth that parses, and no record is an exact
    match. *)
Definition reaches_fuzzy_pass (csv : option Lookup.DataFrame)
    (name dob : option string) (df : Lookup.DataFrame)
    (col_name col_dob : string) : Prop :=
  csv = Some df
  /\ Lookup._find_col df "name" = Some col_name /\ col_name <> ""
  /\ Lookup._find_col df "dob" = Some col_dob /\ col_dob <> ""
  /\ Lookup.normalize_name (default "" name) <> ""
  /\ Lookup._parse_dob_any (default "" dob) <> None
  /\ Lookup.matches_exact df col_name col_dob
       (Lookup.normalize_name (default "" name)) (default "" dob) = [].

(** The state of a session as the chat loop builds it: a "returning"
    classification comes with the matched patient of the lookup. *)
Definition lookup_consistent (state : State) : Prop :=
  status state = Some "returning" ->
  forall lr, lookup_result state = Some lr -> Lookup.patient lr <> None.

(** The decision that the chat loop reads from the input. *)
Definition accepted (prompt : string) : Prop :=
  upper (strip prompt) = "CONFIRM" \/ upper (strip prompt) = "CANCEL".

(** The session test of [_find_consecutive_slots] as a proposition: both
    labels contain "10" or "11" somewhere, or both contain one of "2", "3",
    "4", "5" somewhere. *)
Definition passes_session_test (t1 t2 : string) : Prop :=
  ((contains "10" t1 \/ contains "11" t1) /\ (contains "10" t2 \/ contains "11" t2))
  \/ ((contains "2" t1 \/ contains "3" t1 \/ contains "4" t1 \/ contains "5" t1)
      /\ (contains "2" t2 \/ contains "3" t2 \/ contains "4" t2 \/ contains "5" t2)).

(** The text of [s] before its first [c]. *)
Fixpoint before (c : ascii) (s : string) : string :=
  match s with
  | EmptyString => EmptyString
  | String x s' => if Ascii.eqb x c then EmptyString else String x (before c s')
  end.

(** In the words of the specification.  The hour tokens of a time label
    such as "10:30-11:00" are the hours of its two ends, "10" and "11". *)
Definition hour_tokens (label : string) : list string :=
  (λ piece, strip (before ":" piece)) <$> split_on "-" label.

Definition MORNING_HOURS : list string := ["10"; "11"].
Definition AFTERNOON_HOURS : list string := ["2"; "3"; "4"; "5"].

(** The label carries one of the hour tokens [hours]. *)
Definition labeled (hours : list string) (label : string) : bool :=
  existsb (λ h, bool_decide (h ∈ hours)) (hour_tokens label).

(** Two slots fall in the same session: both are labeled with morning
    markers, or both with afternoon markers. *)
Definition same_session (t1 t2 : string) : bool :=
  (labeled MORNING_HOURS t1 && labeled MORNING_HOURS t2)
  || (labeled AFTERNOON_HOURS t1 && labeled AFTERNOON_HOURS t2).


(** The indices of the rows whose status differs between two versions of
    the schedule. *)
Definition changed_rows (old new : list SchedRow) : list nat :=
  fst <$> List.filter
    (λ it, negb (String.eqb (r_status (fst (snd it))) (r_status (snd (snd it)))))
    (zip (seq 0 (length old)) (zip old new)).

End Spec.

(** ** The shape of a normalized name *)

Module NameShape.
Import PyStr.

(** Every character of [s] satisfies [p]. *)
Fixpoint all_chars (p : ascii -> bool) (s : string) : bool :=
  match s with
  | EmptyString => true
  | String c s' => p c && all_chars p s'
  end.

(** Whitespace only as single spaces; [in_run] as in [sub_ws_from]. *)
Fixpoint squeezed_from (in_run : bool) (s : string) : bool :=
  match s with
  | EmptyString => true
  | String c s' =>
      if isspace c
      then negb in_run && Ascii.eqb c " " && squeezed_from true s'
      else squeezed_from false s'
  end.

Definition starts_clean (s : string) : bool :=
  match s with
  | EmptyString => true
  | String c _ => negb (isspace c)
  end.

(** The body of [normalize_name] after its guard. *)
Definition pipeline (s : string) : string :=
  lower (strip (sub_ws (translate_punct (sub_title (strip s))))).

End NameShape.

(** ** Further notions for the statements *)

Module Order.

(** The order of [sorted] on strings: by code points. *)
Definition str_le (a b : string) : Prop := String.leb a b = true.

End Order.

Module Dates.
Import Strptime.

(** A calendar date that [datetime] can hold. *)
Definition valid_date (dt : date) : Prop :=
  (1 <= year dt <= 9999 /\ 1 <= month dt <= 12
   /\ 1 <= day dt <= days_in_month (year dt) (month dt))%Z.

(** A character that is neither whitespace nor a slash, as in a printed
    date. *)
Definition date_char (c : ascii) : bool :=
  negb (PyStr.isspace c) && negb (Ascii.eqb c "/").

End Dates.

(** ** The graph of [patient_flow_graph.py]: lookup and routing *)

Module Graph.
Import Session.

(** [patient_lookup_agent(extracted_info)]: the lookup in the default
    file with the default threshold.  A file that is there and cannot be
    read makes [pd.read_csv] raise. *)
Definition patient_lookup_agent (ratio : string -> string -> Q) (round3 : Q -> Q)
    (w : World) (extracted_info : ExtractedInfo) : outcome Lookup.LookupResult :=
  match patient_db w with
  | Some _ =>
      if read_fails w PATIENT_DB_FILE then Raise "read error"
      else Return (Lookup.lookup_patient ratio round3 Lookup.DEFAULT_CSV
                     (patient_db w) (ei_name extracted_info)
                     (ei_dob extracted_info) Lookup.DEFAULT_FUZZY_THRESHOLD)
  | None =>
      Return (Lookup.lookup_patient ratio round3 Lookup.DEFAULT_CSV None
                (ei_name extracted_info) (ei_dob extracted_info)
                Lookup.DEFAULT_FUZZY_THRESHOLD)
  end.

(** The state after the update [{"lookup_result": lookup_result,
    "status": lookup_result.get("status")}] of [patient_lookup_node]; the
    chat loop of [app.py] stores the same two entries. *)
Definition with_lookup (state : State) (lr : Lookup.LookupResult) : State :=
  {| extracted_info := extracted_info state;
     status := Some (Lookup.status lr);
     lookup_result := Some lr;
     insurance_carrier := insurance_carrier state;
     member_id := member_id state;
     group_number := group_number state;
     scheduled_slot := scheduled_slot state |}.

Definition route_after_lookup (state : State) : string :=
  if bool_decide (status state = Some "new") then "InsuranceAgent"
  else if bool_decide (status state = Some "returning")
       then "AppointmentSchedulerAgent"
  else "END".

End Graph.

(** ** What a call may write *)

Module Frame.
Import Session.

(** [w'] comes from [w] by the events [evs], all of them allowed: a file
    whose writes are not allowed holds what it held, the failure modes of
    the files are the same, and the events were added at the end of the
    trace. *)
Definition within (allowed : Event -> bool) (w w' : World) (evs : list Event)
  : Prop :=
  (allowed (EvWrite PATIENT_DB_FILE true) = false -> patient_db w' = patient_db w)
  /\ (allowed (EvWrite APPOINTMENT_STATUS_FILE true) = false ->
      appointment_status w' = appointment_status w)
  /\ (allowed (EvWrite DOCTOR_SCHEDULE_FILE true) = false ->
      doctor_schedule w' = doctor_schedule w)
  /\ read_fails w' = read_fails w
  /\ write_fails w' = write_fails w
  /\ trace w' = trace w ++ evs
  /\ forallb allowed evs = true.

(** The writes to one file, successful or not. *)
Definition writes_to (f : file) (e : Event) : bool :=
  match e with
  | EvWrite g _ => file_eqb g f
  | EvSms _ _ => false
  end.

(** The messages to one number. *)
Definition sms_to (phone : string) (e : Event) : bool :=
  match e with
  | EvWrite _ _ => false
  | EvSms p _ => String.eqb p phone
  end.

End Frame.

(** ** Telephone numbers: [_format_phone_number] of
    [src/agents/confirmation_agent.py] and [normalize_phone] of
    [src/agents/remainder_agent.py] *)

Module Phone.
Import PyStr.

Definition _format_phone_number (phone : option string) : option string :=
  match phone with
  | None | Some EmptyString => None
  | Some phone =>
      let phone := strip phone in
      if startswith "+" phone then Some phone else Some ("+91" +:+ phone)
  end.

(** A cell without a value reaches [normalize_phone] as the float NaN,
    whose [str] is ["nan"]; here it is [None]. *)
Definition normalize_phone (phone : option string) : option string :=
  match phone with
  | None | Some EmptyString => None
  | Some phone =>
      if String.eqb (lower phone) "nan" then None
      else
        let phone := strip phone in
        if startswith "+" phone then Some phone else Some ("+91" +:+ phone)
  end.

End Phone.

(** ** The extractor's clean-up: [normalize_output] of
    [src/agents/patient_info_agent.py] *)

Module PatientInfo.
Import PyStr Strptime Session.

Definition FMTS : list string := ["%d-%m-%Y"; "%Y-%m-%d"; "%d-%m-%y"].

(** One turn of the loop over the formats: the new text of the date of
    birth, or [None] for the [continue] of the [except] clause. *)
Definition try_format (token fmt : string) : option string :=
  match strptime token fmt with
  | Some dt =>
      strftime_dmY
        <$> (if (year dt <? 100)%Z then replace_year dt (year dt + 1900)%Z
             else Some dt)
  | None => None
  end.

Fixpoint first_format (token : string) (fmts : list string) : option string :=
  match fmts with
  | [] => None
  | fmt :: fmts' =>
      match try_format token fmt with
      | Some s => Some s
      | None => first_format token fmts'
      end
  end.

Definition NULL_WORDS : list string := ["null"; "none"; ""].

(** The second loop, on one value. *)
Definition null_to_none (v : option string) : option string :=
  match v with
  | Some s => if bool_decide (lower (strip s) ∈ NULL_WORDS) then None else Some s
  | None => None
  end.

Definition normalize_output (data : ExtractedInfo) : ExtractedInfo :=
  let dob :=
    match ei_dob data with
    | None => None
    | Some EmptyString => Some EmptyString
    | Some d => Some (default d (first_format (replace_char "/" "-" d) FMTS))
    end in
  {| ei_name := null_to_none (ei_name data);
     ei_dob := null_to_none dob;
     ei_doctor := null_to_none (ei_doctor data);
     ei_location := null_to_none (ei_location data) |}.

End PatientInfo.

(** ** The stages of [app.py] from the insurance questions to the date *)

Module Intake.
Import PyStr Session App.

(** [src/agents/insurance_agent.py] *)
Definition insurance_agent (carrier member_id group_num : string)
  : string * string * string :=
  (strip carrier, strip member_id, strip group_num).

Definition set_insurance_carrier (state : State) (v : string) : State :=
  {| extracted_info := extracted_info state; status := status state;
     lookup_result := lookup_result state;
     insurance_carrier := Some v; member_id := member_id state;
     group_number := group_number state;
     scheduled_slot := scheduled_slot state |}.

Definition set_member_id (state : State) (v : string) : State :=
  {| extracted_info := extracted_info state; status := status state;
     lookup_result := lookup_result state;
     insurance_carrier := insurance_carrier state; member_id := Some v;
     group_number := group_number state;
     scheduled_slot := scheduled_slot state |}.

Definition set_group_number (state : State) (v : string) : State :=
  {| extracted_info := extracted_info state; status := status state;
     lookup_result := lookup_result state;
     insurance_carrier := insurance_carrier state; member_id := member_id state;
     group_number := Some v;
     scheduled_slot := scheduled_slot state |}.

Definition NL : string := String "010" EmptyString.

Definition collecting_insurance_carrier (s : SessionState) (state : State)
    (prompt : string) : SessionState :=
  goto (say (set_agent_state s
               (StateDict (set_insurance_carrier state (strip prompt))))
          assistant "Thanks! Now, could you please provide your **Member ID**?")
    COLLECTING_INSURANCE_MEMBER_ID.

Definition collecting_insurance_member_id (s : SessionState) (state : State)
    (prompt : string) : SessionState :=
  goto (say (set_agent_state s (StateDict (set_member_id state (strip prompt))))
          assistant "Great! Finally, could you provide your **Group Number**?")
    COLLECTING_INSURANCE_GROUP_NUMBER.

(** The group number is stored first; a state without the two earlier
    answers makes the subscripts raise [KeyError], which ends the run of
    the script. *)
Definition collecting_insurance_group_number (s : SessionState) (state : State)
    (prompt : string) : SessionState :=
  let state1 := set_group_number state (strip prompt) in
  match insurance_carrier state1, member_id state1, group_number state1 with
  | Some carrier, Some member, Some group =>
      let '(c, m, g) := insurance_agent carrier member group in
      goto (say (set_agent_state s
                   (StateDict
                      (set_group_number
                         (set_member_id (set_insurance_carrier state1 c) m) g)))
              assistant
              "Thank you! Now, what date (DD-MM-YYYY) would you like to book your appointment for?")
        COLLECTING_DATE
  | _, _, _ => set_agent_state s (StateDict state1)
  end.

Definition BOOKED (slot : Slot) : string :=
  "Great! I've provisionally booked you a slot with **"
  +:+ fmt (slot_doctor slot) +:+ "** on **" +:+ fmt (slot_date slot)
  +:+ "** at **" +:+ fmt (slot_time slot) +:+ "**." +:+ NL +:+ NL
  +:+ "To finalize, please provide your **email address**.".

Definition NO_SLOTS : string :=
  "I'm sorry, but it looks like there are no available slots on that day. "
  +:+ NL +:+ "Please try another date (DD-MM-YYYY).".

(** The branch of [COLLECTING_DATE].  An exception of the allocator ends
    the run of the script with nothing assigned. *)
Definition collecting_date (w : World) (s : SessionState) (state : State)
    (prompt : string) : SessionState * World :=
  match Scheduler.schedule_appointment w state prompt with
  | Raise _ => (s, w)
  | Return (state', w') =>
      let s1 := set_agent_state s (StateDict state') in
      match scheduled_slot state' with
      | Some slot =>
          if bool_decide (slot_status slot = Some "confirmed")
          then (goto (say s1 assistant (BOOKED slot)) COLLECTING_EMAIL, w')
          else (say s1 assistant NO_SLOTS, w')
      | None => (say s1 assistant NO_SLOTS, w')
      end
  end.

(** One run of the script, for the stages from the insurance questions
    on: the four stages above, which work on the state dictionary of the
    agents, and the stages of [App.turn]. *)
Definition turn (env : Collaborators) (w : World) (s : SessionState)
    (prompt : string) : option (SessionState * World) :=
  match prompt with
  | EmptyString => Some (s, w)
  | _ =>
      let s1 := say s user prompt in
      match stage s1, agent_state s1 with
      | COLLECTING_INSURANCE_CARRIER, StateDict state =>
          Some (collecting_insurance_carrier s1 state prompt, w)
      | COLLECTING_INSURANCE_MEMBER_ID, StateDict state =>
          Some (collecting_insurance_member_id s1 state prompt, w)
      | COLLECTING_INSURANCE_GROUP_NUMBER, StateDict state =>
          Some (collecting_insurance_group_number s1 state prompt, w)
      | COLLECTING_DATE, StateDict state =>
          Some (collecting_date w s1 state prompt)
      | _, _ => App.turn env w s prompt
      end
  end.

(** The submitted prompts, one run of the script each. *)
Fixpoint run (env : Collaborators) (w : World) (s : SessionState)
    (prompts : list string) : option (SessionState * World) :=
  match prompts with
  | [] => Some (s, w)
  | prompt :: rest =>
      match turn env w s prompt with
      | Some (s', w') => run env w' s' rest
      | None => None
      end
  end.

End Intake.

(** * Properties *)

(** ** Running the definitions on the examples of the specification *)

Example strip_ex : PyStr.strip "  confirm  " = "confirm".
Proof. reflexivity. Qed.

Example split_ex : PyStr.split " kumar  kishore " = ["kumar"; "kishore"].
Proof. reflexivity. Qed.

Example token_sort_ex :
  Lookup.token_sort_key "Kumar Kishore" = Lookup.token_sort_key "Kishore Kumar".
Proof. reflexivity. Qed.

Example sub_ws_ex : PyStr.sub_ws "a   b c" = "a b c".
Proof. reflexivity. Qed.

Example split_on_ex : PyStr.split_on "&" "a & b" = ["a "; " b"].
Proof. reflexivity. Qed.

Example strptime_dmY : Strptime.strptime "12-03-1990" "%d-%m-%Y" = Some (Strptime.Date 1990 3 12).
Proof. reflexivity. Qed.

Example strptime_short_year_rejected : Strptime.strptime "12-03-50" "%d-%m-%Y" = None.
Proof. reflexivity. Qed.

Example strptime_unpadded : Strptime.strptime "1-3-0050" "%d-%m-%Y" = Some (Strptime.Date 50 3 1).
Proof. reflexivity. Qed.

Example strptime_no_such_day : Strptime.strptime "31-02-2020" "%d-%m-%Y" = None.
Proof. reflexivity. Qed.

Example strftime_ex : Strptime.strftime_dmY (Strptime.Date 1990 3 12) = "12-03-1990".
Proof. reflexivity. Qed.

Example normalize_ex : Lookup.normalize_name "  Dr. Kishore  Kumar K. " = "kishore kumar k".
Proof. reflexivity. Qed.

Example parse_dob_iso : Lookup._parse_dob_any "1990-03-12" = Some (Strptime.Date 1990 3 12).
Proof. reflexivity. Qed.

Example parse_dob_slashes : Lookup._parse_dob_any " 12/03/1990 " = Some (Strptime.Date 1990 3 12).
Proof. reflexivity. Qed.

Example parse_dob_short_Y : Lookup._parse_dob_any "12-03-0050" = Some (Strptime.Date 1950 3 12).
Proof. reflexivity. Qed.

Example ratio_same : (Lookup.sequence_ratio "kishore kumar" "kishore kumar" == 1)%Q.
Proof. reflexivity. Qed.

Example ratio_shift : Lookup.sequence_ratio "abcd" "bcde" = (6 # 8)%Q.
Proof. vm_compute. reflexivity. Qed.

Example ratio_extra_token :
  Lookup.sequence_ratio "k kishore kumar" "kishore kumar" = (26 # 28)%Q.
Proof. vm_compute. reflexivity. Qed.

(** ** Date of birth: the two-digit year *)

Lemma date_eqb_eq (a b : Strptime.date) : Strptime.date_eqb a b = true -> a = b.
Proof.
  destruct a, b. unfold Strptime.date_eqb. simpl.
  rewrite !andb_true_iff, !Z.eqb_eq. intros [[-> ->] ->]. reflexivity.
Qed.

(** Every two-digit year takes its century from [%y]: the pivot is at 69. *)
Lemma two_digit_year_pivot (yy : nat) :
  yy < 100 ->
  Lookup._parse_dob_any ("12-03-" +:+ Strptime.pad2 (Z.of_nat yy))
  = Some (Strptime.Date
            (if (Z.of_nat yy <=? 68)%Z then 2000 + Z.of_nat yy else 1900 + Z.of_nat yy)
            3 12).
Proof.
  intros Hlt.
  assert (Hall : forallb
            (λ y, match Lookup._parse_dob_any
                          ("12-03-" +:+ Strptime.pad2 (Z.of_nat y)) with
                  | Some dt =>
                      Strptime.date_eqb dt
                        (Strptime.Date
                           (if (Z.of_nat y <=? 68)%Z
                            then 2000 + Z.of_nat y else 1900 + Z.of_nat y)
                           3 12)
                  | None => false
                  end)
            (seq 0 100) = true) by (vm_compute; reflexivity).
  rewrite forallb_forall in Hall.
  specialize (Hall yy ltac:(apply in_seq; lia)).
  destruct (Lookup._parse_dob_any _) as [dt|]; [|discriminate].
  f_equal. by apply date_eqb_eq.
Qed.

(** C3. The two-digit-year form is accepted, but the century comes from
    [strptime]'s [%y] (0..68 are 20xx, 69..99 are 19xx): the year is already
    above 100 when the source tests [dt.year < 100], so its pivot at 20
    never applies to this form.  "12-03-19" is read as 2019, and "12-03-50"
    as 2050 where the pivot at 20 would give 1950. *)
Theorem parse_dob_two_digit_year :
  Lookup._parse_dob_any "12-03-19" = Some (Strptime.Date 2019 3 12)
  /\ Lookup._parse_dob_any "12-03-50" = Some (Strptime.Date 2050 3 12)
  /\ Lookup._parse_dob_any "12-03-68" = Some (Strptime.Date 2068 3 12)
  /\ Lookup._parse_dob_any "12-03-69" = Some (Strptime.Date 1969 3 12).
Proof. repeat split; reflexivity. Qed.

(** ** The booking finalizer *)

Section Finalizer.
Import Session Confirmation.

(** On CONFIRM the finalizer answers [appointment_confirmed] whatever
    happens to the ledger. *)
Lemma finalize_confirm_status w state rec decision :
  normalize_decision decision = "CONFIRM" ->
  confirmation_status (fst (_finalize_confirmation w state rec decision))
  = appointment_confirmed.
Proof.
  intros Hd. unfold _finalize_confirmation. rewrite Hd. reflexivity.
Qed.

(** A ledger that cannot be written stays as it was. *)
Lemma append_status_write_fails w row :
  write_fails w APPOINTMENT_STATUS_FILE = true ->
  appointment_status (append_status w row) = appointment_status w.
Proof.
  intros Hw. unfold append_status.
  destruct (appointment_status w) as [l|] eqn:Hl;
    [destruct (read_fails w APPOINTMENT_STATUS_FILE)|];
    rewrite ?Hw; simpl; auto.
Qed.

Lemma sms_keeps_files w phone details :
  appointment_status (_send_twilio_confirmation_sms w phone details)
  = appointment_status w.
Proof. destruct phone; reflexivity. Qed.

(** With a ledger that cannot be written, CONFIRM still answers
    [appointment_confirmed], and the ledger is as it was. *)
Lemma finalize_confirm_ledger_down w state rec decision :
  normalize_decision decision = "CONFIRM" ->
  write_fails w APPOINTMENT_STATUS_FILE = true ->
  confirmation_status (fst (_finalize_confirmation w state rec decision))
  = appointment_confirmed
  /\ appointment_status (snd (_finalize_confirmation w state rec decision))
     = appointment_status w.
Proof.
  intros Hd Hw. split; [by apply finalize_confirm_status|].
  unfold _finalize_confirmation. rewrite Hd. simpl.
  rewrite sms_keeps_files. by apply append_status_write_fails.
Qed.

(** The order of the two effects of CONFIRM: the events that the finalizer
    adds are at most one ledger write followed by at most one message. *)
Lemma finalize_confirm_order w state rec decision :
  normalize_decision decision = "CONFIRM" ->
  exists writes sms,
    trace (snd (_finalize_confirmation w state rec decision))
    = trace w ++ writes ++ sms
    /\ (writes = [] \/ exists ok, writes = [EvWrite APPOINTMENT_STATUS_FILE ok])
    /\ (sms = [] \/ exists body, sms = [EvSms (pr_Phone rec) body]).
Proof.
  intros Hd. unfold _finalize_confirmation. rewrite Hd. simpl.
  set (row := Build_StatusRow _ _ _ _ _ _ _ _ _ _).
  assert (Hw : exists writes, trace (append_status w row) = trace w ++ writes
            /\ (writes = [] \/ exists ok, writes = [EvWrite APPOINTMENT_STATUS_FILE ok])).
  { unfold append_status.
    destruct (appointment_status w);
      [destruct (read_fails w APPOINTMENT_STATUS_FILE)|];
      try destruct (write_fails w APPOINTMENT_STATUS_FILE); simpl;
      first [ exists []; split; [by rewrite app_nil_r | by left]
            | eexists [_]; split; [reflexivity | right; eauto] ]. }
  destruct Hw as (writes & Hw & Hshape).
  exists writes.
  unfold _send_twilio_confirmation_sms.
  destruct (pr_Phone rec) eqn:Hp.
  - exists []. rewrite app_nil_r. auto.
  - eexists [_]. simpl. rewrite Hw, <- app_assoc. split; [reflexivity|].
    split; [assumption | right; eauto].
Qed.

End Finalizer.

(** C1. A returning patient confirms while the ledger file cannot be
    written.  The failed write comes first and the message second, but the
    exception is only printed: the result is [appointment_confirmed], no
    ledger row exists, and the confirmation message has been sent. *)
Theorem confirm_survives_failed_ledger_write :
  exists r w',
    Confirmation.confirmation_agent Samples.world_ledger_down Samples.existing
      (Some "existing@test.com") (Some "9876543210") (Some "CONFIRM")
    = Session.Return (r, w')
    /\ Confirmation.confirmation_status r = Confirmation.appointment_confirmed
    /\ Session.appointment_status w' = None
    /\ exists body,
         Session.trace w'
         = [Session.EvWrite Session.APPOINTMENT_STATUS_FILE false;
            Session.EvSms "9876543210" body].
Proof.
  eexists _, _. split; [vm_compute; reflexivity|].
  repeat split. eexists. reflexivity.
Qed.

(** C2. A new patient answers with a word that is neither CONFIRM nor
    CANCEL.  The result is [invalid_decision], but the patient record was
    written before the decision was read, and nothing removes it: the
    patient file has one more row. *)
Theorem invalid_decision_keeps_new_patient_row :
  exists r w',
    Confirmation.confirmation_agent (Samples.world Samples.reed_schedule)
      Samples.alice (Some "alice@email.com") (Some "9032278543") (Some "MAYBE")
    = Session.Return (r, w')
    /\ Confirmation.confirmation_status r = Confirmation.invalid_decision
    /\ Session.patient_db w'
       = Some {| Lookup.columns := Confirmation.PATIENT_DB_COLUMNS;
                 Lookup.rows :=
                   Lookup.rows Samples.patients
                   ++ [["New Patient Alice"; "02-02-2000"; ""; "HealthFirst";
                        "N123"; "G1"; "alice@email.com"; "9032278543"]] |}
    /\ Session.trace w' = [Session.EvWrite Session.PATIENT_DB_FILE true].
Proof.
  eexists _, _. split; [vm_compute; reflexivity|].
  repeat split.
Qed.

(** For a returning patient the same answer leaves the world as it was. *)
Lemma invalid_decision_returning_no_effect w state email phone decision r w' :
  Session.status state = Some "returning" ->
  Confirmation.normalize_decision decision <> "CONFIRM" ->
  Confirmation.normalize_decision decision <> "CANCEL" ->
  Confirmation.confirmation_agent w state email phone decision
  = Session.Return (r, w') ->
  w' = w.
Proof.
  intros Hs Hc Hx. unfold Confirmation.confirmation_agent.
  destruct (negb (Confirmation.has_booking state)); [congruence|].
  rewrite Hs. simpl.
  unfold Confirmation._finalize_confirmation.
  apply String.eqb_neq in Hc, Hx. rewrite Hc, Hx.
  destruct (Session.lookup_result state) as [[? ? [p|] ? ?]|]; congruence.
Qed.

(** ** The slot allocator: an unknown classification *)

(** C9. With a date that parses, a schedule whose four columns resolve and
    at least one row of the requested doctor on that date, a session whose
    classification is neither "new" nor "returning" gets the error
    "Unknown patient status", and the world (every schedule row with it)
    is returned as it was. *)
Theorem unknown_status_is_error
    (w : Session.World) (state : Session.State) (preferred_date : string)
    (dt : Strptime.date) (df : Session.Schedule) (doctor : string) :
  Scheduler._validate_date preferred_date = Some dt ->
  Session.read_fails w Session.DOCTOR_SCHEDULE_FILE = false ->
  Session.doctor_schedule w = Some df ->
  Scheduler.missing_columns df = [] ->
  Session.extracted_info state ≫= Session.ei_doctor = Some doctor ->
  Scheduler.date_match_of (Session.sched_rows df) doctor dt <> [] ->
  Session.status state <> Some "new" ->
  Session.status state <> Some "returning" ->
  Scheduler.schedule_appointment w state preferred_date
  = Session.Return
      (Session.set_scheduled_slot state
         (Scheduler.error_slot "error" "Unknown patient status"), w).
Proof.
  intros Hdt Hr Hdf Hcols Hdoc Hrows Hnew Hret.
  unfold Scheduler.schedule_appointment.
  rewrite Hdt, Hr, Hdf, Hcols, Hdoc.
  destruct (Scheduler.date_match_of _ _ _) as [|m ms]; [congruence|].
  rewrite !bool_decide_eq_false_2 by assumption. reflexivity.
Qed.

Lemma unknown_status_is_error_witness :
  Scheduler.schedule_appointment (Samples.world Samples.reed_schedule)
    (Samples.unclassified "Dr. Evelyn Reed") "08-09-2025"
  = Session.Return
      (Session.set_scheduled_slot (Samples.unclassified "Dr. Evelyn Reed")
         (Scheduler.error_slot "error" "Unknown patient status"),
       Samples.world Samples.reed_schedule).
Proof.
  apply (unknown_status_is_error _ _ _ Samples.sept8 Samples.reed_schedule
           "Dr. Evelyn Reed");
    try reflexivity; vm_compute; discriminate.
Defined.

(** ** The identity resolver: the fuzzy pass *)

Section FuzzyPass.
Import Lookup Spec.

Variable ratio : string -> string -> Q.
Variable round3 : Q -> Q.

Lemma Qgtb_lt a b : Qgtb a b = true <-> (b < a)%Q.
Proof.
  unfold Qgtb. rewrite negb_true_iff.
  destruct (Qle_bool a b) eqn:E.
  - apply Qle_bool_iff in E. split; [discriminate|].
    intros H. exfalso. exact (Qlt_not_le _ _ H E).
  - split; [intros _|reflexivity].
    apply Qnot_le_lt. intros H. apply Qle_bool_iff in H. congruence.
Qed.

Lemma Qgtb_le a b : Qgtb a b = false <-> (a <= b)%Q.
Proof.
  unfold Qgtb. rewrite negb_false_iff. apply Qle_bool_iff.
Qed.

(** What [highest] returns is an element of the list and bounds it. *)
Lemma highest_spec l h :
  highest l = Some h -> In h l /\ forall x, In x l -> (x <= h)%Q.
Proof.
  revert h. induction l as [|x l IH]; intros h; simpl; [discriminate|].
  destruct (highest l) as [y|] eqn:Hy.
  - destruct (IH y eq_refl) as [Hin Hmax].
    destruct (Qle_bool y x) eqn:E; intros [= <-].
    + apply Qle_bool_iff in E. split; [auto|].
      intros z [<-|Hz]; [apply Qle_refl|].
      eapply Qle_trans; [apply Hmax, Hz | exact E].
    + split; [auto|]. intros z [<-|Hz]; [|auto].
      apply Qlt_le_weak, Qnot_le_lt. intros H.
      apply Qle_bool_iff in H. congruence.
  - intros [= <-]. destruct l; [|simpl in Hy; destruct (highest l); discriminate].
    split; [auto|]. intros z [<-|[]]. apply Qle_refl.
Qed.

Lemma highest_none l : highest l = None -> l = [].
Proof.
  destruct l as [|x l]; [reflexivity|]. simpl.
  destruct (highest l); discriminate.
Qed.

Section Loop.
Variables (df : DataFrame) (col_name col_dob name_in dob_in : string).


(** The invariant of the second loop: the running best bounds every score
    seen, and it is either the pair the loop started from or a score seen
    that is strictly above the start. *)
Lemma fuzzy_loop items best :
  let res := fold_left (fuzzy_step ratio df col_name col_dob name_in dob_in)
               items best in
  (snd best <= snd res)%Q
  /\ (forall s, In s (scores_of ratio df col_name col_dob name_in dob_in items) ->
      (s <= snd res)%Q)
  /\ (res = best
      \/ (exists idx, fst res = Some idx)
         /\ In (snd res) (scores_of ratio df col_name col_dob name_in dob_in items)
         /\ (snd best < snd res)%Q).
Proof.
  revert best. induction items as [|[idx row] items IH]; intros best; simpl.
  - split; [apply Qle_refl|]. split; [intros s []|auto].
  - specialize (IH (fuzzy_step ratio df col_name col_dob name_in dob_in best (idx, row))).
    destruct IH as (Hle & Hmax & Hres).
    unfold scores_of. simpl. unfold fuzzy_step in *. simpl in *.
    destruct (_dob_equal dob_in (cell df row col_dob)) eqn:Hdob; simpl.
    + destruct (Qgtb (name_similarity ratio name_in (cell df row col_name)) (snd best))
        eqn:Hgt; simpl in *.
      * apply Qgtb_lt in Hgt.
        split; [eapply Qle_trans; [apply Qlt_le_weak, Hgt | exact Hle]|].
        split; [intros s [<-|Hs]; auto|].
        right. destruct Hres as [-> | (Hidx & Hin & Hlt)]; simpl.
        -- split; [eauto|]. split; [auto | exact Hgt].
        -- split; [exact Hidx|]. split; [auto|].
           eapply Qlt_trans; [exact Hgt | exact Hlt].
      * apply Qgtb_le in Hgt.
        split; [exact Hle|].
        split; [intros s [<-|Hs]; [eapply Qle_trans; eauto | auto]|].
        destruct Hres as [-> | (Hidx & Hin & Hlt)]; [auto|].
        right. auto.
    + split; [exact Hle|]. split; [exact Hmax|].
      destruct Hres as [-> | (Hidx & Hin & Hlt)]; auto.
Qed.

End Loop.

(** C6. In the fuzzy pass, with a positive threshold: when the highest
    score among the records with the candidate's date of birth is at or
    above the threshold, the result is "returning"; when it is below, or
    when no record has that date of birth, the result is "new". *)
Theorem fuzzy_pass_threshold
    (csv_path : string) (csv : option DataFrame) (name dob : option string) (thr : Q)
    (df : DataFrame) (col_name col_dob : string) :
  (0 < thr)%Q ->
  reaches_fuzzy_pass csv name dob df col_name col_dob ->
  let r := lookup_patient ratio round3 csv_path csv name dob thr in
  match highest (fuzzy_scores ratio df col_name col_dob
                   (normalize_name (default "" name)) (default "" dob)) with
  | Some h =>
      ((thr <= h)%Q -> status r = "returning")
      /\ ((h < thr)%Q -> status r = "new")
  | None => status r = "new"
  end.
Proof.
  intros Hthr (-> & Hcn & Hcn0 & Hcd & Hcd0 & Hname & Hdob & Hexact) r.
  assert (Hr : r = match fuzzy_best ratio df col_name col_dob
                           (normalize_name (default "" name)) (default "" dob) with
                   | (Some best_idx, best_score) =>
                       if Qle_bool thr best_score then
                         {| status := "returning";
                            match_score := Some (round3 best_score);
                            patient := Some (patient_of df (default [] (rows df !! best_idx))
                                               col_name col_dob);
                            duplicates := 0;
                            reason := "Fuzzy name match with exact dob." |}
                       else new_result "No match found for name+dob"
                   | (None, _) => new_result "No match found for name+dob"
                   end).
  { subst r. unfold lookup_patient. rewrite Hcn, Hcd.
    destruct col_name; [congruence|]. destruct col_dob; [congruence|].
    destruct (normalize_name (default "" name)) eqn:Hn; [congruence|].
    destruct (_parse_dob_any (default "" dob)); [|congruence].
    rewrite Hexact. reflexivity. }
  clearbody r. subst r.
  unfold fuzzy_best.
  pose proof (fuzzy_loop df col_name col_dob
                (normalize_name (default "" name)) (default "" dob)
                (iterrows df) (None, 0%Q)) as Hloop.
  simpl in Hloop. destruct Hloop as (Hle & Hmax & Hres).
  change (scores_of ratio df col_name col_dob
            (normalize_name (default "" name)) (default "" dob) (iterrows df))
    with (fuzzy_scores ratio df col_name col_dob
            (normalize_name (default "" name)) (default "" dob)) in Hmax, Hres.
  destruct (fold_left _ (iterrows df) (None, 0%Q)) as [best_idx best_score].
  simpl in *.
  destruct (highest _) as [h|] eqn:Hh.
  - apply highest_spec in Hh. destruct Hh as [Hin Hhmax].
    split.
    + intros Hge.
      assert (Hb : (thr <= best_score)%Q)
        by (eapply Qle_trans; [exact Hge | apply Hmax, Hin]).
      destruct Hres as [[= -> ->] | ((idx & ->) & _ & _)].
      * exfalso. exact (Qlt_not_le _ _ Hthr Hb).
      * apply Qle_bool_iff in Hb. rewrite Hb. reflexivity.
    + intros Hlt.
      destruct Hres as [[= -> ->] | ((idx & ->) & Hbin & _)]; [reflexivity|].
      destruct (Qle_bool thr best_score) eqn:E; [|reflexivity].
      apply Qle_bool_iff in E. exfalso.
      apply (Qlt_not_le _ _ Hlt). eapply Qle_trans; [exact E | apply Hhmax, Hbin].
  - apply highest_none in Hh. rewrite Hh in Hres.
    destruct Hres as [[= -> ->] | (_ & [] & _)]. reflexivity.
Qed.

(** C10. A result of the fuzzy pass is "returning" with [duplicates = 0],
    and a result with a nonzero duplicate count is one of the exact pass. *)
Theorem fuzzy_match_reports_no_duplicates
    (csv_path : string) (csv : option DataFrame) (name dob : option string) (thr : Q) :
  let r := lookup_patient ratio round3 csv_path csv name dob thr in
  (reason r = "Fuzzy name match with exact dob." ->
   status r = "returning" /\ duplicates r = 0)
  /\ (duplicates r <> 0 ->
      reason r = "Exact name+dob match." /\ match_score r = Some 1%Q).
Proof.
  unfold lookup_patient.
  destruct csv as [df|]; [|by split].
  destruct (_find_col df "name") as [[|a1 a2]|]; try by split.
  destruct (_find_col df "dob") as [[|b1 b2]|]; try by split.
  destruct (normalize_name (default "" name)); [by split|].
  destruct (_parse_dob_any (default "" dob)); [|by split].
  destruct (matches_exact _ _ _ _ _) as [|idx others]; [|by split].
  destruct (fuzzy_best _ _ _ _ _ _) as [[best_idx|] best_score]; [|by split].
  destruct (Qle_bool thr best_score); by split.
Qed.

End FuzzyPass.

Lemma fuzzy_pass_threshold_witness :
  Lookup.status
    (Lookup.lookup_patient Lookup.sequence_ratio Lookup.round3_q
       Lookup.DEFAULT_CSV (Some Samples.kishore_store) (Some "Kishore Kumar") (Some "12-03-1990")
       Lookup.DEFAULT_FUZZY_THRESHOLD)
  = "returning".
Proof.
  pose proof (fuzzy_pass_threshold Lookup.sequence_ratio Lookup.round3_q
                Lookup.DEFAULT_CSV (Some Samples.kishore_store) (Some "Kishore Kumar")
                (Some "12-03-1990") Lookup.DEFAULT_FUZZY_THRESHOLD Samples.kishore_store
                "Name" "DOB") as H.
  assert (Hthr : (0 < Lookup.DEFAULT_FUZZY_THRESHOLD)%Q) by reflexivity.
  assert (Hreach : Spec.reaches_fuzzy_pass (Some Samples.kishore_store)
                     (Some "Kishore Kumar") (Some "12-03-1990")
                     Samples.kishore_store "Name" "DOB")
    by (repeat split; vm_compute; congruence).
  specialize (H Hthr Hreach).
  vm_compute in H. destruct H as [H _]. apply H. discriminate.
Defined.

Lemma fuzzy_match_reports_no_duplicates_witness :
  Lookup.duplicates
    (Lookup.lookup_patient Lookup.sequence_ratio Lookup.round3_q
       Lookup.DEFAULT_CSV (Some Samples.kishore_store) (Some "Kishore Kumar") (Some "12-03-1990")
       Lookup.DEFAULT_FUZZY_THRESHOLD)
  = 0.
Proof.
  apply (fuzzy_match_reports_no_duplicates Lookup.sequence_ratio Lookup.round3_q
           Lookup.DEFAULT_CSV (Some Samples.kishore_store) (Some "Kishore Kumar")
           (Some "12-03-1990") Lookup.DEFAULT_FUZZY_THRESHOLD).
  vm_compute. reflexivity.
Defined.

(** ** The decision stage of the conversation *)

Section DecisionStage.
Import PyStr Session App.

(** The finalizer returns for every consistent state. *)
Lemma confirmation_agent_returns w state email phone decision :
  Spec.lookup_consistent state ->
  exists r w',
    Confirmation.confirmation_agent w state email phone decision = Return (r, w').
Proof.
  intros Hc. unfold Confirmation.confirmation_agent.
  destruct (negb (Confirmation.has_booking state)); [eauto|].
  case_bool_decide as Hnew.
  - destruct (Confirmation.save_new_patient _ _) as [w1 [e|]]; [eauto|].
    destruct (Confirmation._finalize_confirmation _ _ _ _); eauto.
  - case_bool_decide as Hret; [|eauto].
    destruct (lookup_result state) as [lr|] eqn:Hlr.
    + specialize (Hc Hret lr Hlr).
      destruct lr as [? ? [p|] ? ?]; [|simpl in Hc; congruence].
      destruct (Confirmation._finalize_confirmation _ _ _ _); eauto.
    + destruct (Confirmation._finalize_confirmation _ _ _ _); eauto.
Qed.

Lemma accepted_in_list prompt :
  upper (strip prompt) ∈ ["CONFIRM"; "CANCEL"] <-> Spec.accepted prompt.
Proof.
  unfold Spec.accepted. rewrite !elem_of_cons, elem_of_nil. tauto.
Qed.

(** C8. In the stage COLLECTING_DECISION, for every submitted input, the
    session moves to DONE exactly when the input, stripped and upper-cased,
    is CONFIRM or CANCEL, and then the finalizer has run with that
    decision; every other input leaves the stage, the agent state and the
    world as they were and adds the request to type CONFIRM or CANCEL.
    The input "confirm " is read as CONFIRM. *)
Theorem decision_stage_advances
    (env : Collaborators) (w : World) (s : SessionState) (prompt : string) :
  stage s = COLLECTING_DECISION ->
  prompt <> "" ->
  Spec.lookup_consistent (as_state (agent_state s)) ->
  exists s' w',
    turn env w s prompt = Some (s', w')
    /\ (stage s' = DONE <-> Spec.accepted prompt)
    /\ (Spec.accepted prompt ->
        exists r,
          Confirmation.confirmation_agent w (as_state (agent_state s))
            (temp_email s) (temp_phone s) (Some (upper (strip prompt)))
          = Return (r, w'))
    /\ (~ Spec.accepted prompt ->
        stage s' = COLLECTING_DECISION /\ w' = w
        /\ agent_state s' = agent_state s
        /\ messages s' = messages s ++ [(user, prompt); (assistant, INVALID_INPUT)])
    /\ upper (strip "confirm ") = "CONFIRM".
Proof.
  intros Hstage Hne Hcons.
  unfold turn. destruct prompt as [|c p]; [congruence|].
  set (prompt := String c p) in *.
  cbn [stage say]. rewrite Hstage.
  unfold collecting_decision. cbn [agent_state temp_email temp_phone say].
  case_bool_decide as Hin; rewrite accepted_in_list in Hin; cbn [negb].
  - destruct (confirmation_agent_returns w (as_state (agent_state s))
                (temp_email s) (temp_phone s) (Some (upper (strip prompt))) Hcons)
      as (r & w' & Hrun).
    rewrite Hrun.
    destruct (String.eqb (upper (strip prompt)) "CONFIRM");
      eexists _, _; (split; [reflexivity|]);
      (split; [split; [auto | reflexivity]|]);
      (split; [eauto|]); (split; [tauto | reflexivity]).
  - eexists _, _. split; [reflexivity|].
    split; [split; [cbn; rewrite Hstage; discriminate | tauto]|].
    split; [tauto|]. split; [|reflexivity].
    intros _. cbn. rewrite Hstage, <- app_assoc. auto.
Qed.

End DecisionStage.

Lemma decision_stage_advances_witness :
  exists s' w',
    App.turn {| App.sendgrid_configured := false; App.read_pdf := App.PdfOk;
                App.sendgrid_send := App.SendStatus 202 |}
      (Samples.world Samples.reed_schedule)
      {| App.stage := App.COLLECTING_DECISION; App.messages := [];
         App.agent_state := App.StateDict Samples.existing;
         App.temp_email := Some "existing@test.com";
         App.temp_phone := Some "9876543210" |}
      "confirm "
    = Some (s', w')
    /\ App.stage s' = App.DONE.
Proof.
  destruct (decision_stage_advances
              {| App.sendgrid_configured := false; App.read_pdf := App.PdfOk;
                 App.sendgrid_send := App.SendStatus 202 |}
              (Samples.world Samples.reed_schedule)
              {| App.stage := App.COLLECTING_DECISION; App.messages := [];
                 App.agent_state := App.StateDict Samples.existing;
                 App.temp_email := Some "existing@test.com";
                 App.temp_phone := Some "9876543210" |}
              "confirm ")
    as (s' & w' & Hturn & Hdone & _).
  - reflexivity.
  - discriminate.
  - intros _ lr [= <-]. discriminate.
  - exists s', w'. split; [exact Hturn|]. apply Hdone. left. reflexivity.
Defined.

(** ** The slot allocator: what a reservation changes *)

Section Reservation.
Import PyStr Session Scheduler.

Lemma pair_ok_spec a b :
  pair_ok a b = true <->
  is_available (snd a) = true /\ is_available (snd b) = true
  /\ Spec.passes_session_test (fst a) (fst b).
Proof.
  unfold pair_ok, Spec.passes_session_test, morning, afternoon.
  rewrite !andb_true_iff, !orb_true_iff, !andb_true_iff, !orb_true_iff.
  rewrite <- !Is_true_true. tauto.
Qed.




(** The indexed rows of a table. *)
Lemma indexed_lookup {A} (l : list A) k i x :
  zip (seq k (length l)) l !! i = Some x <->
  fst x = k + i /\ l !! i = Some (snd x).
Proof.
  revert k i. induction l as [|a l IH]; intros k i; simpl.
  - rewrite !lookup_nil. split; [discriminate | intros [_ ?]; discriminate].
  - destruct i as [|i]; simpl.
    + destruct x as [n y]. simpl. split.
      * intros [= <- <-]. split; [lia | reflexivity].
      * intros [-> [= ->]]. f_equal. f_equal. lia.
    + rewrite IH. split; intros [? ?]; split; auto; lia.
Qed.

Lemma indexed_In {A} (l : list A) k idx x :
  In (idx, x) (zip (seq k (length l)) l) ->
  exists i, idx = k + i /\ l !! i = Some x.
Proof.
  intros H. apply list_elem_of_In, list_elem_of_lookup in H.
  destruct H as [i Hi]. apply indexed_lookup in Hi. eauto.
Qed.

(** The rows of [date_match]: each sits in the table at its index, and
    the indices grow along the list. *)
Lemma date_match_In rows doctor dt idx row :
  In (idx, row) (date_match_of rows doctor dt) -> rows !! idx = Some row.
Proof.
  unfold date_match_of. rewrite filter_In. intros [H _].
  apply indexed_In in H. destruct H as (i & -> & H). exact H.
Qed.

Lemma filter_indexed_increasing {A} (p : nat * A -> bool) (l : list A) k i j a b :
  i < j ->
  List.filter p (zip (seq k (length l)) l) !! i = Some a ->
  List.filter p (zip (seq k (length l)) l) !! j = Some b ->
  k <= fst a /\ fst a < fst b.
Proof.
  revert k i j. induction l as [|x l IH]; intros k i j Hij; simpl.
  - rewrite lookup_nil. discriminate.
  - destruct (p (k, x)).
    + destruct i as [|i]; simpl.
      * intros [= <-]. destruct j as [|j]; [lia|]. simpl. intros Hb.
        apply list_elem_of_lookup_2, list_elem_of_In, filter_In in Hb.
        destruct Hb as [Hb _]. destruct b as [n y].
        apply indexed_In in Hb. destruct Hb as (m & -> & _). simpl. lia.
      * destruct j as [|j]; [lia|]. simpl. intros Ha Hb.
        destruct (IH (S k) i j ltac:(lia) Ha Hb). lia.
    + intros Ha Hb. destruct (IH (S k) i j Hij Ha Hb). lia.
Qed.

Lemma date_match_increasing rows doctor dt i j a b :
  i < j ->
  date_match_of rows doctor dt !! i = Some a ->
  date_match_of rows doctor dt !! j = Some b ->
  fst a < fst b.
Proof.
  intros Hij Ha Hb.
  eapply (filter_indexed_increasing _ rows 0 i j a b Hij); eassumption.
Qed.

(** The loop of [_find_consecutive_slots]: the pair it returns is the
    first one that passes the test. *)
Lemma find_from_spec slots k i1 i2 :
  find_from k slots = Some (i1, i2) ->
  exists j a b,
    i1 = k + j /\ i2 = S i1
    /\ slots !! j = Some a /\ slots !! S j = Some b
    /\ pair_ok a b = true
    /\ forall j' a' b', j' < j -> slots !! j' = Some a' ->
         slots !! S j' = Some b' -> pair_ok a' b' = false.
Proof.
  revert k. induction slots as [|a slots IH]; intros k; simpl; [discriminate|].
  destruct slots as [|b slots]; [discriminate|].
  destruct (pair_ok a b) eqn:Hok.
  - intros [= <- <-]. exists 0, a, b.
    split; [lia|]. do 4 (split; [done|]).
    intros j' a' b' Hj. lia.
  - intros H. apply IH in H.
    destruct H as (j & a0 & b0 & -> & -> & Ha & Hb & Hok0 & Hfirst).
    exists (S j), a0, b0.
    split; [lia|]. do 4 (split; [done|]).
    intros [|j'] a' b' Hj; simpl.
    + intros [= <-] [= <-]. exact Hok.
    + intros Ha' Hb'. eapply Hfirst; eauto. lia.
Qed.

(** [book] writes the new status into the row at [idx]. *)
Lemma book_lookup rows idx who row :
  rows !! idx = Some row ->
  book rows idx who = <[idx := with_status row ("Booked by " +:+ fmt who)]> rows.
Proof. intros H. unfold book. by rewrite H. Qed.




(** What a successful call did, read off the code: the classification is
    "returning" and the first available row of [date_match] was booked, or
    it is "new" and the pair found in [date_match] was booked. *)
Lemma schedule_success_inv w state preferred_date st' w' :
  schedule_appointment w state preferred_date = Return (st', w') ->
  scheduled_slot st' ≫= slot_status = Some "confirmed" ->
  exists dt df doctor,
    _validate_date preferred_date = Some dt
    /\ doctor_schedule w = Some df
    /\ extracted_info state ≫= ei_doctor = Some doctor
    /\ ((status state = Some "returning"
         /\ exists idx row rest,
              List.filter (λ '(_, row), is_available (r_status row))
                (date_match_of (sched_rows df) doctor dt) = (idx, row) :: rest
              /\ doctor_schedule w'
                 = Some {| sched_columns := normalized_columns df;
                           sched_rows :=
                             book (sched_rows df) idx (extracted_info state ≫= ei_name) |}
              /\ scheduled_slot st' ≫= slot_time = Some (r_time row))
        \/ (status state = Some "new"
            /\ exists i idx1 row1 idx2 row2,
                 _find_consecutive_slots
                   ((λ '(_, row), (r_time row, r_status row))
                      <$> date_match_of (sched_rows df) doctor dt) = Some (i, S i)
                 /\ date_match_of (sched_rows df) doctor dt !! i = Some (idx1, row1)
                 /\ date_match_of (sched_rows df) doctor dt !! S i = Some (idx2, row2)
                 /\ doctor_schedule w'
                    = Some {| sched_columns := normalized_columns df;
                              sched_rows :=
                                book (book (sched_rows df) idx1
                                        (extracted_info state ≫= ei_name))
                                  idx2 (extracted_info state ≫= ei_name) |}
                 /\ scheduled_slot st' ≫= slot_time
                    = Some (r_time row1 +:+ " & " +:+ r_time row2))).
Proof.
  unfold schedule_appointment.
  destruct (_validate_date preferred_date) as [dt|]; [|by intros [= <- <-]].
  destruct (read_fails w DOCTOR_SCHEDULE_FILE); [discriminate|].
  destruct (doctor_schedule w) as [df|]; [|discriminate].
  destruct (missing_columns df); [|by intros [= <- <-]].
  destruct (extracted_info state ≫= ei_doctor) as [doctor|]; [|discriminate].
  destruct (date_match_of (sched_rows df) doctor dt) as [|m dm] eqn:Hdm;
    [by intros [= <- <-]|].
  rewrite <- Hdm. clear Hdm m dm.
  case_bool_decide as Hret.
  - destruct (List.filter _ _) as [|[idx row] rest] eqn:Hav; [by intros [= <- <-]|].
    unfold to_excel. destruct (write_fails w DOCTOR_SCHEDULE_FILE); [discriminate|].
    intros [= <- <-] _. exists dt, df, doctor. do 3 (split; [done|]).
    left. split; [done|]. exists idx, row, rest. done.
  - case_bool_decide as Hnew; [|by intros [= <- <-]].
    destruct (_find_consecutive_slots _) as [[i1 i2]|] eqn:Hfind;
      [|by intros [= <- <-]].
    destruct (date_match_of _ _ _ !! i1) as [[idx1 row1]|] eqn:H1; [|discriminate].
    destruct (date_match_of _ _ _ !! i2) as [[idx2 row2]|] eqn:H2; [|discriminate].
    unfold to_excel. destruct (write_fails w DOCTOR_SCHEDULE_FILE); [discriminate|].
    intros [= <- <-] _. exists dt, df, doctor. do 3 (split; [done|]).
    right. split; [done|].
    pose proof Hfind as Hspec. apply find_from_spec in Hspec.
    destruct Hspec as (j & a & b & -> & -> & _). simpl in *.
    exists j, idx1, row1, idx2, row2. done.
Qed.

(** The pair that [_find_consecutive_slots] returns, seen in the table. *)
Lemma found_pair_facts rows doctor dt who i idx1 row1 idx2 row2 :
  _find_consecutive_slots
    ((λ '(_, row), (r_time row, r_status row)) <$> date_match_of rows doctor dt)
  = Some (i, S i) ->
  date_match_of rows doctor dt !! i = Some (idx1, row1) ->
  date_match_of rows doctor dt !! S i = Some (idx2, row2) ->
  idx1 < idx2
  /\ rows !! idx1 = Some row1 /\ rows !! idx2 = Some row2
  /\ is_available (r_status row1) = true /\ is_available (r_status row2) = true
  /\ Spec.passes_session_test (r_time row1) (r_time row2)
  /\ (forall j a b, j < i ->
        date_match_of rows doctor dt !! j = Some a ->
        date_match_of rows doctor dt !! S j = Some b ->
        ~ (is_available (r_status (snd a)) = true
           /\ is_available (r_status (snd b)) = true
           /\ Spec.passes_session_test (r_time (snd a)) (r_time (snd b))))
  /\ book (book rows idx1 who) idx2 who
     = <[idx2 := with_status row2 ("Booked by " +:+ fmt who)]>
         (<[idx1 := with_status row1 ("Booked by " +:+ fmt who)]> rows).
Proof.
  intros Hfind H1 H2.
  pose proof (date_match_increasing rows doctor dt i (S i) _ _ ltac:(lia) H1 H2) as Hlt.
  simpl in Hlt.
  assert (Hr1 : rows !! idx1 = Some row1)
    by (eapply date_match_In, list_elem_of_In, list_elem_of_lookup_2; eauto).
  assert (Hr2 : rows !! idx2 = Some row2)
    by (eapply date_match_In, list_elem_of_In, list_elem_of_lookup_2; eauto).
  apply find_from_spec in Hfind.
  destruct Hfind as (j & a & b & Hj & _ & Ha & Hb & Hok & Hfirst).
  simpl in Hj. subst j.
  rewrite list_lookup_fmap in Ha, Hb. rewrite H1 in Ha. rewrite H2 in Hb.
  simpl in Ha, Hb. injection Ha as <-. injection Hb as <-.
  apply pair_ok_spec in Hok. simpl in Hok. destruct Hok as (Ha1 & Ha2 & Hsame).
  do 6 (split; [done|]). split.
  - intros j [ja rowa] [jb rowb] Hji Hja Hjb Hall. simpl in Hall.
    assert (pair_ok (r_time rowa, r_status rowa) (r_time rowb, r_status rowb) = false)
      as Hno.
    { eapply (Hfirst j); [exact Hji | |];
        rewrite list_lookup_fmap; [rewrite Hja | rewrite Hjb]; reflexivity. }
    apply (pair_ok_spec (r_time rowa, r_status rowa) (r_time rowb, r_status rowb))
      in Hall.
    congruence.
  - rewrite (book_lookup rows idx1 who row1 Hr1).
    apply book_lookup. rewrite list_lookup_insert_ne by lia. exact Hr2.
Qed.

End Reservation.



(** The scenario of the specification: two free morning slots. *)
Example two_morning_slots :
  exists st' w',
    Scheduler.schedule_appointment (Samples.world Samples.morning_schedule)
      (Samples.with_class (Samples.unclassified "Dr. X") "new") "08-09-2025"
    = Session.Return (st', w')
    /\ Session.scheduled_slot st' ≫= Session.slot_time
       = Some "10:00-10:30 & 10:30-11:00"
    /\ (Session.r_status <$>
          default [] (Session.sched_rows <$> Session.doctor_schedule w'))
       = ["Booked by Ravi Varma"; "Booked by Ravi Varma"]
    /\ Spec.same_session "10:00-10:30" "10:30-11:00" = true.
Proof.
  eexists _, _. split; [vm_compute; reflexivity|]. repeat split.
Qed.

(** A time label that shows half past the hour contains "3": the code
    takes every such label for an afternoon one. *)
Lemma half_past_counts_as_afternoon (t : string) :
  PyStr.contains "30" t = true -> Scheduler.afternoon t = true.
Proof.
  intros H. unfold Scheduler.afternoon.
  assert (H3 : PyStr.contains "3" t = true).
  { induction t as [|c t IH]; [discriminate|].
    simpl in H |- *. apply orb_true_iff in H. destruct H as [H|H].
    - apply andb_true_iff in H. destruct H as [H _]. by rewrite H.
    - rewrite (IH H). apply orb_true_r. }
  rewrite H3. by rewrite orb_true_r.
Qed.

(** C5. A new patient asks for a day on which the last morning slot,
    11:00-11:30, and the first afternoon slot, 2:00-2:30, are free and
    follow each other.  The two slots are not of the same session (the
    hour tokens are "11" on one side and "2" on the other), yet the test
    of the code passes, because "11:00-11:30" contains the character "3":
    both rows are booked and the reported time is "11:00-11:30 & 2:00-2:30".
    The free afternoon pair 2:00-2:30, 2:30-3:00 that follows is not the
    one taken. *)
Theorem new_patient_pair_across_sessions :
  exists st' w',
    Scheduler.schedule_appointment (Samples.world Samples.midday_schedule)
      (Samples.with_class (Samples.unclassified "Dr. X") "new") "08-09-2025"
    = Session.Return (st', w')
    /\ Session.scheduled_slot st' ≫= Session.slot_status = Some "confirmed"
    /\ Session.scheduled_slot st' ≫= Session.slot_time
       = Some "11:00-11:30 & 2:00-2:30"
    /\ Spec.same_session "11:00-11:30" "2:00-2:30" = false
    /\ Scheduler.pair_ok ("11:00-11:30", "Available") ("2:00-2:30", "Available")
       = true
    /\ Spec.same_session "2:00-2:30" "2:30-3:00" = true.
Proof.
  eexists _, _. split; [vm_compute; reflexivity|]. repeat split.
Qed.

(** C4. On the same day the call changes the status of exactly two rows,
    both free before and neighbours among the rows of the doctor, and of no
    other row; but the two rows, 11:00-11:30 and 2:00-2:30, are of
    different sessions. *)
Theorem reservation_across_sessions_changes_two_rows :
  exists st' w' new,
    Scheduler.schedule_appointment (Samples.world Samples.midday_schedule)
      (Samples.with_class (Samples.unclassified "Dr. X") "new") "08-09-2025"
    = Session.Return (st', w')
    /\ Session.doctor_schedule w' = Some new
    /\ Spec.changed_rows (Session.sched_rows Samples.midday_schedule)
         (Session.sched_rows new) = [1; 2]
    /\ (Session.r_time <$> Session.sched_rows Samples.midday_schedule !! 1)
       = Some "11:00-11:30"
    /\ (Session.r_time <$> Session.sched_rows Samples.midday_schedule !! 2)
       = Some "2:00-2:30"
    /\ (Session.r_status <$> Session.sched_rows new)
       = ["Booked"; "Booked by Ravi Varma"; "Booked by Ravi Varma"; "Available"]
    /\ Spec.same_session "11:00-11:30" "2:00-2:30" = false.
Proof.
  eexists _, _, _. split; [vm_compute; reflexivity|]. repeat split.
Qed.

(** ** Name normalization *)

Section Normalization.
Import PyStr Lookup NameShape.

Lemma lower_char_space c : isspace (lower_char c) = isspace c.
Proof. destruct c as [[] [] [] [] [] [] [] []]; reflexivity. Qed.

Lemma lower_char_punct c : ispunct (lower_char c) = ispunct c.
Proof. destruct c as [[] [] [] [] [] [] [] []]; reflexivity. Qed.

Lemma lower_char_idem c : lower_char (lower_char c) = lower_char c.
Proof. destruct c as [[] [] [] [] [] [] [] []]; reflexivity. Qed.

Lemma lower_char_of_space c : isspace c = true -> lower_char c = c.
Proof. destruct c as [[] [] [] [] [] [] [] []]; (reflexivity || discriminate). Qed.

Lemma lower_idem s : lower (lower s) = lower s.
Proof.
  unfold lower. induction s as [|c s IH]; simpl; [reflexivity|].
  by rewrite lower_char_idem, IH.
Qed.

Lemma lstrip_lower s : lstrip (lower s) = lower (lstrip s).
Proof.
  unfold lower. induction s as [|c s IH]; simpl; [reflexivity|].
  rewrite lower_char_space. destruct (isspace c); [exact IH | reflexivity].
Qed.

Lemma rstrip_lower s : rstrip (lower s) = lower (rstrip s).
Proof.
  unfold lower. induction s as [|c s IH]; simpl; [reflexivity|].
  rewrite IH, lower_char_space.
  destruct (rstrip s); simpl; [destruct (isspace c)|]; reflexivity.
Qed.

Lemma strip_lower s : strip (lower s) = lower (strip s).
Proof. unfold strip. by rewrite lstrip_lower, rstrip_lower. Qed.

Lemma lstrip_clean s : starts_clean s = true -> lstrip s = s.
Proof.
  destruct s as [|c s]; simpl; [reflexivity|].
  destruct (isspace c); [discriminate | reflexivity].
Qed.

Lemma starts_clean_lstrip s : starts_clean (lstrip s) = true.
Proof.
  induction s as [|c s IH]; simpl; [reflexivity|].
  destruct (isspace c) eqn:E; [exact IH|]. simpl. by rewrite E.
Qed.

Lemma starts_clean_rstrip s : starts_clean s = true -> starts_clean (rstrip s) = true.
Proof.
  destruct s as [|c s]; simpl; [reflexivity|].
  destruct (isspace c) eqn:E; [discriminate|]. intros _.
  destruct (rstrip s); simpl; by rewrite E.
Qed.

Lemma rstrip_idem s : rstrip (rstrip s) = rstrip s.
Proof.
  induction s as [|c s IH]; simpl; [reflexivity|].
  destruct (rstrip s) as [|d r] eqn:E.
  - destruct (isspace c) eqn:Ec; simpl; [reflexivity|]. by rewrite Ec.
  - simpl in *. rewrite IH. reflexivity.
Qed.

Lemma strip_idem s : strip (strip s) = strip s.
Proof.
  unfold strip.
  rewrite (lstrip_clean (rstrip (lstrip s)))
    by apply starts_clean_rstrip, starts_clean_lstrip.
  apply rstrip_idem.
Qed.

(** Characters that satisfy [p] through the pipeline. *)
Lemma all_chars_lstrip p s : all_chars p s = true -> all_chars p (lstrip s) = true.
Proof.
  induction s as [|c s IH]; simpl; [done|].
  intros H. apply andb_true_iff in H. destruct H as [Hc Hs].
  destruct (isspace c); [auto|]. simpl. by rewrite Hc, Hs.
Qed.

Lemma all_chars_rstrip p s : all_chars p s = true -> all_chars p (rstrip s) = true.
Proof.
  induction s as [|c s IH]; simpl; [done|].
  intros H. apply andb_true_iff in H. destruct H as [Hc Hs].
  specialize (IH Hs).
  destruct (rstrip s); [destruct (isspace c)|]; simpl in *; rewrite ?Hc, ?IH; done.
Qed.

Lemma all_chars_sub_ws p b s :
  p " "%char = true -> all_chars p s = true -> all_chars p (sub_ws_from b s) = true.
Proof.
  intros Hsp. revert b. induction s as [|c s IH]; intros b; simpl; [done|].
  intros H. apply andb_true_iff in H. destruct H as [Hc Hs].
  destruct (isspace c); [destruct b|]; simpl; rewrite ?Hsp, ?Hc; simpl; auto.
Qed.

Lemma all_chars_lower p s :
  (forall c, p (lower_char c) = p c) ->
  all_chars p s = true -> all_chars p (lower s) = true.
Proof.
  intros Hp. unfold lower. induction s as [|c s IH]; simpl; [done|].
  rewrite Hp. intros H. apply andb_true_iff in H. destruct H as [Hc Hs].
  by rewrite Hc, IH.
Qed.

Lemma nopunct_translate s :
  all_chars (λ c, negb (ispunct c)) (translate_punct s) = true.
Proof.
  induction s as [|c s IH]; simpl; [done|].
  destruct (ispunct c) eqn:E; [exact IH|]. simpl. by rewrite E.
Qed.

Lemma translate_nopunct s :
  all_chars (λ c, negb (ispunct c)) s = true -> translate_punct s = s.
Proof.
  induction s as [|c s IH]; simpl; [done|].
  intros H. apply andb_true_iff in H. destruct H as [Hc Hs].
  apply negb_true_iff in Hc. rewrite Hc. by rewrite IH.
Qed.

(** Single spaces through the pipeline. *)
Lemma squeezed_sub_ws b s : squeezed_from b (sub_ws_from b s) = true.
Proof.
  revert b. induction s as [|c s IH]; intros b; simpl; [done|].
  destruct (isspace c) eqn:E; [destruct b|]; simpl; rewrite ?E; auto.
Qed.

Lemma sub_ws_squeezed b s : squeezed_from b s = true -> sub_ws_from b s = s.
Proof.
  revert b. induction s as [|c s IH]; intros b; simpl; [done|].
  destruct (isspace c).
  - intros H. apply andb_true_iff in H. destruct H as [H Hs].
    apply andb_true_iff in H. destruct H as [Hb Hc].
    apply negb_true_iff in Hb. apply Ascii.eqb_eq in Hc. subst.
    by rewrite IH.
  - intros Hs. by rewrite IH.
Qed.

Lemma squeezed_lstrip b s :
  squeezed_from b s = true -> squeezed_from false (lstrip s) = true.
Proof.
  revert b. induction s as [|c s IH]; intros b; simpl; [done|].
  destruct (isspace c) eqn:E.
  - intros H. apply andb_true_iff in H. destruct H as [_ Hs]. eauto.
  - intros Hs. simpl. by rewrite E.
Qed.

Lemma squeezed_rstrip b s :
  squeezed_from b s = true -> squeezed_from b (rstrip s) = true.
Proof.
  revert b. induction s as [|c s IH]; intros b; simpl; [done|].
  destruct (isspace c) eqn:E.
  - intros H. apply andb_true_iff in H. destruct H as [H Hs].
    specialize (IH _ Hs).
    destruct (rstrip s); simpl; rewrite ?E; [done|].
    rewrite H. exact IH.
  - intros Hs. specialize (IH _ Hs).
    destruct (rstrip s); simpl; rewrite ?E; [done | exact IH].
Qed.

Lemma squeezed_lower b s :
  squeezed_from b s = true -> squeezed_from b (lower s) = true.
Proof.
  unfold lower. revert b. induction s as [|c s IH]; intros b; simpl; [done|].
  rewrite lower_char_space. destruct (isspace c) eqn:E.
  - rewrite (lower_char_of_space c E).
    intros H. apply andb_true_iff in H. destruct H as [H Hs].
    rewrite H. simpl. auto.
  - auto.
Qed.

(** The result of the pipeline is a fixed point of each of its steps but
    the first substitution. *)
Lemma pipeline_strip s : strip (pipeline s) = pipeline s.
Proof. unfold pipeline. by rewrite strip_lower, strip_idem. Qed.

Lemma pipeline_translate s : translate_punct (pipeline s) = pipeline s.
Proof.
  apply translate_nopunct. unfold pipeline.
  apply all_chars_lower; [intros c; by rewrite lower_char_punct|].
  apply all_chars_rstrip, all_chars_lstrip, all_chars_sub_ws; [reflexivity|].
  apply nopunct_translate.
Qed.

Lemma pipeline_sub_ws s : sub_ws (pipeline s) = pipeline s.
Proof.
  apply sub_ws_squeezed. unfold pipeline.
  apply squeezed_lower, squeezed_rstrip. eapply squeezed_lstrip.
  apply squeezed_sub_ws.
Qed.

Lemma pipeline_lower s : lower (pipeline s) = pipeline s.
Proof. unfold pipeline. apply lower_idem. Qed.

Lemma normalize_name_pipeline s : normalize_name s = pipeline s.
Proof. destruct s; reflexivity. Qed.

(** No step of the pipeline makes a name longer, and a title match
    consumes at least one character. *)
Lemma length_lower s : String.length (lower s) = String.length s.
Proof. unfold lower. induction s; simpl; congruence. Qed.

Lemma length_lstrip s : String.length (lstrip s) <= String.length s.
Proof.
  induction s as [|c s IH]; simpl; [lia|]. destruct (isspace c); simpl; lia.
Qed.

Lemma length_rstrip s : String.length (rstrip s) <= String.length s.
Proof.
  induction s as [|c s IH]; simpl; [lia|].
  destruct (rstrip s); [destruct (isspace c)|]; simpl in *; lia.
Qed.

Lemma length_strip s : String.length (strip s) <= String.length s.
Proof.
  unfold strip. pose proof (length_rstrip (lstrip s)). pose proof (length_lstrip s). lia.
Qed.

Lemma length_sub_ws b s : String.length (sub_ws_from b s) <= String.length s.
Proof.
  revert b. induction s as [|c s IH]; intros b; simpl; [lia|].
  pose proof (IH true). pose proof (IH false).
  destruct (isspace c); [destruct b|]; simpl; lia.
Qed.

Lemma length_translate s : String.length (translate_punct s) <= String.length s.
Proof.
  induction s as [|c s IH]; simpl; [lia|]. destruct (ispunct c); simpl; lia.
Qed.

Lemma length_pipeline_tail s :
  String.length (lower (strip (sub_ws (translate_punct s)))) <= String.length s.
Proof.
  rewrite length_lower.
  pose proof (length_strip (sub_ws (translate_punct s))).
  pose proof (length_sub_ws false (translate_punct s)).
  pose proof (length_translate s). unfold sub_ws in *. lia.
Qed.

Lemma length_match_ci p s r :
  match_ci p s = Some r -> String.length r <= String.length s.
Proof.
  revert s. induction p as [|a p IH]; intros s; simpl.
  - intros [= ->]. lia.
  - destruct s as [|c s]; [discriminate|].
    destruct (Ascii.eqb (lower_char c) a); [|discriminate].
    intros H. apply IH in H. simpl. lia.
Qed.

Lemma length_match_ws1 s r :
  match_ws1 s = Some r -> String.length r < String.length s.
Proof.
  destruct s as [|c s]; simpl; [discriminate|].
  destruct (isspace c); [|discriminate]. intros [= <-].
  pose proof (length_lstrip s). lia.
Qed.

Lemma length_match_dot_ws s r :
  match_dot_ws s = Some r -> String.length r < String.length s.
Proof.
  unfold match_dot_ws. intros H.
  assert (Hplain : forall r', match_ws1 s = Some r' -> String.length r' < String.length s)
    by (intros r'; apply length_match_ws1).
  destruct s as [|c s]; [discriminate|].
  destruct (Ascii.eqb c ".") eqn:Ec.
  - apply Ascii.eqb_eq in Ec. subst c.
    destruct (match_ws1 s) as [r0|] eqn:E0.
    + injection H as <-. apply length_match_ws1 in E0. simpl. lia.
    + auto.
  - destruct c as [[] [] [] [] [] [] [] []]; try discriminate Ec; auto.
Qed.

Lemma length_match_titles ts s r :
  match_titles ts s = Some r -> String.length r < String.length s.
Proof.
  induction ts as [|t ts IH]; simpl; [discriminate|].
  destruct (match_ci t s) as [rest|] eqn:Ht; [|exact IH].
  destruct (match_dot_ws rest) as [r0|] eqn:Hd; [|exact IH].
  intros [= <-]. apply length_match_ci in Ht. apply length_match_dot_ws in Hd. lia.
Qed.

End Normalization.

(** C7, as the code has it.  Normalizing twice gives the same name as
    normalizing once exactly when the normalized name does not itself
    begin with one of the titles dr, mr, mrs, ms followed by a space. *)
Theorem normalize_name_idempotent_iff_no_title (x : string) :
  Lookup.normalize_name (Lookup.normalize_name x) = Lookup.normalize_name x
  <-> PyStr.match_title_prefix (Lookup.normalize_name x) = None.
Proof.
  rewrite (normalize_name_pipeline (Lookup.normalize_name x)).
  rewrite (normalize_name_pipeline x).
  unfold NameShape.pipeline at 1. rewrite pipeline_strip. unfold PyStr.sub_title.
  destruct (PyStr.match_title_prefix (NameShape.pipeline x)) as [r|] eqn:Hm.
  - split; [|discriminate]. intros Heq. exfalso.
    pose proof (length_pipeline_tail r) as Hlen. rewrite Heq in Hlen.
    apply length_match_titles in Hm. lia.
  - split; [reflexivity|]. intros _.
    rewrite pipeline_translate, pipeline_sub_ws, pipeline_strip.
    apply pipeline_lower.
Qed.

(** C7, as stated, fails: "Dr. Mr. Smith" loses "Dr." the first time and
    "mr" the second time. *)
Lemma normalize_name_not_idempotent :
  Lookup.normalize_name "Dr. Mr. Smith" = "mr smith"
  /\ Lookup.normalize_name (Lookup.normalize_name "Dr. Mr. Smith") = "smith"
  /\ Lookup.normalize_name (Lookup.normalize_name "Dr. Mr. Smith")
     <> Lookup.normalize_name "Dr. Mr. Smith".
Proof. repeat split. vm_compute. discriminate. Qed.

(** ** Token order *)

Section TokenOrder.
Import PyStr Lookup Order.

Lemma ascii_compare_lt_trans a b c :
  Ascii.compare a b = Lt -> Ascii.compare b c = Lt -> Ascii.compare a c = Lt.
Proof.
  unfold Ascii.compare. rewrite !N.compare_lt_iff. lia.
Qed.

Lemma ascii_compare_eq a b : Ascii.compare a b = Eq -> a = b.
Proof. apply Ascii.compare_eq_iff. Qed.

Lemma ascii_compare_refl a : Ascii.compare a a = Eq.
Proof. unfold Ascii.compare. apply N.compare_refl. Qed.

Lemma string_compare_trans_le s1 s2 s3 :
  String.compare s1 s2 <> Gt -> String.compare s2 s3 <> Gt ->
  String.compare s1 s3 <> Gt.
Proof.
  revert s2 s3. induction s1 as [|a s1 IH]; intros [|b s2] [|c s3]; simpl;
    try congruence.
  destruct (Ascii.compare a b) eqn:Hab; try congruence;
    destruct (Ascii.compare b c) eqn:Hbc; try congruence; intros H12 H23.
  - apply ascii_compare_eq in Hab, Hbc. subst. rewrite ascii_compare_refl. eauto.
  - apply ascii_compare_eq in Hab. subst. rewrite Hbc. congruence.
  - apply ascii_compare_eq in Hbc. subst. rewrite Hab. congruence.
  - rewrite (ascii_compare_lt_trans _ _ _ Hab Hbc). congruence.
Qed.

Lemma leb_compare a b : String.leb a b = true <-> String.compare a b <> Gt.
Proof. unfold String.leb. destruct (String.compare a b); split; congruence. Qed.

Lemma str_le_trans : Transitive str_le.
Proof.
  intros a b c. unfold str_le. rewrite !leb_compare. apply string_compare_trans_le.
Qed.

Lemma str_le_antisym : AntiSymm eq str_le.
Proof. intros a b. apply String.leb_antisym. Qed.

Lemma insert_sorted_perm x l : insert_sorted x l ≡ₚ x :: l.
Proof.
  induction l as [|y l IH]; simpl; [done|].
  destruct (String.leb x y); [done|]. rewrite IH. apply Permutation_swap.
Qed.

Lemma sorted_perm l : sorted l ≡ₚ l.
Proof.
  unfold sorted. induction l as [|x l IH]; simpl; [done|].
  rewrite insert_sorted_perm. by rewrite IH.
Qed.

Lemma insert_sorted_Sorted x l : Sorted str_le l -> Sorted str_le (insert_sorted x l).
Proof.
  induction l as [|y l IH]; simpl; intros Hs.
  - repeat constructor.
  - destruct (String.leb x y) eqn:E.
    + constructor; [exact Hs|]. constructor. exact E.
    + apply Sorted_inv in Hs. destruct Hs as [Hs Hhd].
      constructor; [auto|].
      assert (Hyx : str_le y x).
      { destruct (String.leb_total x y) as [H|H]; [congruence | exact H]. }
      destruct l as [|z l]; simpl.
      * constructor. exact Hyx.
      * destruct (String.leb x z); constructor; [exact Hyx|].
        by apply HdRel_inv in Hhd.
Qed.

Lemma sorted_Sorted l : Sorted str_le (sorted l).
Proof.
  unfold sorted. induction l as [|x l IH]; simpl; [constructor|].
  by apply insert_sorted_Sorted.
Qed.

Lemma sorted_of_perm l1 l2 : l1 ≡ₚ l2 -> sorted l1 = sorted l2.
Proof.
  intros Hp.
  apply (@Sorted_unique _ str_le str_le_trans str_le_antisym);
    try apply sorted_Sorted.
  by rewrite !sorted_perm.
Qed.

End TokenOrder.

(** The sort key depends on the words of a name, not on their order: two
    names whose normalized forms have the same words get the same key, and
    so the same similarity against any third name. *)
Theorem token_sort_key_order_invariant
    (ratio : string -> string -> Q) (a b c : string) :
  PyStr.split (Lookup.normalize_name a) ≡ₚ PyStr.split (Lookup.normalize_name b) ->
  Lookup.token_sort_key a = Lookup.token_sort_key b
  /\ Lookup.name_similarity ratio a c = Lookup.name_similarity ratio b c
  /\ Lookup.name_similarity ratio c a = Lookup.name_similarity ratio c b.
Proof.
  intros Hp.
  assert (Hk : Lookup.token_sort_key a = Lookup.token_sort_key b)
    by (unfold Lookup.token_sort_key; by rewrite (sorted_of_perm _ _ Hp)).
  unfold Lookup.name_similarity. by rewrite Hk.
Qed.

Lemma token_sort_key_order_invariant_witness :
  Lookup.name_similarity Lookup.sequence_ratio "Kumar Kishore" "Kishore Kumar K"
  = Lookup.name_similarity Lookup.sequence_ratio "Kishore, Kumar" "Kishore Kumar K".
Proof.
  apply (token_sort_key_order_invariant Lookup.sequence_ratio
           "Kumar Kishore" "Kishore, Kumar" "Kishore Kumar K").
  vm_compute. apply Permutation_swap.
Defined.

(** ** Names: shape and case *)

Section NameFacts.
Import PyStr Lookup NameShape.

Lemma lower_char_not_upper c : isupper (lower_char c) = false.
Proof. destruct c as [[] [] [] [] [] [] [] []]; reflexivity. Qed.

Lemma all_chars_and p q s :
  all_chars p s = true -> all_chars q s = true ->
  all_chars (λ c, p c && q c) s = true.
Proof.
  induction s as [|c s IH]; simpl; [done|].
  rewrite !andb_true_iff. intros [-> Hp] [-> Hq]. auto.
Qed.

Lemma all_chars_lower_not_upper s :
  all_chars (λ c, negb (isupper c)) (lower s) = true.
Proof.
  unfold lower. induction s as [|c s IH]; simpl; [done|].
  by rewrite lower_char_not_upper, IH.
Qed.

Lemma nopunct_pipeline s :
  all_chars (λ c, negb (ispunct c)) (pipeline s) = true.
Proof.
  unfold pipeline.
  apply all_chars_lower; [intros c; by rewrite lower_char_punct|].
  apply all_chars_rstrip, all_chars_lstrip, all_chars_sub_ws; [reflexivity|].
  apply nopunct_translate.
Qed.

(** A map on characters that keeps the classes the pipeline looks at. *)
Section CharMap.
Variable g : ascii -> ascii.
Hypothesis g_space : forall c, isspace (g c) = isspace c.
Hypothesis g_punct : forall c, ispunct (g c) = ispunct c.
Hypothesis g_lower : forall c, lower_char (g c) = lower_char c.
Hypothesis g_dot : forall c, Ascii.eqb (g c) "." = Ascii.eqb c ".".

Lemma lstrip_map s : lstrip (map_chars g s) = map_chars g (lstrip s).
Proof.
  induction s as [|c s IH]; simpl; [reflexivity|].
  rewrite g_space. destruct (isspace c); [exact IH | reflexivity].
Qed.

Lemma rstrip_map s : rstrip (map_chars g s) = map_chars g (rstrip s).
Proof.
  induction s as [|c s IH]; simpl; [reflexivity|].
  rewrite IH, g_space.
  destruct (rstrip s); simpl; [destruct (isspace c)|]; reflexivity.
Qed.













End CharMap.






End NameFacts.

(** A normalized name has no surrounding whitespace, no whitespace other
    than single spaces, no punctuation and no upper-case letter. *)
Theorem normalize_name_shape (x : string) :
  PyStr.strip (Lookup.normalize_name x) = Lookup.normalize_name x
  /\ PyStr.sub_ws (Lookup.normalize_name x) = Lookup.normalize_name x
  /\ NameShape.all_chars (λ c, negb (PyStr.ispunct c) && negb (PyStr.isupper c))
       (Lookup.normalize_name x) = true.
Proof.
  rewrite (normalize_name_pipeline x).
  split; [apply pipeline_strip|]. split; [apply pipeline_sub_ws|].
  apply all_chars_and; [apply nopunct_pipeline|].
  apply all_chars_lower_not_upper.
Qed.


(** ** Dates of birth *)

Section DobFacts.
Import PyStr Strptime Lookup NameShape Dates.

Lemma make_date_valid y m d dt :
  make_date y m d = Some dt -> dt = Date y m d /\ valid_date dt.
Proof.
  unfold make_date, valid_date.
  destruct (_ && _) eqn:E; [|discriminate]. intros [= <-]. simpl.
  rewrite !andb_true_iff, !Z.leb_le in E. split; [reflexivity | lia].
Qed.

Lemma make_date_of_valid dt :
  valid_date dt -> make_date (year dt) (month dt) (day dt) = Some dt.
Proof.
  unfold make_date, valid_date. intros H.
  destruct (_ && _) eqn:E; [by destruct dt|].
  exfalso. rewrite <- not_true_iff_false in E. apply E.
  rewrite !andb_true_iff, !Z.leb_le. lia.
Qed.

Lemma strptime_valid s fmt dt : strptime s fmt = Some dt -> valid_date dt.
Proof.
  unfold strptime. destruct (re_match _ _ _) as [|[g rest] ?]; [discriminate|].
  destruct rest; [|discriminate]. intros H. by apply make_date_valid in H as [_ ?].
Qed.

Lemma try_format_valid s fmt dt :
  try_format s fmt = Some dt -> valid_date dt /\ (100 <= year dt)%Z.
Proof.
  unfold try_format. destruct (strptime s fmt) as [d0|] eqn:E; [|discriminate].
  apply strptime_valid in E.
  destruct (year d0 <? 100)%Z eqn:Hy.
  - unfold replace_year. intros H. apply make_date_valid in H as [-> Hv].
    split; [exact Hv|]. simpl. unfold valid_date in E.
    destruct (20 <=? year d0)%Z; lia.
  - intros [= <-]. apply Z.ltb_ge in Hy. auto.
Qed.

Lemma first_format_valid s fmts dt :
  first_format s fmts = Some dt -> valid_date dt /\ (100 <= year dt)%Z.
Proof.
  induction fmts as [|fmt fmts IH]; simpl; [discriminate|].
  destruct (try_format s fmt) eqn:E; [|exact IH].
  intros [= <-]. by apply try_format_valid in E.
Qed.

Lemma parse_dob_unfold s :
  _parse_dob_any s =
  match strip s with
  | EmptyString => None
  | _ => first_format (replace_char "/" "-" (strip s)) FMTS
  end.
Proof.
  unfold _parse_dob_any. destruct s as [|c s]; [reflexivity|].
  destruct (strip (String c s)); reflexivity.
Qed.

Lemma map_chars_empty g s : map_chars g s = "" <-> s = "".
Proof. destruct s; simpl; split; congruence. Qed.

Lemma replace_char_idem a b s :
  replace_char a b (replace_char a b s) = replace_char a b s.
Proof.
  unfold replace_char. induction s as [|c s IH]; simpl; [reflexivity|].
  rewrite IH. f_equal.
  destruct (Ascii.eqb c a) eqn:E; [|by rewrite E].
  destruct (Ascii.eqb b a); reflexivity.
Qed.

Lemma slash_to_dash_space c :
  isspace (if Ascii.eqb c "/" then "-"%char else c) = isspace c.
Proof. destruct c as [[] [] [] [] [] [] [] []]; reflexivity. Qed.

Lemma strip_replace_slash s :
  strip (replace_char "/" "-" s) = replace_char "/" "-" (strip s).
Proof.
  unfold replace_char, strip.
  rewrite (lstrip_map _ slash_to_dash_space), (rstrip_map _ slash_to_dash_space).
  reflexivity.
Qed.

(** Symmetry and transitivity of the comparison of dates. *)
Lemma date_eqb_refl d : date_eqb d d = true.
Proof. unfold date_eqb. by rewrite !Z.eqb_refl. Qed.

Lemma date_eqb_true a b : date_eqb a b = true <-> a = b.
Proof. split; [apply date_eqb_eq | intros ->; apply date_eqb_refl]. Qed.

Lemma dob_equal_spec a b :
  _dob_equal a b = true <->
  exists d, _parse_dob_any a = Some d /\ _parse_dob_any b = Some d.
Proof.
  unfold _dob_equal.
  destruct (_parse_dob_any a) as [da|], (_parse_dob_any b) as [db|];
    try (split; [discriminate | intros (d & ? & ?); discriminate]).
  rewrite date_eqb_true. split; [intros ->; eauto | intros (d & [= ->] & [= ->]); done].
Qed.


Lemma all_chars_app p a b :
  all_chars p (a +:+ b) = all_chars p a && all_chars p b.
Proof. induction a as [|c a IH]; simpl; [reflexivity|]. by rewrite IH, andb_assoc. Qed.

Lemma rstrip_no_space s :
  all_chars (λ c, negb (isspace c)) s = true -> rstrip s = s.
Proof.
  induction s as [|c s IH]; simpl; [done|].
  rewrite andb_true_iff, negb_true_iff. intros [Hc Hs].
  rewrite (IH Hs). destruct s; [by rewrite Hc | reflexivity].
Qed.

Lemma lstrip_no_space s :
  all_chars (λ c, negb (isspace c)) s = true -> lstrip s = s.
Proof.
  destruct s as [|c s]; simpl; [done|].
  rewrite andb_true_iff, negb_true_iff. intros [-> _]. reflexivity.
Qed.

Lemma all_chars_weaken (p q : ascii -> bool) s :
  (forall c, p c = true -> q c = true) ->
  all_chars p s = true -> all_chars q s = true.
Proof.
  intros Hpq. induction s as [|c s IH]; simpl; [done|].
  rewrite !andb_true_iff. intros [Hc Hs]. auto.
Qed.

Lemma strip_date_chars s : all_chars date_char s = true -> strip s = s.
Proof.
  intros H.
  assert (Hs : all_chars (λ c, negb (isspace c)) s = true).
  { revert H. apply all_chars_weaken. unfold date_char. intros c.
    rewrite andb_true_iff. tauto. }
  unfold strip. by rewrite (lstrip_no_space s Hs), (rstrip_no_space s Hs).
Qed.

Lemma replace_date_chars s :
  all_chars date_char s = true -> replace_char "/" "-" s = s.
Proof.
  unfold replace_char. induction s as [|c s IH]; simpl; [done|].
  rewrite andb_true_iff. unfold date_char at 1.
  rewrite andb_true_iff, !negb_true_iff. intros [[_ Hc] Hs].
  by rewrite Hc, IH.
Qed.

(** Two digits, printed and read back. *)
Lemma two_digits n :
  n < 100 ->
  all_chars date_char (pad2 (Z.of_nat n)) = true
  /\ forall r, digits2 0 9 0 9 (pad2 (Z.of_nat n) +:+ r) = [(Z.of_nat n, r)].
Proof.
  intros Hn.
  do 100 (destruct n as [|n]; [split; [reflexivity | intros r; reflexivity]|]).
  lia.
Qed.

Lemma two_digits_Z z :
  (0 <= z < 100)%Z ->
  all_chars date_char (pad2 z) = true
  /\ forall r, digits2 0 9 0 9 (pad2 z +:+ r) = [(z, r)].
Proof.
  intros Hz. rewrite <- (Z2Nat.id z) by lia. apply two_digits. lia.
Qed.

Lemma read_day n :
  1 <= n <= 31 ->
  forall r, exists others,
    re_d (pad2 (Z.of_nat n) +:+ r) = (Z.of_nat n, r) :: others.
Proof.
  intros Hn r.
  destruct n as [|n]; [lia|].
  do 31 (destruct n as [|n]; [eexists; reflexivity|]).
  lia.
Qed.

Lemma read_month n :
  1 <= n <= 12 ->
  forall r, exists others,
    re_m (pad2 (Z.of_nat n) +:+ r) = (Z.of_nat n, r) :: others.
Proof.
  intros Hn r.
  destruct n as [|n]; [lia|].
  do 12 (destruct n as [|n]; [eexists; reflexivity|]).
  lia.
Qed.

Lemma app_empty_r a : a +:+ "" = a.
Proof.
  induction a as [|x a IH]; [reflexivity|].
  change (String x (a +:+ "") = String x a). by rewrite IH.
Qed.

Lemma days_in_month_le y m : (days_in_month y m <= 31)%Z.
Proof.
  unfold days_in_month.
  destruct (m =? 2)%Z; [destruct (is_leap y); lia|].
  destruct (_ || _); lia.
Qed.

Lemma head_bind {A B} (f : A -> list B) (l : list A) x y :
  head l = Some x -> head (f x) = Some y -> head (l ≫= f) = Some y.
Proof.
  destruct l as [|x0 l]; simpl; [discriminate|]. intros [= ->].
  destruct (f x) as [|y0 ys]; simpl; [discriminate|]. intros [= ->]. reflexivity.
Qed.

Lemma strptime_head s fmt g :
  head (re_match (parse_format fmt) no_groups s) = Some (g, "") ->
  strptime s fmt = make_date (year_of g) (default 1%Z (g_m g)) (default 1%Z (g_d g)).
Proof.
  unfold strptime. destruct (re_match _ _ _) as [|[g0 rest] ?]; simpl; [discriminate|].
  intros [= -> ->]. reflexivity.
Qed.

Lemma read_year y g :
  (1000 <= y <= 9999)%Z ->
  head (re_match [Dir_Y] g (pad2 (y / 100) +:+ pad2 (y mod 100)))
  = Some (Groups (g_d g) (g_m g) (Some y) (g_y g), "").
Proof.
  intros Hy.
  destruct (two_digits_Z (y / 100)) as [_ Hhi];
    [split; [apply Z.div_pos; lia | apply Z.div_lt_upper_bound; lia]|].
  destruct (two_digits_Z (y mod 100)) as [_ Hlo];
    [apply Z.mod_pos_bound; lia|].
  specialize (Hhi (pad2 (y mod 100))). specialize (Hlo "").
  rewrite app_empty_r in Hlo.
  cbn [re_match]. unfold re_Y. rewrite Hhi. simpl. rewrite Hlo. simpl.
  replace (100 * (y / 100) + y mod 100)%Z with y
    by (pose proof (Z.div_mod y 100); lia).
  reflexivity.
Qed.

(** [strptime] reads what [strftime] printed. *)
Lemma strptime_strftime dt :
  valid_date dt -> (1000 <= year dt)%Z ->
  strptime (strftime_dmY dt) "%d-%m-%Y" = Some dt.
Proof.
  intros Hv Hy. pose proof Hv as (Hyr & Hm & Hd).
  pose proof (days_in_month_le (year dt) (month dt)).
  rewrite (strptime_head _ _ (Groups (Some (day dt)) (Some (month dt))
                                (Some (year dt)) None)).
  { simpl. by apply make_date_of_valid. }
  unfold strftime_dmY.
  change (parse_format "%d-%m-%Y") with [Dir_d; Lit "-"; Dir_m; Lit "-"; Dir_Y].
  destruct (read_day (Z.to_nat (day dt)) ltac:(lia)
              ("-" +:+ pad2 (month dt) +:+ "-"
               +:+ pad2 (year dt / 100) +:+ pad2 (year dt mod 100)))
    as [od Hday].
  destruct (read_month (Z.to_nat (month dt)) ltac:(lia)
              ("-" +:+ pad2 (year dt / 100) +:+ pad2 (year dt mod 100)))
    as [om Hmonth].
  rewrite !Z2Nat.id in Hday, Hmonth by lia.
  cbn [re_match].
  eapply head_bind; [by rewrite Hday|].
  cbn beta iota.
  change ("-" +:+ pad2 (month dt) +:+ "-"
          +:+ pad2 (year dt / 100) +:+ pad2 (year dt mod 100))
    with (String "-" (pad2 (month dt) +:+ "-"
                      +:+ pad2 (year dt / 100) +:+ pad2 (year dt mod 100))).
  cbn [re_match Ascii.eqb Bool.eqb].
  eapply head_bind; [by rewrite Hmonth|].
  cbn beta iota.
  change ("-" +:+ pad2 (year dt / 100) +:+ pad2 (year dt mod 100))
    with (String "-" (pad2 (year dt / 100) +:+ pad2 (year dt mod 100))).
  cbn [Ascii.eqb Bool.eqb].
  exact (read_year (year dt)
           (Groups (Some (day dt)) (Some (month dt)) None None) ltac:(lia)).
Qed.

Lemma strftime_chars dt :
  valid_date dt -> all_chars date_char (strftime_dmY dt) = true.
Proof.
  intros (Hyr & Hm & Hd).
  pose proof (days_in_month_le (year dt) (month dt)).
  unfold strftime_dmY. rewrite !all_chars_app.
  destruct (two_digits_Z (day dt)) as [-> _]; [lia|].
  destruct (two_digits_Z (month dt)) as [-> _]; [lia|].
  destruct (two_digits_Z (year dt / 100)) as [-> _];
    [split; [apply Z.div_pos; lia | apply Z.div_lt_upper_bound; lia]|].
  destruct (two_digits_Z (year dt mod 100)) as [-> _];
    [apply Z.mod_pos_bound; lia|].
  reflexivity.
Qed.

End DobFacts.

(** A date of birth that parses is a date of the calendar, and its year is
    never below 100: a shorter year has been moved into 1900..2099. *)
Theorem parse_dob_gives_calendar_date (s : string) (dt : Strptime.date) :
  Lookup._parse_dob_any s = Some dt ->
  Dates.valid_date dt /\ (100 <= Strptime.year dt)%Z.
Proof.
  rewrite parse_dob_unfold. destruct (PyStr.strip s); [discriminate|].
  apply first_format_valid.
Qed.

Lemma parse_dob_gives_calendar_date_witness :
  Dates.valid_date (Strptime.Date 1950 3 12) /\ (100 <= 1950)%Z.
Proof.
  apply (parse_dob_gives_calendar_date "12/03/0050"). reflexivity.
Defined.

(** Surrounding whitespace does not matter to the reading of a date of
    birth, and a slash is read as a dash. *)
Theorem parse_dob_ignores_spaces_and_slashes (s : string) :
  Lookup._parse_dob_any (PyStr.strip s) = Lookup._parse_dob_any s
  /\ Lookup._parse_dob_any (PyStr.replace_char "/" "-" s) = Lookup._parse_dob_any s.
Proof.
  rewrite !parse_dob_unfold. split.
  - by rewrite strip_idem.
  - rewrite strip_replace_slash, replace_char_idem.
    destruct (PyStr.strip s) eqn:E; reflexivity.
Qed.

(** Two texts have equal dates of birth exactly when both parse and give
    the same calendar date; so the comparison is symmetric and
    transitive, and a text is equal to itself exactly when it parses. *)
Theorem dob_equal_compares_dates (a b c : string) :
  (Lookup._dob_equal a b = true <->
   exists d, Lookup._parse_dob_any a = Some d /\ Lookup._parse_dob_any b = Some d)
  /\ Lookup._dob_equal a b = Lookup._dob_equal b a
  /\ (Lookup._dob_equal a b = true -> Lookup._dob_equal b c = true ->
      Lookup._dob_equal a c = true).
Proof.
  split; [apply dob_equal_spec|]. split.
  - destruct (Lookup._dob_equal a b) eqn:E1, (Lookup._dob_equal b a) eqn:E2;
      try reflexivity.
    + apply dob_equal_spec in E1 as (d & ? & ?).
      rewrite <- E2. symmetry. apply dob_equal_spec. eauto.
    + apply dob_equal_spec in E2 as (d & ? & ?).
      rewrite <- E1. apply dob_equal_spec. eauto.
  - rewrite !dob_equal_spec. intros (d & Ha & Hb) (d' & Hb' & Hc).
    exists d. split; [exact Ha | congruence].
Qed.

Lemma dob_equal_compares_dates_witness :
  Lookup._dob_equal "12/03/1990" " 1990-3-12" = true.
Proof.
  apply (proj2 (proj1 (dob_equal_compares_dates "12/03/1990" " 1990-3-12" ""))).
  exists (Strptime.Date 1990 3 12). split; reflexivity.
Defined.

(** The date of birth that a lookup reports reads back as the same date:
    for every calendar date with a four-digit year, parsing its
    DD-MM-YYYY text gives the date again. *)
Theorem dob_text_round_trip (dt : Strptime.date) :
  Dates.valid_date dt -> (1000 <= Strptime.year dt)%Z ->
  Lookup._parse_dob_any (Lookup._dob_to_str dt) = Some dt.
Proof.
  intros Hv Hy. rewrite parse_dob_unfold. unfold Lookup._dob_to_str.
  rewrite (strip_date_chars _ (strftime_chars dt Hv)).
  rewrite (replace_date_chars _ (strftime_chars dt Hv)).
  destruct (Strptime.strftime_dmY dt) eqn:E.
  - unfold Strptime.strftime_dmY, Strptime.pad2 in E. discriminate.
  - rewrite <- E. cbn [Lookup.FMTS Lookup.first_format].
    unfold Lookup.try_format. rewrite (strptime_strftime dt Hv Hy).
    destruct (Strptime.year dt <? 100)%Z eqn:Hlt; [|reflexivity].
    apply Z.ltb_lt in Hlt. exfalso. lia.
Qed.

Lemma dob_text_round_trip_witness :
  Lookup._parse_dob_any (Lookup._dob_to_str (Strptime.Date 2000 2 29))
  = Some (Strptime.Date 2000 2 29).
Proof.
  apply dob_text_round_trip; [|by vm_compute].
  unfold Dates.valid_date. repeat split; by vm_compute.
Defined.

(** ** The lookup: columns, exact pass, results *)

Section LookupFacts.
Import PyStr Strptime Lookup.

Lemma lower_cols_get_Some cols alias c :
  lower_cols_get cols alias = Some c -> c ∈ cols /\ lower c = alias.
Proof.
  unfold lower_cols_get. intros H. apply last_Some in H as [l' Hl].
  assert (Hin : c ∈ filter (λ c, lower c = alias) cols)
    by (rewrite Hl; apply elem_of_app; right; by left).
  apply list_elem_of_filter in Hin. tauto.
Qed.

Lemma lower_cols_get_None cols alias :
  lower_cols_get cols alias = None <-> forall c, c ∈ cols -> lower c <> alias.
Proof.
  unfold lower_cols_get. rewrite last_None. split.
  - intros Hnil c Hc Hlow.
    assert (Hin : c ∈ filter (λ c, lower c = alias) cols)
      by (apply list_elem_of_filter; auto).
    rewrite Hnil in Hin. by apply elem_of_nil in Hin.
  - intros Hno. destruct (filter _ cols) as [|c l] eqn:E; [reflexivity|].
    assert (Hin : c ∈ filter (λ c, lower c = alias) cols) by (rewrite E; by left).
    apply list_elem_of_filter in Hin. destruct Hin as [Hlow Hc].
    by destruct (Hno c Hc).
Qed.

Lemma first_alias_Some cols aliases c :
  first_alias cols aliases = Some c ->
  c ∈ cols
  /\ exists pre post,
       aliases = pre ++ lower c :: post
       /\ forall a c', a ∈ pre -> c' ∈ cols -> lower c' <> a.
Proof.
  induction aliases as [|a aliases IH]; simpl; [discriminate|].
  destruct (lower_cols_get cols a) as [c0|] eqn:E.
  - intros [= ->]. apply lower_cols_get_Some in E as [Hc <-].
    split; [exact Hc|]. exists [], aliases. split; [reflexivity|].
    intros a c' Ha. by apply elem_of_nil in Ha.
  - intros H. apply IH in H as (Hc & pre & post & -> & Hpre).
    split; [exact Hc|]. exists (a :: pre), post. split; [reflexivity|].
    intros a' c' Ha' Hc'. apply elem_of_cons in Ha' as [-> | Ha'].
    + by apply (proj1 (lower_cols_get_None cols a) E).
    + by apply Hpre.
Qed.

Lemma first_alias_None cols aliases :
  first_alias cols aliases = None <->
  forall c, c ∈ cols -> lower c ∉ aliases.
Proof.
  induction aliases as [|a aliases IH]; simpl.
  - split; [intros _ c _ H; by apply elem_of_nil in H | reflexivity].
  - destruct (lower_cols_get cols a) as [c0|] eqn:E.
    + split; [discriminate|]. intros Hno.
      apply lower_cols_get_Some in E as [Hc Hlow].
      destruct (Hno c0 Hc). rewrite Hlow. by left.
    + rewrite IH. rewrite lower_cols_get_None in E. split.
      * intros Hno c Hc Hin. apply elem_of_cons in Hin as [Heq | Hin].
        -- by apply (E c Hc).
        -- by apply (Hno c Hc).
      * intros Hno c Hc Hin. apply (Hno c Hc). by right.
Qed.

(** The members of [matches_exact]. *)
Lemma matches_exact_elem df col_name col_dob name_in dob_in idx :
  idx ∈ matches_exact df col_name col_dob name_in dob_in <->
  exists row,
    rows df !! idx = Some row
    /\ _dob_equal dob_in (cell df row col_dob) = true
    /\ normalize_name (cell df row col_name) = name_in.
Proof.
  unfold matches_exact, iterrows. rewrite list_elem_of_fmap. split.
  - intros ([i row] & -> & Hin). simpl.
    apply list_elem_of_In, filter_In in Hin as [Hin Hok].
    apply indexed_In in Hin as (j & -> & Hrow).
    apply andb_true_iff in Hok as [Hd Hn]. apply String.eqb_eq in Hn.
    exists row. auto.
  - intros (row & Hrow & Hd & Hn). exists (idx, row). split; [reflexivity|].
    apply list_elem_of_In, filter_In. split.
    + apply list_elem_of_In, list_elem_of_lookup. exists idx.
      apply indexed_lookup. simpl. auto.
    + rewrite Hd, Hn. simpl. apply String.eqb_refl.
Qed.

End LookupFacts.

(** A column is found for a key exactly when some column, lower-cased, is
    one of the aliases of the key.  The column found is a column of the
    file under the first alias that has one: no column carries an earlier
    alias. *)
Theorem find_col_resolves_aliases (df : Lookup.DataFrame) (key : string) :
  (forall c,
     Lookup._find_col df key = Some c ->
     c ∈ Lookup.columns df
     /\ exists pre post,
          Lookup.ALIASES key = pre ++ PyStr.lower c :: post
          /\ forall a c', a ∈ pre -> c' ∈ Lookup.columns df -> PyStr.lower c' <> a)
  /\ (Lookup._find_col df key = None <->
      forall c, c ∈ Lookup.columns df -> PyStr.lower c ∉ Lookup.ALIASES key).
Proof.
  split; [intros c; apply first_alias_Some | apply first_alias_None].
Qed.

Lemma find_col_resolves_aliases_witness :
  "Patient_Name" ∈ ["DOB"; "Patient_Name"; "City"].
Proof.
  apply (proj1 (find_col_resolves_aliases
                  {| Lookup.columns := ["DOB"; "Patient_Name"; "City"];
                     Lookup.rows := [] |} "name") "Patient_Name").
  reflexivity.
Defined.

Section LookupResults.
Import PyStr Strptime Lookup.
Variable ratio : string -> string -> Q.
Variable round3 : Q -> Q.

(** The row that the second loop keeps is one with the candidate's date of
    birth. *)
Lemma fuzzy_loop_index df col_name col_dob name_in dob_in items best :
  (forall idx row, In (idx, row) items -> rows df !! idx = Some row) ->
  forall idx,
    fst (fold_left (fuzzy_step ratio df col_name col_dob name_in dob_in) items best)
    = Some idx ->
    fst best = Some idx
    \/ exists row, rows df !! idx = Some row
                   /\ _dob_equal dob_in (cell df row col_dob) = true.
Proof.
  revert best. induction items as [|[i row] items IH]; intros best Hitems idx; simpl.
  - auto.
  - intros H. apply IH in H; [|intros; apply Hitems; by right].
    destruct H as [H | H]; [|by right].
    unfold fuzzy_step in H.
    destruct (_dob_equal dob_in (cell df row col_dob)) eqn:Hd; [|by left].
    destruct (Qgtb _ _); [|by left].
    simpl in H. injection H as <-. right. exists row. split; [|exact Hd].
    apply Hitems. by left.
Qed.

End LookupResults.



(** Behind every "returning" there is a record with the candidate's date
    of birth, and it is the record reported; a file without a record of
    that date of birth gives "new", whatever the names in it. *)
Theorem returning_has_record_of_same_dob
    (ratio : string -> string -> Q) (round3 : Q -> Q) (csv_path : string)
    (csv : option Lookup.DataFrame) (name dob : option string) (thr : Q) :
  Lookup.status (Lookup.lookup_patient ratio round3 csv_path csv name dob thr)
  = "returning" ->
  exists df col_name col_dob idx row,
    csv = Some df
    /\ Lookup._find_col df "name" = Some col_name
    /\ Lookup._find_col df "dob" = Some col_dob
    /\ Lookup.rows df !! idx = Some row
    /\ Lookup._dob_equal (default "" dob) (Lookup.cell df row col_dob) = true
    /\ Lookup.patient (Lookup.lookup_patient ratio round3 csv_path csv name dob thr)
       = Some (Lookup.patient_of df row col_name col_dob).
Proof.
  unfold Lookup.lookup_patient.
  destruct csv as [df|]; [|discriminate].
  destruct (Lookup._find_col df "name") as [[|a1 a2]|] eqn:Hcn; try discriminate.
  destruct (Lookup._find_col df "dob") as [[|b1 b2]|] eqn:Hcd; try discriminate.
  destruct (Lookup.normalize_name (default "" name)) eqn:En; [discriminate|].
  destruct (Lookup._parse_dob_any (default "" dob)); [|discriminate].
  destruct (Lookup.matches_exact _ _ _ _ _) as [|idx others] eqn:Eh.
  - destruct (Lookup.fuzzy_best _ _ _ _ _ _) as [[best_idx|] best_score] eqn:Eb;
      [|discriminate].
    destruct (Qle_bool thr best_score); [|discriminate]. intros _.
    pose proof (fuzzy_loop_index ratio df (String a1 a2) (String b1 b2)
                  (String a s) (default "" dob) (Lookup.iterrows df) (None, 0%Q))
      as Hloop.
    unfold Lookup.fuzzy_best in Eb. rewrite Eb in Hloop.
    destruct (Hloop ltac:(intros i r Hin; apply indexed_In in Hin as (j & -> & Hr);
                          exact Hr) best_idx eq_refl)
      as [Hcontra | (row & Hrow & Hd)]; [discriminate|].
    exists df, (String a1 a2), (String b1 b2), best_idx, row.
    cbn [Lookup.patient]. rewrite Hrow. by repeat split.
  - intros _.
    assert (Hidx : idx ∈ Lookup.matches_exact df (String a1 a2) (String b1 b2)
                     (String a s) (default "" dob)) by (rewrite Eh; by left).
    apply matches_exact_elem in Hidx as (row & Hrow & Hd & Hn).
    exists df, (String a1 a2), (String b1 b2), idx, row.
    cbn [Lookup.patient]. rewrite Hrow. by repeat split.
Qed.

Lemma returning_has_record_of_same_dob_witness :
  exists df col_name col_dob idx row,
    Some Samples.kishore_store = Some df
    /\ Lookup._find_col df "name" = Some col_name
    /\ Lookup._find_col df "dob" = Some col_dob
    /\ Lookup.rows df !! idx = Some row
    /\ Lookup._dob_equal (default "" (Some "12-03-1990")) (Lookup.cell df row col_dob)
       = true
    /\ Lookup.patient
         (Lookup.lookup_patient Lookup.sequence_ratio Lookup.round3_q
            Lookup.DEFAULT_CSV (Some Samples.kishore_store) (Some "Kishore Kumar")
            (Some "12-03-1990") Lookup.DEFAULT_FUZZY_THRESHOLD)
       = Some (Lookup.patient_of df row col_name col_dob).
Proof.
  apply (returning_has_record_of_same_dob Lookup.sequence_ratio Lookup.round3_q
           Lookup.DEFAULT_CSV (Some Samples.kishore_store) (Some "Kishore Kumar")
           (Some "12-03-1990") Lookup.DEFAULT_FUZZY_THRESHOLD).
  vm_compute. reflexivity.
Defined.

(** Every result of the lookup is "new" or "returning"; a "returning" one
    carries a patient and a score, a "new" one carries neither and no
    duplicates.  So the state that the lookup node builds is routed to
    the insurance or to the scheduler, never to the end of the graph, and
    its "returning" always comes with the matched patient. *)
Theorem lookup_result_is_classified
    (ratio : string -> string -> Q) (round3 : Q -> Q) (csv_path : string)
    (csv : option Lookup.DataFrame) (name dob : option string) (thr : Q)
    (state : Session.State) :
  let r := Lookup.lookup_patient ratio round3 csv_path csv name dob thr in
  ((Lookup.status r = "returning"
    /\ is_Some (Lookup.patient r) /\ is_Some (Lookup.match_score r))
   \/ (Lookup.status r = "new"
       /\ Lookup.patient r = None /\ Lookup.match_score r = None
       /\ Lookup.duplicates r = 0))
  /\ Graph.route_after_lookup (Graph.with_lookup state r) <> "END"
  /\ Spec.lookup_consistent (Graph.with_lookup state r).
Proof.
  intros r.
  assert (Hclass :
    (Lookup.status r = "returning"
     /\ is_Some (Lookup.patient r) /\ is_Some (Lookup.match_score r))
    \/ (Lookup.status r = "new"
        /\ Lookup.patient r = None /\ Lookup.match_score r = None
        /\ Lookup.duplicates r = 0)).
  { subst r. unfold Lookup.lookup_patient.
    destruct csv as [df|]; [|by right].
    destruct (Lookup._find_col df "name") as [[|a1 a2]|]; try by right.
    destruct (Lookup._find_col df "dob") as [[|b1 b2]|]; try by right.
    destruct (Lookup.normalize_name (default "" name)); [by right|].
    destruct (Lookup._parse_dob_any (default "" dob)); [|by right].
    destruct (Lookup.matches_exact _ _ _ _ _) as [|idx others];
      [|left; simpl; eauto].
    destruct (Lookup.fuzzy_best _ _ _ _ _ _) as [[best_idx|] best_score];
      [|by right].
    destruct (Qle_bool thr best_score); [left; simpl; eauto | by right]. }
  clearbody r. split; [exact Hclass|]. split.
  - unfold Graph.route_after_lookup, Graph.with_lookup. cbn [Session.status].
    destruct Hclass as [(Hs & _) | (Hs & _)]; rewrite Hs; by vm_compute.
  - unfold Spec.lookup_consistent, Graph.with_lookup.
    cbn [Session.status Session.lookup_result].
    intros [= Hst] lr [= <-].
    destruct Hclass as [(_ & [p Hp] & _) | (Hnew & _)]; [|congruence].
    rewrite Hp. discriminate.
Qed.

(** ** The slot allocator: frame, first free row, repeated calls *)

Section AllocatorFacts.
Import PyStr Session Scheduler.

Lemma filter_head_first {A} (p : A -> bool) (l : list A) x rest :
  List.filter p l = x :: rest ->
  exists pre post, l = pre ++ x :: post /\ forallb (λ y, negb (p y)) pre = true.
Proof.
  induction l as [|y l IH]; simpl; [discriminate|].
  destruct (p y) eqn:E.
  - intros [= -> <-]. exists [], l. by split.
  - intros H. apply IH in H as (pre & post & -> & Hpre).
    exists (y :: pre), post. split; [reflexivity|]. simpl. by rewrite E.
Qed.

Lemma filter_filter {A} (p q : A -> bool) (l : list A) :
  List.filter q (List.filter p l) = List.filter (λ x, p x && q x) l.
Proof.
  induction l as [|y l IH]; simpl; [reflexivity|].
  destruct (p y); simpl; [destruct (q y)|]; by rewrite IH.
Qed.

Lemma filter_indexed_head {A} (p : nat * A -> bool) (l : list A) k idx x rest :
  List.filter p (zip (seq k (length l)) l) = (idx, x) :: rest ->
  k <= idx /\ l !! (idx - k) = Some x /\ p (idx, x) = true
  /\ forall j y, k + j < idx -> l !! j = Some y -> p (k + j, y) = false.
Proof.
  revert k. induction l as [|a l IH]; intros k; simpl; [discriminate|].
  destruct (p (k, a)) eqn:E.
  - intros [= <- <- _]. split; [lia|]. rewrite Nat.sub_diag. split; [done|].
    split; [exact E|]. intros j y Hj. lia.
  - intros H. apply IH in H as (Hle & Hx & Hp & Hbefore).
    split; [lia|]. replace (idx - k) with (S (idx - S k)) by lia.
    split; [exact Hx|]. split; [exact Hp|].
    intros [|j] y Hj; simpl.
    + intros [= <-]. by rewrite Nat.add_0_r.
    + intros Hy. replace (k + S j) with (S k + j) by lia.
      apply Hbefore; [lia | exact Hy].
Qed.

Lemma find_from_None slots k :
  find_from k slots = None <->
  forall j a b, slots !! j = Some a -> slots !! S j = Some b -> pair_ok a b = false.
Proof.
  revert k. induction slots as [|a slots IH]; intros k; simpl.
  - split; [intros _ j a b H; discriminate H | reflexivity].
  - destruct slots as [|b slots].
    + split; [|reflexivity]. intros _ [|j] a0 b0; simpl; discriminate.
    + destruct (pair_ok a b) eqn:Hok.
      * split; [discriminate|]. intros H. specialize (H 0 a b eq_refl eq_refl).
        congruence.
      * rewrite (IH (S k)). split.
        -- intros H [|j] a0 b0; simpl.
           ++ intros [= <-] [= <-]. exact Hok.
           ++ apply H.
        -- intros H j a0 b0. apply (H (S j)).
Qed.

Lemma normalized_columns_idem df rows' :
  normalized_columns {| sched_columns := normalized_columns df; sched_rows := rows' |}
  = normalized_columns df.
Proof.
  unfold normalized_columns. simpl. rewrite <- list_fmap_compose.
  apply list_fmap_ext. intros _ c _. simpl.
  by rewrite strip_lower, strip_idem, lower_idem.
Qed.

End AllocatorFacts.

(** [_find_consecutive_slots] returns the first pair of neighbours that
    passes its test, as the positions [i] and [i + 1], and returns nothing
    exactly when no pair of neighbours passes. *)
Theorem find_consecutive_slots_first_pair (slots : list (string * string)) :
  (forall i1 i2,
     Scheduler._find_consecutive_slots slots = Some (i1, i2) ->
     i2 = S i1
     /\ exists a b,
          slots !! i1 = Some a /\ slots !! i2 = Some b
          /\ Scheduler.pair_ok a b = true
          /\ forall j a' b', j < i1 -> slots !! j = Some a' ->
               slots !! S j = Some b' -> Scheduler.pair_ok a' b' = false)
  /\ (Scheduler._find_consecutive_slots slots = None <->
      forall j a b, slots !! j = Some a -> slots !! S j = Some b ->
        Scheduler.pair_ok a b = false).
Proof.
  split; [|apply find_from_None].
  intros i1 i2 H. apply find_from_spec in H.
  destruct H as (j & a & b & -> & -> & Ha & Hb & Hok & Hfirst).
  split; [reflexivity|]. exists a, b. simpl. auto.
Qed.

Lemma find_consecutive_slots_first_pair_witness :
  exists a b,
    [("9:00-9:30", "Booked by A"); ("10:00-10:30", "available");
     ("10:30-11:00", "AVAILABLE")] !! 1 = Some a
    /\ Scheduler.pair_ok a b = true.
Proof.
  destruct (proj1 (find_consecutive_slots_first_pair
                     [("9:00-9:30", "Booked by A"); ("10:00-10:30", "available");
                      ("10:30-11:00", "AVAILABLE")]) 1 2 eq_refl)
    as (_ & a & b & Ha & _ & Hok & _).
  exists a, b. auto.
Defined.

Ltac frame_of_failure :=
  intros [= <- <-]; eexists; (split; [reflexivity|]); simpl;
  (split; [rewrite !elem_of_cons; auto|]); do 3 (split; [done|]);
  let Hc := fresh in intros Hc; discriminate Hc.

Ltac frame_of_success :=
  unfold Scheduler.to_excel;
  destruct (Session.write_fails _ Session.DOCTOR_SCHEDULE_FILE); [discriminate|];
  intros [= <- <-]; eexists; (split; [reflexivity|]); simpl;
  (split; [rewrite !elem_of_cons; auto|]); do 2 (split; [done|]);
  split; [congruence | done].

(** A call of the allocator that returns touches neither the patient file
    nor the ledger, and changes nothing in the state but [scheduled_slot],
    whose status is "confirmed", "unavailable" or "error".  Unless the
    status is "confirmed" the world is exactly as before; when it is, one
    write of the schedule has been logged. *)
Theorem schedule_appointment_frame
    (w : Session.World) (state : Session.State) (preferred_date : string)
    (st' : Session.State) (w' : Session.World) :
  Scheduler.schedule_appointment w state preferred_date = Session.Return (st', w') ->
  exists slot,
    st' = Session.set_scheduled_slot state slot
    /\ Session.slot_status slot ∈ [Some "confirmed"; Some "unavailable"; Some "error"]
    /\ Session.patient_db w' = Session.patient_db w
    /\ Session.appointment_status w' = Session.appointment_status w
    /\ (Session.slot_status slot <> Some "confirmed" -> w' = w)
    /\ (Session.slot_status slot = Some "confirmed" ->
        Session.trace w'
        = Session.trace w ++ [Session.EvWrite Session.DOCTOR_SCHEDULE_FILE true]).
Proof.
  unfold Scheduler.schedule_appointment.
  destruct (Scheduler._validate_date preferred_date) as [dt|];
    [|frame_of_failure].
  destruct (Session.read_fails w Session.DOCTOR_SCHEDULE_FILE); [discriminate|].
  destruct (Session.doctor_schedule w) as [df|]; [|discriminate].
  destruct (Scheduler.missing_columns df); [|frame_of_failure].
  destruct (Session.extracted_info state ≫= Session.ei_doctor) as [doctor|];
    [|discriminate].
  destruct (Scheduler.date_match_of (Session.sched_rows df) doctor dt) as [|m dm];
    [frame_of_failure|].
  case_bool_decide.
  - destruct (List.filter _ _) as [|[idx row] rest]; [frame_of_failure|].
    frame_of_success.
  - case_bool_decide; [|frame_of_failure].
    destruct (Scheduler._find_consecutive_slots _) as [[i1 i2]|];
      [|frame_of_failure].
    destruct (_ !! i1) as [[idx1 row1]|]; [|discriminate].
    destruct (_ !! i2) as [[idx2 row2]|]; [|discriminate].
    frame_of_success.
Qed.

Lemma schedule_appointment_frame_witness :
  exists st' w',
    Scheduler.schedule_appointment (Samples.world Samples.reed_schedule)
      (Samples.with_class (Samples.unclassified "Dr. Evelyn Reed") "new")
      "08-09-2025"
    = Session.Return (st', w')
    /\ exists slot,
        st' = Session.set_scheduled_slot
                (Samples.with_class (Samples.unclassified "Dr. Evelyn Reed") "new") slot
        /\ Session.patient_db w' = Session.patient_db (Samples.world Samples.reed_schedule).
Proof.
  eexists _, _. split; [vm_compute; reflexivity|].
  destruct (schedule_appointment_frame (Samples.world Samples.reed_schedule)
              (Samples.with_class (Samples.unclassified "Dr. Evelyn Reed") "new")
              "08-09-2025" _ _ ltac:(vm_compute; reflexivity))
    as (slot & Hst & _ & Hdb & _).
  exists slot. split; [exact Hst | exact Hdb].
Defined.

(** A returning patient gets the first free row of the doctor on the day
    asked for: the row booked is the earliest row of the file with that
    doctor (case apart) and that date whose status is available, it is
    marked "Booked by <name>", and its time label is the time reported. *)
Theorem returning_patient_books_first_available
    (w : Session.World) (state : Session.State) (preferred_date : string)
    (st' : Session.State) (w' : Session.World) :
  Session.status state = Some "returning" ->
  Scheduler.schedule_appointment w state preferred_date = Session.Return (st', w') ->
  Session.scheduled_slot st' ≫= Session.slot_status = Some "confirmed" ->
  exists df doctor dt idx row,
    Session.doctor_schedule w = Some df
    /\ Session.extracted_info state ≫= Session.ei_doctor = Some doctor
    /\ Scheduler._validate_date preferred_date = Some dt
    /\ Session.sched_rows df !! idx = Some row
    /\ PyStr.lower (Session.r_doctor row) = PyStr.lower doctor
    /\ Session.r_date row = Some dt
    /\ Scheduler.is_available (Session.r_status row) = true
    /\ (forall j row',
          j < idx -> Session.sched_rows df !! j = Some row' ->
          PyStr.lower (Session.r_doctor row') = PyStr.lower doctor ->
          Session.r_date row' = Some dt ->
          Scheduler.is_available (Session.r_status row') = false)
    /\ (Session.sched_rows <$> Session.doctor_schedule w')
       = Some (<[idx := Session.with_status row
                          ("Booked by "
                           +:+ PyStr.fmt (Session.extracted_info state ≫= Session.ei_name))]>
                 (Session.sched_rows df))
    /\ Session.scheduled_slot st' ≫= Session.slot_time = Some (Session.r_time row).
Proof.
  intros Hs Hrun Hok.
  destruct (schedule_success_inv _ _ _ _ _ Hrun Hok)
    as (dt & df & doctor & Hdt & Hdf & Hdoc & [Hret | [Hnew _]]);
    [|congruence].
  destruct Hret as (_ & idx & row & rest & Hfilter & Hw' & Htime).
  unfold Scheduler.date_match_of in Hfilter.
  rewrite filter_filter in Hfilter.
  apply filter_indexed_head in Hfilter as (_ & Hrow & Hp & Hbefore).
  rewrite Nat.sub_0_r in Hrow.
  apply andb_true_iff in Hp as [Hp Hav].
  apply andb_true_iff in Hp as [Hd Hdate].
  apply String.eqb_eq in Hd.
  exists df, doctor, dt, idx, row.
  do 4 (split; [done|]). split; [exact Hd|].
  split.
  { destruct (Session.r_date row) as [d|]; [|discriminate].
    simpl in Hdate. by rewrite (date_eqb_eq _ _ Hdate). }
  split; [exact Hav|].
  split.
  { intros j row' Hj Hrow' Hd' Hdate'.
    specialize (Hbefore j row' Hj Hrow'). simpl in Hbefore.
    rewrite Hd', String.eqb_refl, Hdate' in Hbefore. simpl in Hbefore.
    rewrite date_eqb_refl in Hbefore. exact Hbefore. }
  split; [|exact Htime].
  rewrite Hw'. simpl. by rewrite (book_lookup _ _ _ _ Hrow).
Qed.

Lemma returning_patient_books_first_available_witness :
  exists st' w',
    Scheduler.schedule_appointment (Samples.world Samples.reed_schedule)
      (Samples.with_class (Samples.unclassified "dr. evelyn reed") "returning")
      "08-09-2025"
    = Session.Return (st', w')
    /\ exists df doctor dt idx row,
         Session.doctor_schedule (Samples.world Samples.reed_schedule) = Some df
         /\ Session.sched_rows df !! idx = Some row
         /\ PyStr.lower (Session.r_doctor row) = PyStr.lower doctor
         /\ Session.r_date row = Some dt
         /\ Session.scheduled_slot st' ≫= Session.slot_time
            = Some (Session.r_time row).
Proof.
  eexists _, _. split; [vm_compute; reflexivity|].
  destruct (returning_patient_books_first_available
              (Samples.world Samples.reed_schedule)
              (Samples.with_class (Samples.unclassified "dr. evelyn reed") "returning")
              "08-09-2025" _ _ eq_refl ltac:(vm_compute; reflexivity) eq_refl)
    as (df & doctor & dt & idx & row & Hdf & _ & _ & Hrow & Hd & Hdate & _ & _ & _ & Ht).
  exists df, doctor, dt, idx, row. done.
Defined.



Section AllocatorOutcome.
Import PyStr Session Scheduler.

Lemma existsb_filter_nil {A} (p : A -> bool) (l : list A) :
  existsb p l = negb (bool_decide (List.filter p l = [])).
Proof.
  induction l as [|a l IH]; simpl; [done|].
  destruct (p a); simpl; [done | exact IH].
Qed.

Lemma existsb_indexed {A} (p : A -> bool) (l : list A) k :
  existsb (λ '(_, x), p x) (zip (seq k (length l)) l) = existsb p l.
Proof.
  revert k. induction l as [|a l IH]; intros k; simpl; [done|].
  by rewrite IH.
Qed.

Lemma existsb_pointwise {A} (p q : A -> bool) (l : list A) :
  (forall x, p x = q x) -> existsb p l = existsb q l.
Proof. intros H. induction l as [|a l IH]; simpl; [done|]. by rewrite H, IH. Qed.

End AllocatorOutcome.

(** The three answers to a returning patient, when the date parses and
    the schedule can be read and written and has its four columns:
    "confirmed" exactly when some row of the doctor on that day is
    available; otherwise "unavailable" when the doctor has rows on that
    day, and "error" when the doctor has none.  Nothing is written unless
    the answer is "confirmed". *)
Theorem returning_outcome_by_availability
    (w : Session.World) (state : Session.State) (preferred_date : string)
    (dt : Strptime.date) (df : Session.Schedule) (doctor : string) :
  Session.status state = Some "returning" ->
  Scheduler._validate_date preferred_date = Some dt ->
  Session.read_fails w Session.DOCTOR_SCHEDULE_FILE = false ->
  Session.write_fails w Session.DOCTOR_SCHEDULE_FILE = false ->
  Session.doctor_schedule w = Some df ->
  Scheduler.missing_columns df = [] ->
  Session.extracted_info state ≫= Session.ei_doctor = Some doctor ->
  let on_day row :=
    String.eqb (PyStr.lower (Session.r_doctor row)) (PyStr.lower doctor)
    && from_option (Strptime.date_eqb dt) false (Session.r_date row) in
  let free row := on_day row && Scheduler.is_available (Session.r_status row) in
  exists st' w',
    Scheduler.schedule_appointment w state preferred_date = Session.Return (st', w')
    /\ Session.scheduled_slot st' ≫= Session.slot_status
       = Some (if existsb free (Session.sched_rows df) then "confirmed"
               else if existsb on_day (Session.sched_rows df) then "unavailable"
               else "error")
    /\ (existsb free (Session.sched_rows df) = false -> w' = w).
Proof.
  intros Hs Hdt Hr Hw Hdf Hcols Hdoc on_day free.
  unfold Scheduler.schedule_appointment.
  rewrite Hdt, Hr, Hdf, Hcols, Hdoc, Hs. simpl.
  assert (Hday : existsb on_day (Session.sched_rows df)
                 = negb (bool_decide
                           (Scheduler.date_match_of (Session.sched_rows df) doctor dt = []))).
  { rewrite <- (existsb_indexed on_day _ 0). apply existsb_filter_nil. }
  assert (Hfree : existsb free (Session.sched_rows df)
                  = negb (bool_decide
                            (List.filter (λ '(_, row), Scheduler.is_available (Session.r_status row))
                               (Scheduler.date_match_of (Session.sched_rows df) doctor dt) = []))).
  { rewrite <- (existsb_indexed free _ 0).
    unfold Scheduler.date_match_of. rewrite filter_filter.
    rewrite <- existsb_filter_nil. apply existsb_pointwise. by intros [i row]. }
  rewrite Hfree, Hday.
  destruct (Scheduler.date_match_of _ _ _) as [|m dm] eqn:Hdm.
  - simpl. eexists _, _. split; [reflexivity|]. by split.
  - destruct (List.filter _ (m :: dm)) as [|[idx row] rest] eqn:Hf.
    + eexists _, _. split; [reflexivity|]. by split.
    + unfold Scheduler.to_excel. rewrite Hw.
      eexists _, _. split; [reflexivity|]. split; [done|].
      rewrite bool_decide_eq_false_2; [discriminate | discriminate].
Qed.

Lemma returning_outcome_by_availability_witness :
  exists st' w',
    Scheduler.schedule_appointment (Samples.world Samples.reed_schedule)
      (Samples.with_class (Samples.unclassified "Dr. Nobody") "returning")
      "08-09-2025"
    = Session.Return (st', w')
    /\ Session.scheduled_slot st' ≫= Session.slot_status = Some "error"
    /\ w' = Samples.world Samples.reed_schedule.
Proof.
  destruct (returning_outcome_by_availability
              (Samples.world Samples.reed_schedule)
              (Samples.with_class (Samples.unclassified "Dr. Nobody") "returning")
              "08-09-2025" Samples.sept8 Samples.reed_schedule "Dr. Nobody"
              eq_refl eq_refl eq_refl eq_refl eq_refl eq_refl eq_refl)
    as (st' & w' & Hrun & Hstatus & Hsame).
  exists st', w'. split; [exact Hrun|]. split; [exact Hstatus|].
  apply Hsame. reflexivity.
Defined.

(** ** Reserving and cancelling *)

Section ScheduleColumns.
Import PyStr Session.

Lemma resolve_iff_none_missing df :
  Scheduler.missing_columns df = [] <-> Confirmation._resolve_schedule_columns df = true.
Proof.
  unfold Scheduler.missing_columns, Confirmation._resolve_schedule_columns,
    Scheduler.normalized_columns, Scheduler.col_map, Confirmation.col_map.
  set (cols := (λ c, lower (strip c)) <$> sched_columns df).
  cbn [List.filter forallb existsb snd fst].
  destruct (bool_decide ("doctor" ∈ cols)), (bool_decide ("doctor name" ∈ cols)),
    (bool_decide ("dr" ∈ cols)), (bool_decide ("date" ∈ cols)),
    (bool_decide ("time" ∈ cols)), (bool_decide ("time slot" ∈ cols)),
    (bool_decide ("slot" ∈ cols)), (bool_decide ("status" ∈ cols)),
    (bool_decide ("availability" ∈ cols)); cbn; split; (done || discriminate).
Qed.

Lemma resolve_normalized df rows' :
  Confirmation._resolve_schedule_columns
    {| sched_columns := Scheduler.normalized_columns df; sched_rows := rows' |}
  = Confirmation._resolve_schedule_columns df.
Proof.
  unfold Confirmation._resolve_schedule_columns.
  change ((λ c, lower (strip c)) <$> sched_columns
            {| sched_columns := Scheduler.normalized_columns df; sched_rows := rows' |})
    with (Scheduler.normalized_columns
            {| sched_columns := Scheduler.normalized_columns df; sched_rows := rows' |}).
  by rewrite normalized_columns_idem.
Qed.

End ScheduleColumns.

(** The allocator and the canceller look for the four columns of the
    schedule under the same names: a file has no missing column for the
    one exactly when the other resolves it, and a file that the allocator
    has written back, with its column names normalized, still resolves. *)
Theorem schedule_columns_agree (df : Session.Schedule) (rows' : list Session.SchedRow) :
  (Scheduler.missing_columns df = [] <->
   Confirmation._resolve_schedule_columns df = true)
  /\ Confirmation._resolve_schedule_columns
       {| Session.sched_columns := Scheduler.normalized_columns df;
          Session.sched_rows := rows' |}
     = Confirmation._resolve_schedule_columns df
  /\ Scheduler.missing_columns
       {| Session.sched_columns := Scheduler.normalized_columns df;
          Session.sched_rows := rows' |}
     = Scheduler.missing_columns df.
Proof.
  split; [apply resolve_iff_none_missing|].
  split; [apply resolve_normalized|].
  unfold Scheduler.missing_columns. by rewrite normalized_columns_idem.
Qed.

Section Release.
Import PyStr Strptime Session Scheduler NameShape.

Lemma contains_amp_cons c s :
  contains "&" (String c s) = false -> Ascii.eqb c "&" = false /\ contains "&" s = false.
Proof.
  simpl. intros H. apply orb_false_iff in H as [H1 H2].
  rewrite andb_true_r in H1. split; [|exact H2].
  rewrite Ascii.eqb_sym. exact H1.
Qed.

Lemma split_on_no_amp t : contains "&" t = false -> split_on "&" t = [t].
Proof.
  induction t as [|c t IH]; [done|].
  intros H. apply contains_amp_cons in H as [Hc Ht].
  simpl. rewrite (IH Ht), Hc. done.
Qed.

Lemma split_on_amp a b :
  contains "&" a = false ->
  split_on "&" (a +:+ String "&" b) = a :: split_on "&" b.
Proof.
  induction a as [|c a IH].
  - intros _. change ("" +:+ String "&" b) with (String "&" b). simpl.
    destruct (split_on "&" b) eqn:E; [|done].
    destruct b; simpl in E; [discriminate|].
    destruct (split_on "&" b); [discriminate|]. by destruct (Ascii.eqb _ _).
  - intros H. apply contains_amp_cons in H as [Hc Ha].
    change (String c a +:+ String "&" b) with (String c (a +:+ String "&" b)).
    simpl. rewrite (IH Ha), Hc. done.
Qed.

Lemma split_on_space s :
  strip <$> split_on "&" (String " " s) = strip <$> split_on "&" s.
Proof.
  simpl. destruct (split_on "&" s) eqn:E; [|done].
  destruct s; simpl in E; [discriminate|].
  destruct (split_on "&" s); [discriminate|]. by destruct (Ascii.eqb _ _).
Qed.

Lemma rstrip_app_space t : rstrip (t +:+ " ") = rstrip t.
Proof.
  induction t as [|c t IH]; [done|].
  change (String c t +:+ " ") with (String c (t +:+ " ")).
  simpl. by rewrite IH.
Qed.

Lemma strip_fixed t : strip t = t -> starts_clean t = true /\ rstrip t = t.
Proof.
  intros H.
  assert (Hc : starts_clean t = true).
  { rewrite <- H. unfold strip. apply starts_clean_rstrip, starts_clean_lstrip. }
  split; [exact Hc|]. unfold strip in H. by rewrite (lstrip_clean _ Hc) in H.
Qed.

Lemma strip_app_space t : strip t = t -> strip (t +:+ " ") = t.
Proof.
  intros H. apply strip_fixed in H as [Hc Hr].
  destruct t as [|c t]; [reflexivity|].
  unfold strip. rewrite lstrip_clean; [|exact Hc].
  by rewrite rstrip_app_space.
Qed.

Lemma contains_amp_app_space t :
  contains "&" t = false -> contains "&" (t +:+ " ") = false.
Proof.
  induction t as [|c t IH]; [done|].
  intros H. apply contains_amp_cons in H as [Hc Ht].
  change (contains "&" (String c t +:+ " "))
    with (Ascii.eqb "&" c && true || contains "&" (t +:+ " ")).
  rewrite (IH Ht), andb_true_r, Ascii.eqb_sym, Hc. done.
Qed.

(** The labels of a reservation, read back from the reported time. *)
Lemma times_of_joined labels :
  labels <> [] ->
  (forall t, t ∈ labels -> strip t = t /\ contains "&" t = false) ->
  strip <$> split_on "&" (join " & " labels) = labels.
Proof.
  induction labels as [|x l IH]; [done|]. intros _ Hclean.
  destruct (Hclean x) as [Hx Hamp]; [by left|].
  destruct l as [|y l].
  - simpl. rewrite (split_on_no_amp _ Hamp). simpl. by rewrite Hx.
  - change (join " & " (x :: y :: l))
      with (x +:+ " & " +:+ join " & " (y :: l)).
    replace (x +:+ " & " +:+ join " & " (y :: l))
      with ((x +:+ " ") +:+ String "&" (String " " (join " & " (y :: l)))).
    2:{ clear. induction x as [|c x IHx]; [done|].
        change (String c x +:+ " ") with (String c (x +:+ " ")).
        change (String c (x +:+ " ") +:+ ?r) with (String c ((x +:+ " ") +:+ r)).
        change (String c x +:+ ?r) with (String c (x +:+ r)).
        by rewrite IHx. }
    rewrite split_on_amp by (by apply contains_amp_app_space).
    rewrite fmap_cons, split_on_space, (strip_app_space _ Hx).
    f_equal. apply IH; [done|]. intros t Ht. apply Hclean. by right.
Qed.

Section Map.
Variable cond : SchedRow -> bool.
Hypothesis cond_status : forall r s, cond (with_status r s) = cond r.

Lemma release_insert (rows acc : list SchedRow) i row s :
  rows !! i = Some row -> cond row = true ->
  (λ r, if cond r then with_status r "Available" else r) <$> acc
  = (λ r, if cond r then with_status r "Available" else r) <$> rows ->
  (λ r, if cond r then with_status r "Available" else r)
    <$> <[i := with_status row s]> acc
  = (λ r, if cond r then with_status r "Available" else r) <$> rows.
Proof.
  intros Hrow Hc Hacc.
  rewrite list_fmap_insert, Hacc, cond_status, Hc.
  apply list_insert_id. rewrite list_lookup_fmap, Hrow. simpl. by rewrite Hc.
Qed.

Lemma release_fold (rows : list SchedRow) (booked : list (nat * SchedRow)) s :
  (forall i row, (i, row) ∈ booked -> rows !! i = Some row /\ cond row = true) ->
  forall acc,
    (λ r, if cond r then with_status r "Available" else r) <$> acc
    = (λ r, if cond r then with_status r "Available" else r) <$> rows ->
    (λ r, if cond r then with_status r "Available" else r)
      <$> foldl (λ acc '(i, row), <[i := with_status row s]> acc) acc booked
    = (λ r, if cond r then with_status r "Available" else r) <$> rows.
Proof.
  induction booked as [|[i row] booked IH]; intros Hb acc Hacc; [exact Hacc|].
  simpl. apply IH.
  - intros j r Hj. apply Hb. by right.
  - destruct (Hb i row) as [Hrow Hc]; [by left|].
    by apply release_insert.
Qed.

End Map.

End Release.

Section ReserveThenCancel.
Import PyStr Strptime Session Scheduler.

Lemma date_match_facts rows doctor dt idx row :
  In (idx, row) (date_match_of rows doctor dt) ->
  rows !! idx = Some row
  /\ lower (r_doctor row) = lower doctor
  /\ from_option (date_eqb dt) false (r_date row) = true.
Proof.
  intros Hin. split; [by apply (date_match_In _ _ _ _ _ Hin)|].
  unfold date_match_of in Hin. apply filter_In in Hin as [_ Hp].
  apply andb_true_iff in Hp as [Hd Hdate]. by apply String.eqb_eq in Hd.
Qed.

(** What a successful reservation has read and written. *)
Lemma schedule_success_world w state preferred_date st' w' :
  schedule_appointment w state preferred_date = Return (st', w') ->
  scheduled_slot st' ≫= slot_status = Some "confirmed" ->
  exists dt df doctor booked,
    _validate_date preferred_date = Some dt
    /\ read_fails w DOCTOR_SCHEDULE_FILE = false
    /\ write_fails w DOCTOR_SCHEDULE_FILE = false
    /\ doctor_schedule w = Some df
    /\ missing_columns df = []
    /\ extracted_info state ≫= ei_doctor = Some doctor
    /\ booked <> []
    /\ (forall i row, (i, row) ∈ booked ->
          sched_rows df !! i = Some row
          /\ lower (r_doctor row) = lower doctor
          /\ from_option (date_eqb dt) false (r_date row) = true)
    /\ w' = log (put_doctor_schedule w
                   {| sched_columns := normalized_columns df;
                      sched_rows :=
                        foldl (λ acc '(i, row),
                                 <[i := with_status row
                                          ("Booked by "
                                           +:+ fmt (extracted_info state ≫= ei_name))]> acc)
                          (sched_rows df) booked |})
              (EvWrite DOCTOR_SCHEDULE_FILE true)
    /\ st' = set_scheduled_slot state
               (confirmed_slot doctor preferred_date
                  (join " & " ((λ b, r_time (snd b)) <$> booked))
                  (extracted_info state ≫= ei_location)).
Proof.
  unfold schedule_appointment.
  destruct (_validate_date preferred_date) as [dt|]; [|by intros [= <- <-]].
  destruct (read_fails w DOCTOR_SCHEDULE_FILE) eqn:Hr; [discriminate|].
  destruct (doctor_schedule w) as [df|]; [|discriminate].
  destruct (missing_columns df) eqn:Hmiss; [|by intros [= <- <-]].
  destruct (extracted_info state ≫= ei_doctor) as [doctor|]; [|discriminate].
  destruct (date_match_of (sched_rows df) doctor dt) as [|m dm] eqn:Hdm;
    [by intros [= <- <-]|].
  rewrite <- Hdm. clear Hdm m dm.
  case_bool_decide as Hret.
  - destruct (List.filter _ _) as [|[idx row] rest] eqn:Hav; [by intros [= <- <-]|].
    unfold to_excel.
    destruct (write_fails w DOCTOR_SCHEDULE_FILE) eqn:Hw; [discriminate|].
    intros [= <- <-] _.
    assert (Hin : In (idx, row) (date_match_of (sched_rows df) doctor dt)).
    { assert (H : In (idx, row) ((idx, row) :: rest)) by by left.
      rewrite <- Hav in H. by apply filter_In in H as [H _]. }
    apply date_match_facts in Hin as (Hrow & Hd & Hdate).
    exists dt, df, doctor, [(idx, row)].
    do 6 (split; [done|]). split; [done|].
    split.
    { intros i r Hi. apply list_elem_of_singleton in Hi as [= -> ->]. done. }
    split; [|done]. simpl. by rewrite (book_lookup _ _ _ _ Hrow).
  - case_bool_decide as Hnew; [|by intros [= <- <-]].
    destruct (_find_consecutive_slots _) as [[i1 i2]|] eqn:Hfind;
      [|by intros [= <- <-]].
    destruct (date_match_of _ _ _ !! i1) as [[idx1 row1]|] eqn:H1; [|discriminate].
    destruct (date_match_of _ _ _ !! i2) as [[idx2 row2]|] eqn:H2; [|discriminate].
    unfold to_excel.
    destruct (write_fails w DOCTOR_SCHEDULE_FILE) eqn:Hw; [discriminate|].
    intros [= <- <-] _.
    pose proof Hfind as Hspec. apply find_from_spec in Hspec.
    destruct Hspec as (j & a & b & -> & -> & _). simpl in *.
    destruct (found_pair_facts _ _ _ (extracted_info state ≫= ei_name)
                _ _ _ _ _ Hfind H1 H2)
      as (_ & _ & _ & _ & _ & _ & _ & Hbook).
    exists dt, df, doctor, [(idx1, row1); (idx2, row2)].
    do 6 (split; [done|]). split; [done|].
    split.
    { intros i r Hi. apply date_match_facts.
      apply elem_of_cons in Hi as [[= -> ->]|Hi].
      - apply list_elem_of_In. by eapply list_elem_of_lookup_2.
      - apply list_elem_of_singleton in Hi as [= -> ->].
        apply list_elem_of_In. by eapply list_elem_of_lookup_2. }
    split; [|done]. simpl. by rewrite Hbook.
Qed.

(** The canceller at work: with a schedule that resolves, a slot that
    names the doctor and a date that parses, and a row that matches. *)
Lemma revert_matching w df state slot doctor d dt :
  doctor_schedule w = Some df ->
  read_fails w DOCTOR_SCHEDULE_FILE = false ->
  write_fails w DOCTOR_SCHEDULE_FILE = false ->
  Confirmation._resolve_schedule_columns df = true ->
  scheduled_slot state = Some slot ->
  slot_doctor slot = Some doctor ->
  slot_date slot = Some d ->
  strptime d "%d-%m-%Y" = Some dt ->
  let times := strip <$> split_on "&" (default "" (slot_time slot)) in
  let condition row :=
    String.eqb (lower (strip (r_doctor row))) (lower doctor)
    && from_option (date_eqb dt) false (r_date row)
    && bool_decide (r_time row ∈ times) in
  existsb condition (sched_rows df) = true ->
  Confirmation._revert_doctor_schedule w state
  = log (put_doctor_schedule w
           {| sched_columns := sched_columns df;
              sched_rows :=
                (λ row, if condition row then with_status row "Available" else row)
                  <$> sched_rows df |})
      (EvWrite DOCTOR_SCHEDULE_FILE true).
Proof.
  intros Hdf Hr Hw Hcols Hslot Hdoc Hd Hdt times condition Hex.
  unfold Confirmation._revert_doctor_schedule.
  rewrite Hdf, Hr, Hcols, Hslot. cbn [negb mbind option_bind].
  rewrite Hdoc, Hd. cbn [mbind option_bind]. rewrite Hdt.
  fold times. fold condition. by rewrite Hex, Hw.
Qed.

End ReserveThenCancel.

(** Cancelling gives back what the reservation took.  After a confirmed
    reservation, for a doctor name without surrounding whitespace and time
    labels that have no surrounding whitespace and no "&", the canceller
    sets to "Available" exactly the rows of the doctor on that date whose
    label is one of the labels of the reservation: every row that the
    reservation changed is among them, and every row that was available
    before the reservation is available again.  The patient file and the
    ledger are not touched; the schedule is written twice. *)
Theorem cancellation_releases_reservation
    (w : Session.World) (state : Session.State) (preferred_date : string)
    (st1 : Session.State) (w1 : Session.World) :
  Scheduler.schedule_appointment w state preferred_date = Session.Return (st1, w1) ->
  Session.scheduled_slot st1 ≫= Session.slot_status = Some "confirmed" ->
  (forall doctor,
     Session.extracted_info state ≫= Session.ei_doctor = Some doctor ->
     PyStr.strip doctor = doctor) ->
  (forall df row,
     Session.doctor_schedule w = Some df -> row ∈ Session.sched_rows df ->
     PyStr.strip (Session.r_time row) = Session.r_time row
     /\ PyStr.contains "&" (Session.r_time row) = false) ->
  exists df doctor dt times,
    Session.doctor_schedule w = Some df
    /\ Session.extracted_info state ≫= Session.ei_doctor = Some doctor
    /\ Scheduler._validate_date preferred_date = Some dt
    /\ Session.scheduled_slot st1 ≫= Session.slot_time = Some (PyStr.join " & " times)
    /\ let released row :=
         String.eqb (PyStr.lower (PyStr.strip (Session.r_doctor row))) (PyStr.lower doctor)
         && from_option (Strptime.date_eqb dt) false (Session.r_date row)
         && bool_decide (Session.r_time row ∈ times) in
       let w2 := Confirmation._revert_doctor_schedule w1 st1 in
       (Session.sched_rows <$> Session.doctor_schedule w2)
       = Some ((λ row, if released row
                       then Session.with_status row "Available" else row)
                 <$> Session.sched_rows df)
       /\ (forall i,
             (Session.sched_rows <$> Session.doctor_schedule w1) ≫= (.!! i)
             <> Session.sched_rows df !! i ->
             exists row, Session.sched_rows df !! i = Some row /\ released row = true)
       /\ (forall i row,
             Session.sched_rows df !! i = Some row ->
             Scheduler.is_available (Session.r_status row) = true ->
             exists row',
               (Session.sched_rows <$> Session.doctor_schedule w2) ≫= (.!! i) = Some row'
               /\ Scheduler.is_available (Session.r_status row') = true)
       /\ Session.patient_db w2 = Session.patient_db w
       /\ Session.appointment_status w2 = Session.appointment_status w
       /\ Session.trace w2
          = Session.trace w
            ++ [Session.EvWrite Session.DOCTOR_SCHEDULE_FILE true;
                Session.EvWrite Session.DOCTOR_SCHEDULE_FILE true].
Proof.
  intros Hrun Hok Hdoctor Hlabels.
  destruct (schedule_success_world _ _ _ _ _ Hrun Hok)
    as (dt & df & doctor & booked & Hdt & Hr & Hw & Hdf & Hmiss & Hdoc
        & Hne & Hbooked & -> & ->).
  specialize (Hdoctor doctor Hdoc).
  set (times := (λ b, Session.r_time (snd b)) <$> booked).
  exists df, doctor, dt, times.
  do 3 (split; [done|]). split; [reflexivity|].
  intros released w2.
  set (name := Session.extracted_info state ≫= Session.ei_name) in *.
  set (rows1 := foldl _ (Session.sched_rows df) booked) in *.
  assert (Htimes : PyStr.strip <$> PyStr.split_on "&" (PyStr.join " & " times) = times).
  { apply times_of_joined.
    - unfold times. destruct booked; [done | discriminate].
    - intros t Ht. unfold times in Ht. apply list_elem_of_fmap in Ht as ([i row] & -> & Hin).
      apply (Hlabels df row Hdf). apply list_elem_of_lookup.
      exists i. by apply Hbooked. }
  assert (Hrel_status : forall r s, released (Session.with_status r s) = released r)
    by done.
  assert (Hrel_booked : forall i row, (i, row) ∈ booked -> released row = true).
  { intros i row Hin. destruct (Hbooked i row Hin) as (Hrow & Hd & Hdate).
    unfold released. rewrite Hdate, andb_true_r.
    apply andb_true_iff. split.
    - apply String.eqb_eq.
      by rewrite <- strip_lower, Hd, strip_lower, Hdoctor.
    - apply bool_decide_eq_true. unfold times.
      apply list_elem_of_fmap. by exists (i, row). }
  assert (Hmap : (λ row, if released row then Session.with_status row "Available" else row)
                   <$> rows1
                 = (λ row, if released row then Session.with_status row "Available" else row)
                   <$> Session.sched_rows df).
  { unfold rows1. apply (release_fold released Hrel_status); [|reflexivity].
    intros i row Hin. split; [by apply Hbooked | by apply (Hrel_booked i)]. }
  assert (Hex : existsb released rows1 = true).
  { destruct booked as [|[i row] booked]; [done|].
    assert (Hi : (i, row) ∈ (i, row) :: booked) by by left.
    destruct (Hbooked i row Hi) as (Hrow & _).
    assert (Hl : ((λ row, if released row then Session.with_status row "Available" else row)
                    <$> rows1) !! i
                 = Some (Session.with_status row "Available")).
    { rewrite Hmap, list_lookup_fmap, Hrow. simpl.
      by rewrite (Hrel_booked i row Hi). }
    rewrite list_lookup_fmap in Hl.
    destruct (rows1 !! i) as [r1|] eqn:Hr1; [|discriminate].
    apply existsb_exists. exists r1. split.
    - apply list_elem_of_In. by eapply list_elem_of_lookup_2.
    - simpl in Hl. destruct (released r1) eqn:E; [done|].
      injection Hl as ->. by rewrite Hrel_status in E;
        rewrite (Hrel_booked i row Hi) in E. }
  assert (Hw2 : w2
                = Session.log
                    (Session.put_doctor_schedule
                       (Session.log
                          (Session.put_doctor_schedule w
                             {| Session.sched_columns := Scheduler.normalized_columns df;
                                Session.sched_rows := rows1 |})
                          (Session.EvWrite Session.DOCTOR_SCHEDULE_FILE true))
                       {| Session.sched_columns := Scheduler.normalized_columns df;
                          Session.sched_rows :=
                            (λ row, if released row
                                    then Session.with_status row "Available" else row)
                              <$> rows1 |})
                    (Session.EvWrite Session.DOCTOR_SCHEDULE_FILE true)).
  { unfold w2.
    assert (Hcols : Confirmation._resolve_schedule_columns
                      {| Session.sched_columns := Scheduler.normalized_columns df;
                         Session.sched_rows := rows1 |} = true).
    { rewrite resolve_normalized. by apply resolve_iff_none_missing. }
    pose proof (revert_matching
                  (Session.log
                     (Session.put_doctor_schedule w
                        {| Session.sched_columns := Scheduler.normalized_columns df;
                           Session.sched_rows := rows1 |})
                     (Session.EvWrite Session.DOCTOR_SCHEDULE_FILE true))
                  {| Session.sched_columns := Scheduler.normalized_columns df;
                     Session.sched_rows := rows1 |}
                  (Session.set_scheduled_slot state
                     (Scheduler.confirmed_slot doctor preferred_date
                        (PyStr.join " & " times)
                        (Session.extracted_info state ≫= Session.ei_location)))
                  _ doctor preferred_date dt
                  eq_refl Hr Hw Hcols eq_refl eq_refl eq_refl Hdt) as Hrev.
    cbv zeta in Hrev.
    change (default "" (Session.slot_time
                          (Scheduler.confirmed_slot doctor preferred_date
                             (PyStr.join " & " times)
                             (Session.extracted_info state ≫= Session.ei_location))))
      with (PyStr.join " & " times) in Hrev.
    rewrite Htimes in Hrev. apply Hrev. exact Hex. }
  rewrite Hw2. cbn [Session.doctor_schedule Session.log Session.put_doctor_schedule
                      Session.patient_db Session.appointment_status Session.trace
                      fmap option_fmap option_map Session.sched_rows mbind option_bind].
  rewrite Hmap.
  split; [reflexivity|].
  split.
  { intros i Hi.
    destruct (Session.sched_rows df !! i) as [row|] eqn:Hrow.
    - exists row. split; [done|].
      destruct (released row) eqn:E; [done|]. exfalso. apply Hi.
      assert (Hl := f_equal (.!! i) Hmap). simpl in Hl.
      rewrite !list_lookup_fmap, Hrow in Hl. simpl in Hl. rewrite E in Hl.
      destruct (rows1 !! i) as [r1|] eqn:Hr1; [|discriminate].
      simpl in Hl. injection Hl as Hl.
      destruct (released r1) eqn:E1; [|by rewrite Hl].
      subst row. by rewrite Hrel_status, E1 in E.
    - exfalso. apply Hi.
      assert (Hl := f_equal (.!! i) Hmap). simpl in Hl.
      rewrite !list_lookup_fmap, Hrow in Hl.
      by destruct (rows1 !! i). }
  split.
  { intros i row Hrow Hav. rewrite list_lookup_fmap, Hrow. simpl.
    eexists. split; [reflexivity|]. by destruct (released row). }
  split; [reflexivity|]. split; [reflexivity|].
  by rewrite <- app_assoc.
Qed.

Lemma cancellation_releases_reservation_witness :
  exists st1 w1,
    Scheduler.schedule_appointment (Samples.world Samples.reed_schedule)
      (Samples.with_class (Samples.unclassified "Dr. Evelyn Reed") "returning")
      "08-09-2025"
    = Session.Return (st1, w1)
    /\ (Session.r_status <$>
          default [] (Session.sched_rows <$> Session.doctor_schedule w1))
       = ["Booked"; "Booked"; "Booked by Ravi Varma"]
    /\ exists row',
         (Session.sched_rows
            <$> Session.doctor_schedule (Confirmation._revert_doctor_schedule w1 st1))
           ≫= (.!! 2) = Some row'
         /\ Scheduler.is_available (Session.r_status row') = true.
Proof.
  eexists _, _. split; [vm_compute; reflexivity|]. split; [reflexivity|].
  destruct (cancellation_releases_reservation
              (Samples.world Samples.reed_schedule)
              (Samples.with_class (Samples.unclassified "Dr. Evelyn Reed") "returning")
              "08-09-2025" _ _ ltac:(vm_compute; reflexivity) eq_refl)
    as (df & doctor & dt & times & Hdf & _ & _ & _ & Hrel).
  - intros doctor [= <-]. reflexivity.
  - intros df row [= <-] Hin. simpl in Hin.
    repeat (apply elem_of_cons in Hin as [->|Hin]); [by vm_compute .. |].
    by apply elem_of_nil in Hin.
  - injection Hdf as <-.
    destruct Hrel as (_ & _ & Hfree & _).
    exact (Hfree 2 _ eq_refl eq_refl).
Defined.

(** ** What the finalizer may write *)

Section Frames.
Import PyStr Session Confirmation Frame.

Lemma within_refl allowed w : within allowed w w [].
Proof.
  unfold within. do 5 (split; [done|]). split; [by rewrite app_nil_r | done].
Qed.

Lemma within_trans allowed w w1 w2 e1 e2 :
  within allowed w w1 e1 -> within allowed w1 w2 e2 ->
  within allowed w w2 (e1 ++ e2).
Proof.
  intros (Hp1 & Hl1 & Hs1 & Hr1 & Hw1 & Ht1 & Ha1)
         (Hp2 & Hl2 & Hs2 & Hr2 & Hw2 & Ht2 & Ha2).
  unfold within.
  split; [intros H; by rewrite Hp2, Hp1|].
  split; [intros H; by rewrite Hl2, Hl1|].
  split; [intros H; by rewrite Hs2, Hs1|].
  split; [by rewrite Hr2|]. split; [by rewrite Hw2|].
  split; [by rewrite Ht2, Ht1, app_assoc|].
  by rewrite forallb_app, Ha1, Ha2.
Qed.

Lemma within_weaken (a b : Event -> bool) w w' evs :
  (forall e, a e = true -> b e = true) ->
  within a w w' evs -> within b w w' evs.
Proof.
  intros Hab (Hp & Hl & Hs & Hr & Hw & Ht & Ha).
  assert (Hno : forall e, b e = false -> a e = false).
  { intros e Hb. destruct (a e) eqn:E; [|done]. by rewrite (Hab e E) in Hb. }
  unfold within.
  split; [intros H; by apply Hp, Hno|].
  split; [intros H; by apply Hl, Hno|].
  split; [intros H; by apply Hs, Hno|].
  do 3 (split; [done|]).
  apply forallb_forall. intros e He. apply Hab.
  by apply (proj1 (forallb_forall a evs) Ha).
Qed.

Lemma within_log allowed w e : allowed e = true -> within allowed w (log w e) [e].
Proof.
  intros H. unfold within. simpl. do 6 (split; [done|]). by rewrite H.
Qed.

Lemma append_status_within w row :
  exists evs,
    within (writes_to APPOINTMENT_STATUS_FILE) w (append_status w row) evs.
Proof.
  unfold append_status.
  destruct (appointment_status w);
    [destruct (read_fails w APPOINTMENT_STATUS_FILE)|];
    try destruct (write_fails w APPOINTMENT_STATUS_FILE);
    first [ exists []; apply within_refl
          | eexists [_]; unfold within; simpl; (do 6 (split; [done|])); done ].
Qed.

Lemma save_new_patient_within w r :
  exists evs,
    within (writes_to PATIENT_DB_FILE) w (fst (save_new_patient w r)) evs.
Proof.
  unfold save_new_patient.
  destruct (patient_db w);
    [destruct (read_fails w PATIENT_DB_FILE)|];
    try destruct (write_fails w PATIENT_DB_FILE);
    first [ exists []; apply within_refl
          | eexists [_]; unfold within; simpl; (do 6 (split; [done|])); done ].
Qed.

Lemma confirmation_sms_within w phone details :
  exists evs,
    within (sms_to phone) w (_send_twilio_confirmation_sms w phone details) evs.
Proof.
  unfold _send_twilio_confirmation_sms. destruct phone as [|c phone].
  - exists []. apply within_refl.
  - eexists [_]. apply within_log. exact (String.eqb_refl _).
Qed.

Lemma cancellation_sms_within w phone :
  exists evs, within (sms_to phone) w (_send_twilio_cancellation_sms w phone) evs.
Proof.
  unfold _send_twilio_cancellation_sms. destruct phone as [|c phone].
  - exists []. apply within_refl.
  - eexists [_]. apply within_log. exact (String.eqb_refl _).
Qed.

Lemma revert_within w state :
  exists evs,
    within (writes_to DOCTOR_SCHEDULE_FILE) w (_revert_doctor_schedule w state) evs.
Proof.
  unfold _revert_doctor_schedule.
  destruct (doctor_schedule w) as [df|]; [|exists []; apply within_refl].
  destruct (read_fails w DOCTOR_SCHEDULE_FILE); [exists []; apply within_refl|].
  destruct (negb (_resolve_schedule_columns df)); [exists []; apply within_refl|].
  destruct (scheduled_slot state ≫= slot_doctor) as [doctor|];
    [|exists []; apply within_refl].
  destruct (_ ≫= (λ d, Strptime.strptime d "%d-%m-%Y")) as [date|];
    [|exists []; apply within_refl].
  destruct (existsb _ _); [|exists []; apply within_refl].
  destruct (write_fails w DOCTOR_SCHEDULE_FILE);
    eexists [_]; unfold within; simpl; (do 6 (split; [done|])); done.
Qed.

Lemma remove_within w r :
  exists evs,
    within (writes_to PATIENT_DB_FILE) w (_remove_new_patient_record w r) evs.
Proof.
  unfold _remove_new_patient_record.
  destruct (patient_db w) as [df|]; [|exists []; apply within_refl].
  destruct (read_fails w PATIENT_DB_FILE); [exists []; apply within_refl|].
  destruct (negb _); [exists []; apply within_refl|].
  destruct (last_index _ _); [|exists []; apply within_refl].
  destruct (write_fails w PATIENT_DB_FILE);
    eexists [_]; unfold within; simpl; (do 6 (split; [done|])); done.
Qed.

End Frames.

Section FinalizerFrame.
Import PyStr Session Confirmation Frame.

Lemma finalize_within w state rec decision :
  exists evs,
    within
      (λ e, match e with
            | EvWrite PATIENT_DB_FILE _ =>
                bool_decide (status state = Some "new")
                && String.eqb (normalize_decision decision) "CANCEL"
            | EvWrite DOCTOR_SCHEDULE_FILE _ =>
                String.eqb (normalize_decision decision) "CANCEL"
            | EvWrite APPOINTMENT_STATUS_FILE _ =>
                String.eqb (normalize_decision decision) "CONFIRM"
            | EvSms p _ =>
                (String.eqb (normalize_decision decision) "CONFIRM"
                 || String.eqb (normalize_decision decision) "CANCEL")
                && String.eqb p (pr_Phone rec)
            end)
      w (snd (_finalize_confirmation w state rec decision)) evs.
Proof.
  unfold _finalize_confirmation.
  destruct (String.eqb (normalize_decision decision) "CONFIRM") eqn:Hc.
  - cbn [snd].
    set (row := Build_StatusRow _ _ _ _ _ _ _ _ _ _).
    destruct (append_status_within w row) as (e1 & H1).
    destruct (confirmation_sms_within (append_status w row) (pr_Phone rec)
                (scheduled_slot state)) as (e2 & H2).
    exists (e1 ++ e2). eapply within_trans.
    + eapply within_weaken; [|exact H1].
      intros [[] ok|p body]; simpl; try done.
    + eapply within_weaken; [|exact H2].
      intros [f ok|p body]; simpl; try done.
  - destruct (String.eqb (normalize_decision decision) "CANCEL") eqn:Hx.
    + cbn [snd].
      destruct (revert_within w state) as (e1 & H1).
      set (w1 := _revert_doctor_schedule w state) in *.
      assert (H2 : exists e2,
                within (λ e, writes_to PATIENT_DB_FILE e
                             && bool_decide (status state = Some "new"))
                  w1 (if bool_decide (status state = Some "new")
                      then _remove_new_patient_record w1 rec else w1) e2).
      { case_bool_decide.
        - destruct (remove_within w1 rec) as (e2 & H2). exists e2.
          eapply within_weaken; [|exact H2]. intros e He. by rewrite He.
        - exists []. apply within_refl. }
      destruct H2 as (e2 & H2).
      set (w2 := if bool_decide _ then _ else _) in *.
      destruct (cancellation_sms_within w2 (pr_Phone rec)) as (e3 & H3).
      exists (e1 ++ e2 ++ e3).
      eapply within_trans; [|eapply within_trans].
      * eapply within_weaken; [|exact H1].
        intros [[] ok|p body]; simpl; try done.
      * eapply within_weaken; [|exact H2].
        intros [[] ok|p body]; simpl; try done;
        try (intros H; by rewrite andb_true_r).
      * eapply within_weaken; [|exact H3].
        intros [f ok|p body]; simpl; try done.
    + exists []. apply within_refl.
Qed.

End FinalizerFrame.

(** What the finalizer never does.  Every call that returns leaves the
    failure modes of the files alone and only adds events; it writes the
    patient file only for a new patient, the schedule only on CANCEL, the
    ledger only on CONFIRM; it sends messages only on CONFIRM or CANCEL
    and only to the stripped telephone number it was given; and without a
    confirmed reservation in the state it does nothing at all. *)
Theorem confirmation_agent_frame
    (w : Session.World) (state : Session.State)
    (email phone decision : option string)
    (r : Confirmation.Result) (w' : Session.World) :
  Confirmation.confirmation_agent w state email phone decision
  = Session.Return (r, w') ->
  exists evs,
    Frame.within
      (λ e, Confirmation.has_booking state
            && match e with
               | Session.EvWrite Session.PATIENT_DB_FILE _ =>
                   bool_decide (Session.status state = Some "new")
               | Session.EvWrite Session.DOCTOR_SCHEDULE_FILE _ =>
                   String.eqb (Confirmation.normalize_decision decision) "CANCEL"
               | Session.EvWrite Session.APPOINTMENT_STATUS_FILE _ =>
                   String.eqb (Confirmation.normalize_decision decision) "CONFIRM"
               | Session.EvSms p _ =>
                   (String.eqb (Confirmation.normalize_decision decision) "CONFIRM"
                    || String.eqb (Confirmation.normalize_decision decision) "CANCEL")
                   && String.eqb p (PyStr.strip (default "" phone))
               end)
      w w' evs.
Proof.
  unfold Confirmation.confirmation_agent.
  destruct (Confirmation.has_booking state) eqn:Hb; cbn [negb];
    [|intros [= <- <-]; exists []; apply within_refl].
  case_bool_decide as Hnew.
  - set (rec := Confirmation.Build_PatientRecord _ _ _ _ _ _ _ _).
    destruct (save_new_patient_within w rec) as (e1 & H1).
    destruct (Confirmation.save_new_patient w rec) as [w1 [e|]]; cbn [fst] in H1.
    + intros [= <- <-]. exists e1.
      eapply within_weaken; [|exact H1].
      intros [[] ok|p body]; simpl; try done;
      try (intros _; by apply bool_decide_eq_true).
    + destruct (finalize_within w1 state rec decision) as (e2 & H2).
      destruct (Confirmation._finalize_confirmation w1 state rec decision)
        as [r2 w2]; cbn [snd] in H2.
      intros [= <- <-]. exists (e1 ++ e2). eapply within_trans.
      * eapply within_weaken; [|exact H1].
        intros [[] ok|p body]; simpl; try done;
        try (intros _; by apply bool_decide_eq_true).
      * eapply within_weaken; [|exact H2].
        intros [[] ok|p body]; simpl; try done;
        try (intros H; by apply andb_true_iff in H as [H _]).
  - case_bool_decide as Hret; [|intros [= <- <-]; exists []; apply within_refl].
    destruct (Session.lookup_result state) as [[st sc [p|] du re]|];
      [|discriminate|].
    + set (rec := Confirmation.Build_PatientRecord _ _ _ _ _ _ _ _).
      destruct (finalize_within w state rec decision) as (e2 & H2).
      destruct (Confirmation._finalize_confirmation w state rec decision)
        as [r2 w2]; cbn [snd] in H2.
      intros [= <- <-]. exists e2.
      eapply within_weaken; [|exact H2].
      intros [[] ok|p' body]; simpl; try done;
      try (rewrite bool_decide_eq_false_2 by done; done).
    + set (rec := Confirmation.Build_PatientRecord _ _ _ _ _ _ _ _).
      destruct (finalize_within w state rec decision) as (e2 & H2).
      destruct (Confirmation._finalize_confirmation w state rec decision)
        as [r2 w2]; cbn [snd] in H2.
      intros [= <- <-]. exists e2.
      eapply within_weaken; [|exact H2].
      intros [[] ok|p' body]; simpl; try done;
      try (rewrite bool_decide_eq_false_2 by done; done).
Qed.

Lemma confirmation_agent_frame_witness :
  exists r w',
    Confirmation.confirmation_agent (Samples.world Samples.reed_schedule)
      Samples.existing (Some "existing@test.com") (Some " 9876543210 ")
      (Some "cancel")
    = Session.Return (r, w')
    /\ Session.patient_db w' = Session.patient_db (Samples.world Samples.reed_schedule)
    /\ Session.appointment_status w'
       = Session.appointment_status (Samples.world Samples.reed_schedule).
Proof.
  eexists _, _. split; [vm_compute; reflexivity|].
  destruct (confirmation_agent_frame (Samples.world Samples.reed_schedule)
              Samples.existing (Some "existing@test.com") (Some " 9876543210 ")
              (Some "cancel") _ _ ltac:(vm_compute; reflexivity))
    as (evs & Hp & Hl & _).
  split; [apply Hp | apply Hl]; reflexivity.
Defined.

(** ** A new patient who cancels *)

Section NewPatientCancel.
Import PyStr Session Confirmation Frame.



Lemma save_new_patient_ok w rec :
  read_fails w PATIENT_DB_FILE = false ->
  write_fails w PATIENT_DB_FILE = false ->
  save_new_patient w rec
  = (log (put_patient_db w
            (concat_patient
               (default {| Lookup.columns := PATIENT_DB_COLUMNS; Lookup.rows := [] |}
                  (patient_db w)) rec))
       (EvWrite PATIENT_DB_FILE true), None).
Proof.
  intros Hr Hw. unfold save_new_patient. rewrite Hr, Hw.
  by destruct (patient_db w).
Qed.


End NewPatientCancel.



(** ** Telephone numbers *)

Section PhoneFacts.
Import PyStr NameShape.

Lemma strip_cons c s :
  isspace c = false -> strip s = s -> strip (String c s) = String c s.
Proof.
  intros Hc Hs. apply strip_fixed in Hs as [_ Hr].
  unfold strip. cbn [lstrip]. rewrite Hc. cbn [rstrip]. rewrite Hr, Hc.
  by destruct s.
Qed.

End PhoneFacts.

(** A formatted number is in its final form: it starts with "+", has no
    surrounding whitespace, and formatting it again changes nothing; no
    number comes out only when none went in.  The formatter of the
    reminders gives the same number, except that it takes the text "nan"
    for a missing one. *)
Theorem format_phone_number_canonical (phone : option string) :
  match Phone._format_phone_number phone with
  | Some q =>
      PyStr.startswith "+" q = true
      /\ PyStr.strip q = q
      /\ Phone._format_phone_number (Some q) = Some q
  | None => phone = None \/ phone = Some ""
  end
  /\ Phone.normalize_phone phone
     = match phone with
       | Some p => if String.eqb (PyStr.lower p) "nan" then None
                   else Phone._format_phone_number phone
       | None => None
       end.
Proof.
  split.
  - destruct phone as [[|c p]|]; cbn [Phone._format_phone_number]; auto.
    set (s := PyStr.strip (String c p)).
    assert (Hs : PyStr.strip s = s) by apply strip_idem.
    destruct (PyStr.startswith "+" s) eqn:Hplus.
    + split; [exact Hplus|]. split; [exact Hs|].
      destruct s as [|a s']; [discriminate|].
      cbn [Phone._format_phone_number]. by rewrite Hs, Hplus.
    + assert (Hq : PyStr.strip ("+91" +:+ s) = "+91" +:+ s).
      { change ("+91" +:+ s) with (String "+" (String "9" (String "1" s))).
        by repeat apply strip_cons. }
      split; [reflexivity|]. split; [exact Hq|].
      change ("+91" +:+ s) with (String "+" (String "9" (String "1" s))) in *.
      cbn [Phone._format_phone_number]. rewrite Hq. reflexivity.
  - destruct phone as [[|c p]|]; reflexivity.
Qed.

(** ** The extractor's clean-up *)

Section InfoFacts.
Import PyStr Strptime Session PatientInfo Dates NameShape.

Lemma info_try_format_shape token fmt out :
  try_format token fmt = Some out ->
  (forall dt, strptime token fmt = Some dt ->
     (year dt < 100 \/ 1000 <= year dt)%Z) ->
  exists dt dt0,
    strptime token fmt = Some dt0
    /\ month dt = month dt0 /\ day dt = day dt0
    /\ year dt = (if (year dt0 <? 100)%Z then year dt0 + 1900 else year dt0)%Z
    /\ valid_date dt /\ (1000 <= year dt)%Z
    /\ out = strftime_dmY dt.
Proof.
  unfold try_format. destruct (strptime token fmt) as [dt0|] eqn:Hp; [|discriminate].
  intros Hout Hyears. specialize (Hyears dt0 eq_refl).
  pose proof (strptime_valid _ _ _ Hp) as Hv0.
  destruct (year dt0 <? 100)%Z eqn:Hlt.
  - unfold replace_year in Hout.
    destruct (make_date _ _ _) as [dt|] eqn:Hm; [|discriminate].
    injection Hout as <-. apply make_date_valid in Hm as [-> Hv].
    exists (Date (year dt0 + 1900) (month dt0) (day dt0)), dt0.
    cbn [year month day]. rewrite Hlt.
    do 4 (split; [done|]). split; [exact Hv|]. split; [|done].
    destruct Hv0 as [[? ?] _]. lia.
  - injection Hout as <-. exists dt0, dt0. rewrite Hlt.
    do 4 (split; [done|]). split; [exact Hv0|]. split; [|done].
    apply Z.ltb_ge in Hlt. lia.
Qed.

Lemma info_first_format_shape token fmts out :
  first_format token fmts = Some out ->
  (forall fmt dt, fmt ∈ fmts -> strptime token fmt = Some dt ->
     (year dt < 100 \/ 1000 <= year dt)%Z) ->
  exists dt fmt dt0,
    fmt ∈ fmts /\ strptime token fmt = Some dt0
    /\ month dt = month dt0 /\ day dt = day dt0
    /\ year dt = (if (year dt0 <? 100)%Z then year dt0 + 1900 else year dt0)%Z
    /\ valid_date dt /\ (1000 <= year dt)%Z
    /\ out = strftime_dmY dt.
Proof.
  induction fmts as [|fmt fmts IH]; [discriminate|].
  cbn [first_format]. intros Hout Hyears.
  destruct (try_format token fmt) as [o|] eqn:Ht.
  - injection Hout as ->.
    destruct (info_try_format_shape _ _ _ Ht) as (dt & dt0 & H);
      [intros dt; apply Hyears; by left|].
    exists dt, fmt, dt0. split; [by left | exact H].
  - destruct IH as (dt & f & dt0 & Hin & H); [exact Hout | |].
    + intros f dt Hin. apply Hyears. by right.
    + exists dt, f, dt0. split; [by right | exact H].
Qed.

Lemma first_format_none token fmts :
  first_format token fmts = None ->
  forall fmt, fmt ∈ fmts -> try_format token fmt = None.
Proof.
  induction fmts as [|f fmts IH]; intros H fmt Hin; [by apply elem_of_nil in Hin|].
  cbn [first_format] in H. destruct (try_format token f) eqn:Ht; [discriminate|].
  apply elem_of_cons in Hin as [->|Hin]; [exact Ht | by apply IH].
Qed.

Lemma canonical_reparse dt :
  valid_date dt -> (1000 <= year dt)%Z ->
  first_format (replace_char "/" "-" (strftime_dmY dt)) FMTS = Some (strftime_dmY dt).
Proof.
  intros Hv Hy. rewrite (replace_date_chars _ (strftime_chars _ Hv)).
  unfold FMTS. cbn [first_format]. unfold try_format.
  rewrite (strptime_strftime _ Hv Hy).
  replace (year dt <? 100)%Z with false by (symmetry; apply Z.ltb_ge; lia).
  reflexivity.
Qed.

Lemma strftime_length dt : String.length (strftime_dmY dt) = 10.
Proof. reflexivity. Qed.

Lemma canonical_not_null dt :
  valid_date dt -> null_to_none (Some (strftime_dmY dt)) = Some (strftime_dmY dt).
Proof.
  intros Hv. unfold null_to_none.
  assert (Hs : strip (strftime_dmY dt) = strftime_dmY dt).
  { apply strip_date_chars, strftime_chars, Hv. }
  rewrite Hs, bool_decide_eq_false_2; [done|].
  unfold NULL_WORDS. intros Hin.
  assert (Hlen : String.length (lower (strftime_dmY dt)) = 10)
    by by rewrite length_lower.
  repeat (apply elem_of_cons in Hin as [Heq|Hin];
          [rewrite Heq in Hlen; discriminate Hlen|]).
  by apply elem_of_nil in Hin.
Qed.

Lemma null_to_none_idem v : null_to_none (null_to_none v) = null_to_none v.
Proof.
  destruct v as [s|]; [|done]. unfold null_to_none.
  case_bool_decide as H; [done|]. by rewrite bool_decide_eq_false_2.
Qed.

End InfoFacts.

(** Cleaning twice is cleaning once, and what is left is a value: after
    [normalize_output] no field holds a blank text or one of the words
    "null", "none", and a second pass changes nothing.  (The year of a
    date of birth is taken to be outside 0100..0999, so that it prints
    with four digits.) *)
Theorem normalize_output_idempotent (data : Session.ExtractedInfo) :
  (forall d fmt dt,
     Session.ei_dob data = Some d -> fmt ∈ PatientInfo.FMTS ->
     Strptime.strptime (PyStr.replace_char "/" "-" d) fmt = Some dt ->
     (Strptime.year dt < 100 \/ 1000 <= Strptime.year dt)%Z) ->
  PatientInfo.normalize_output (PatientInfo.normalize_output data)
  = PatientInfo.normalize_output data
  /\ forall field v,
       field ∈ [Session.ei_name; Session.ei_dob; Session.ei_doctor;
                Session.ei_location] ->
       field (PatientInfo.normalize_output data) = Some v ->
       PyStr.lower (PyStr.strip v) ∉ PatientInfo.NULL_WORDS.
Proof.
  intros Hyears. split.
  - destruct data as [name dob doctor loc]. cbn [Session.ei_dob] in Hyears.
    unfold PatientInfo.normalize_output.
    cbn [Session.ei_name Session.ei_dob Session.ei_doctor Session.ei_location].
    rewrite !null_to_none_idem. f_equal.
    destruct dob as [[|c d]|]; [done| |done].
    set (s := String c d) in *.
    destruct (PatientInfo.first_format (PyStr.replace_char "/" "-" s) PatientInfo.FMTS)
      as [out|] eqn:Hff.
    + destruct (info_first_format_shape _ _ _ Hff) as (dt & _ & _ & _ & _ & _ & _ & _ & Hv & Hy & ->);
        [intros fmt dt; by apply Hyears|].
      cbn [default from_option id]. rewrite (canonical_not_null _ Hv).
      pose proof (strftime_length dt) as Hlen.
      destruct (Strptime.strftime_dmY dt) as [|c' out'] eqn:Hout; [discriminate|].
      rewrite <- Hout. rewrite (canonical_reparse _ Hv Hy).
      cbn [default from_option id]. by rewrite (canonical_not_null _ Hv).
    + cbn [default from_option id].
      destruct (PatientInfo.null_to_none (Some s)) as [s'|] eqn:Hn; [|done].
      assert (s' = s) as ->.
      { unfold PatientInfo.null_to_none in Hn.
        destruct (bool_decide _); [discriminate | by injection Hn]. }
      unfold s at 1. fold s. rewrite Hff. cbn [default from_option id]. exact Hn.
  - intros field v Hfield Hv.
    assert (Hnull : forall o, PatientInfo.null_to_none o = Some v ->
                      PyStr.lower (PyStr.strip v) ∉ PatientInfo.NULL_WORDS).
    { intros [s|]; [|discriminate]. unfold PatientInfo.null_to_none.
      case_bool_decide as H; [discriminate|]. by intros [= ->]. }
    unfold PatientInfo.normalize_output in Hv.
    repeat (apply elem_of_cons in Hfield as [->|Hfield];
            [by eapply Hnull; exact Hv|]).
    by apply elem_of_nil in Hfield.
Qed.

Lemma normalize_output_idempotent_witness :
  PatientInfo.normalize_output
    (PatientInfo.normalize_output (Samples.info " null " "1990/03/12" "Dr. Evelyn Reed"))
  = PatientInfo.normalize_output (Samples.info " null " "1990/03/12" "Dr. Evelyn Reed")
  /\ Session.ei_dob
       (PatientInfo.normalize_output (Samples.info " null " "1990/03/12" "Dr. Evelyn Reed"))
     = Some "12-03-1990"
  /\ Session.ei_name
       (PatientInfo.normalize_output (Samples.info " null " "1990/03/12" "Dr. Evelyn Reed"))
     = None.
Proof.
  split; [|split; reflexivity].
  apply (normalize_output_idempotent
           (Samples.info " null " "1990/03/12" "Dr. Evelyn Reed")).
  intros d fmt dt [= <-] Hfmt.
  unfold PatientInfo.FMTS in Hfmt.
  repeat (apply elem_of_cons in Hfmt as [->|Hfmt];
          [vm_compute; try discriminate; intros [= <-]; right; discriminate|]).
  by apply elem_of_nil in Hfmt.
Defined.

(** The lookup reads the cleaned date of birth as the extractor read it.
    When one of the three formats reads the date of birth (slashes taken
    for dashes), the cleaned value is the DD-MM-YYYY text of that date,
    with 1900 added to a year below 100, and [_parse_dob_any] gives that
    date back; when none does, the text is left as it was given. *)
Theorem normalized_dob_reads_back (data : Session.ExtractedInfo) (d : string) :
  Session.ei_dob data = Some d -> d <> "" ->
  (forall fmt dt,
     fmt ∈ PatientInfo.FMTS ->
     Strptime.strptime (PyStr.replace_char "/" "-" d) fmt = Some dt ->
     (Strptime.year dt < 100 \/ 1000 <= Strptime.year dt)%Z) ->
  ((forall fmt, fmt ∈ PatientInfo.FMTS ->
      PatientInfo.try_format (PyStr.replace_char "/" "-" d) fmt = None)
   /\ Session.ei_dob (PatientInfo.normalize_output data)
      = PatientInfo.null_to_none (Some d))
  \/ exists dt fmt dt0,
       fmt ∈ PatientInfo.FMTS
       /\ Strptime.strptime (PyStr.replace_char "/" "-" d) fmt = Some dt0
       /\ Strptime.month dt = Strptime.month dt0
       /\ Strptime.day dt = Strptime.day dt0
       /\ Strptime.year dt
          = (if (Strptime.year dt0 <? 100)%Z then Strptime.year dt0 + 1900
             else Strptime.year dt0)%Z
       /\ Session.ei_dob (PatientInfo.normalize_output data)
          = Some (Lookup._dob_to_str dt)
       /\ Lookup._parse_dob_any (Lookup._dob_to_str dt) = Some dt.
Proof.
  intros Hd Hne Hyears. unfold PatientInfo.normalize_output. rewrite Hd.
  cbn [Session.ei_dob].
  destruct d as [|c d]; [done|]. set (s := String c d) in *.
  destruct (PatientInfo.first_format (PyStr.replace_char "/" "-" s) PatientInfo.FMTS)
    as [out|] eqn:Hff.
  - right.
    destruct (info_first_format_shape _ _ _ Hff Hyears)
      as (dt & fmt & dt0 & Hin & Hp & Hm & Hday & Hy & Hv & Hbig & ->).
    exists dt, fmt, dt0. do 5 (split; [done|]).
    cbn [default from_option id]. rewrite (canonical_not_null _ Hv).
    split; [reflexivity|]. by apply dob_text_round_trip.
  - left. split; [by apply first_format_none|]. reflexivity.
Qed.

Lemma normalized_dob_reads_back_witness :
  exists dt,
    Session.ei_dob
      (PatientInfo.normalize_output (Samples.info "Ravi Varma" "1990/03/12" "Dr. X"))
    = Some (Lookup._dob_to_str dt)
    /\ Lookup._parse_dob_any (Lookup._dob_to_str dt) = Some dt.
Proof.
  destruct (normalized_dob_reads_back
              (Samples.info "Ravi Varma" "1990/03/12" "Dr. X") "1990/03/12"
              eq_refl ltac:(discriminate))
    as [[Hnone _]|(dt & fmt & dt0 & _ & _ & _ & _ & _ & Hdob & Hback)].
  - intros fmt dt Hfmt. unfold PatientInfo.FMTS in Hfmt.
    repeat (apply elem_of_cons in Hfmt as [->|Hfmt];
            [vm_compute; try discriminate; intros [= <-]; right; discriminate|]).
    by apply elem_of_nil in Hfmt.
  - exfalso. specialize (Hnone "%Y-%m-%d").
    assert (Hin : "%Y-%m-%d" ∈ PatientInfo.FMTS)
      by (unfold PatientInfo.FMTS; rewrite !elem_of_cons; auto).
    specialize (Hnone Hin). vm_compute in Hnone. discriminate Hnone.
  - exists dt. split; [exact Hdob | exact Hback].
Defined.

(** ** The conversation: from the insurance questions to the decision *)

Section Conversation.
Import PyStr Session Confirmation App.

Lemma append_status_ok w row :
  read_fails w APPOINTMENT_STATUS_FILE = false ->
  write_fails w APPOINTMENT_STATUS_FILE = false ->
  append_status w row
  = log (put_appointment_status w (default [] (appointment_status w) ++ [row]))
      (EvWrite APPOINTMENT_STATUS_FILE true).
Proof.
  intros Hr Hw. unfold append_status. rewrite Hr, Hw.
  by destruct (appointment_status w).
Qed.

Lemma confirmation_sms_files w phone details :
  patient_db (_send_twilio_confirmation_sms w phone details) = patient_db w
  /\ appointment_status (_send_twilio_confirmation_sms w phone details)
     = appointment_status w
  /\ doctor_schedule (_send_twilio_confirmation_sms w phone details)
     = doctor_schedule w.
Proof. by destruct phone. Qed.

Lemma finalize_confirm_ok w state rec decision :
  normalize_decision decision = "CONFIRM" ->
  read_fails w APPOINTMENT_STATUS_FILE = false ->
  write_fails w APPOINTMENT_STATUS_FILE = false ->
  exists w',
    _finalize_confirmation w state rec decision
    = ({| confirmation_status := appointment_confirmed;
          patient_record := Some rec |}, w')
    /\ patient_db w' = patient_db w
    /\ doctor_schedule w' = doctor_schedule w
    /\ appointment_status w'
       = Some (default [] (appointment_status w)
               ++ [{| Patient_Name := pr_Name rec;
                      Patient_DOB := pr_DOB rec;
                      Doctor_Name := scheduled_slot state ≫= slot_doctor;
                      DOA := scheduled_slot state ≫= slot_date;
                      Time_Slot := scheduled_slot state ≫= slot_time;
                      Email := Some (pr_Email rec);
                      Phone_Number := Some (pr_Phone rec);
                      Status := "Confirmed"; Form_Filled := "No";
                      Cancellation_Reason := "" |}]).
Proof.
  intros Hd Hr Hw. unfold _finalize_confirmation. rewrite Hd.
  cbn [String.eqb Ascii.eqb Bool.eqb].
  rewrite (append_status_ok _ _ Hr Hw).
  eexists. split; [reflexivity|].
  destruct (confirmation_sms_files
              (log (put_appointment_status w
                      (default [] (appointment_status w)
                       ++ [{| Patient_Name := pr_Name rec;
                              Patient_DOB := pr_DOB rec;
                              Doctor_Name := scheduled_slot state ≫= slot_doctor;
                              DOA := scheduled_slot state ≫= slot_date;
                              Time_Slot := scheduled_slot state ≫= slot_time;
                              Email := Some (pr_Email rec);
                              Phone_Number := Some (pr_Phone rec);
                              Status := "Confirmed"; Form_Filled := "No";
                              Cancellation_Reason := "" |}]))
                 (EvWrite APPOINTMENT_STATUS_FILE true))
              (pr_Phone rec) (scheduled_slot state)) as (Hp & Hl & Hs).
  rewrite Hp, Hl, Hs. done.
Qed.

Lemma decision_of_confirm d :
  upper (strip d) = "CONFIRM" ->
  d <> "" /\ normalize_decision (Some (upper (strip d))) = "CONFIRM".
Proof.
  intros H. split; [by intros -> |].
  unfold normalize_decision. cbn [default from_option id]. by rewrite H.
Qed.

End Conversation.

Section Turns.
Import PyStr Session Confirmation App.

Lemma turn_date env w s state prompt :
  prompt <> "" -> stage s = COLLECTING_DATE -> agent_state s = StateDict state ->
  Intake.turn env w s prompt
  = Some (Intake.collecting_date w (say s user prompt) state prompt).
Proof.
  intros Hp Hs Ha. destruct prompt; [done|]. destruct s. simpl in *. by subst.
Qed.

Lemma turn_email env w s prompt :
  prompt <> "" -> stage s = COLLECTING_EMAIL ->
  Intake.turn env w s prompt = Some (collecting_email (say s user prompt) prompt, w).
Proof.
  intros Hp Hs. destruct prompt; [done|]. destruct s. simpl in *. by subst.
Qed.

Lemma turn_phone env w s prompt :
  prompt <> "" -> stage s = COLLECTING_PHONE ->
  Intake.turn env w s prompt = Some (collecting_phone (say s user prompt) prompt, w).
Proof.
  intros Hp Hs. destruct prompt; [done|]. destruct s. simpl in *. by subst.
Qed.

Lemma turn_decision env w s prompt :
  prompt <> "" -> stage s = COLLECTING_DECISION ->
  Intake.turn env w s prompt
  = Some (collecting_decision env w (say s user prompt) prompt).
Proof.
  intros Hp Hs. destruct prompt; [done|]. destruct s. simpl in *. by subst.
Qed.

Lemma turn_carrier env w s state prompt :
  prompt <> "" -> stage s = COLLECTING_INSURANCE_CARRIER ->
  agent_state s = StateDict state ->
  Intake.turn env w s prompt
  = Some (Intake.collecting_insurance_carrier (say s user prompt) state prompt, w).
Proof.
  intros Hp Hs Ha. destruct prompt; [done|]. destruct s. simpl in *. by subst.
Qed.

Lemma turn_member env w s state prompt :
  prompt <> "" -> stage s = COLLECTING_INSURANCE_MEMBER_ID ->
  agent_state s = StateDict state ->
  Intake.turn env w s prompt
  = Some (Intake.collecting_insurance_member_id (say s user prompt) state prompt, w).
Proof.
  intros Hp Hs Ha. destruct prompt; [done|]. destruct s. simpl in *. by subst.
Qed.

Lemma turn_group env w s state prompt :
  prompt <> "" -> stage s = COLLECTING_INSURANCE_GROUP_NUMBER ->
  agent_state s = StateDict state ->
  Intake.turn env w s prompt
  = Some (Intake.collecting_insurance_group_number (say s user prompt) state prompt, w).
Proof.
  intros Hp Hs Ha. destruct prompt; [done|]. destruct s. simpl in *. by subst.
Qed.

(** The date stage on a reservation that succeeds. *)
Lemma collecting_date_confirmed w s state prompt st1 w1 :
  Scheduler.schedule_appointment w state prompt = Return (st1, w1) ->
  scheduled_slot st1 ≫= slot_status = Some "confirmed" ->
  exists s1,
    Intake.collecting_date w s state prompt = (s1, w1)
    /\ stage s1 = COLLECTING_EMAIL
    /\ agent_state s1 = StateDict st1
    /\ temp_email s1 = temp_email s /\ temp_phone s1 = temp_phone s.
Proof.
  intros Hrun Hok. unfold Intake.collecting_date. rewrite Hrun.
  destruct (scheduled_slot st1) as [slot|]; [|discriminate].
  simpl in Hok. rewrite bool_decide_eq_true_2 by exact Hok.
  eexists. split; [reflexivity|]. done.
Qed.

(** The three last stages, for an answer that reads CONFIRM. *)
Lemma contact_then_confirm env w s e p d r w' :
  stage s = COLLECTING_EMAIL ->
  e <> "" -> p <> "" -> upper (strip d) = "CONFIRM" ->
  confirmation_agent w (as_state (agent_state s))
    (Some (strip e)) (Some (strip p)) (Some "CONFIRM") = Return (r, w') ->
  exists s',
    Intake.run env w s [e; p; d] = Some (s', w')
    /\ stage s' = DONE
    /\ agent_state s' = FormDict (form_agent env r).
Proof.
  intros Hs He Hp Hd Hconf.
  destruct (decision_of_confirm d Hd) as [Hdne _].
  cbn [Intake.run].
  rewrite (turn_email env w s e He Hs).
  erewrite turn_phone; [|exact Hp|reflexivity].
  erewrite turn_decision; [|exact Hdne|reflexivity].
  unfold collecting_decision. rewrite Hd.
  rewrite bool_decide_eq_true_2 by (rewrite !elem_of_cons; auto).
  cbn [negb].
  cbn [collecting_phone collecting_email say goto set_temp_email set_temp_phone
         agent_state temp_email temp_phone].
  rewrite Hconf. cbn [String.eqb Ascii.eqb Bool.eqb].
  eexists. split; [reflexivity|]. done.
Qed.

End Turns.

Section ReturningConversation.
Import PyStr Session Confirmation App.

Lemma run_cons env w s prompt rest :
  Intake.run env w s (prompt :: rest)
  = match Intake.turn env w s prompt with
    | Some (s', w') => Intake.run env w' s' rest
    | None => None
    end.
Proof. reflexivity. Qed.

Lemma confirm_returning_ok w state lr pat email phone decision :
  has_booking state = true ->
  status state = Some "returning" ->
  lookup_result state = Some lr -> Lookup.patient lr = Some pat ->
  normalize_decision decision = "CONFIRM" ->
  read_fails w APPOINTMENT_STATUS_FILE = false ->
  write_fails w APPOINTMENT_STATUS_FILE = false ->
  exists w',
    confirmation_agent w state email phone decision
    = Return ({| confirmation_status := appointment_confirmed;
                 patient_record :=
                   Some {| pr_Name := Some (Lookup.name pat);
                           pr_DOB := Some (Lookup.dob pat);
                           pr_Location := Lookup.location pat;
                           pr_Insurance_Carrier := Lookup.insurance_carrier pat;
                           pr_Member_ID := Lookup.member_id pat;
                           pr_Group_Number := Lookup.group pat;
                           pr_Email := strip (default "" email);
                           pr_Phone := strip (default "" phone) |} |}, w')
    /\ patient_db w' = patient_db w
    /\ doctor_schedule w' = doctor_schedule w
    /\ appointment_status w'
       = Some (default [] (appointment_status w)
               ++ [{| Patient_Name := Some (Lookup.name pat);
                      Patient_DOB := Some (Lookup.dob pat);
                      Doctor_Name := scheduled_slot state ≫= slot_doctor;
                      DOA := scheduled_slot state ≫= slot_date;
                      Time_Slot := scheduled_slot state ≫= slot_time;
                      Email := Some (strip (default "" email));
                      Phone_Number := Some (strip (default "" phone));
                      Status := "Confirmed"; Form_Filled := "No";
                      Cancellation_Reason := "" |}]).
Proof.
  intros Hb Hs Hlr Hpat Hd Hr Hw. unfold confirmation_agent.
  rewrite Hb. cbn [negb].
  rewrite bool_decide_eq_false_2 by (rewrite Hs; discriminate).
  rewrite bool_decide_eq_true_2 by exact Hs.
  rewrite Hlr. destruct lr as [st sc pt du re]. cbn in Hpat. subst pt.
  cbn [mbind option_bind Lookup.patient fmap option_fmap option_map].
  set (rec := Build_PatientRecord _ _ _ _ _ _ _ _).
  destruct (finalize_confirm_ok w state rec decision Hd Hr Hw)
    as (w' & Hfin & Hp & Hsch & Hl).
  exists w'. rewrite Hfin. done.
Qed.

End ReturningConversation.

(** A returning patient's conversation, from the date to CONFIRM.  When
    the date typed gets a reservation, and the patient then types an
    email address, a telephone number and an answer that reads CONFIRM
    (in any case, with any surrounding whitespace), the conversation ends
    in stage DONE and the ledger, if it can be read and written, has one
    row more: the patient found by the lookup, the doctor asked for, the
    date as typed, the time reserved, and the email address and telephone
    number without their surrounding whitespace.  The patient file is not
    touched and the schedule is as the reservation left it. *)
Theorem returning_conversation_records_booking
    (env : App.Collaborators) (w : Session.World) (s : App.SessionState)
    (state : Session.State) (date e p d : string)
    (st1 : Session.State) (w1 : Session.World)
    (lr : Lookup.LookupResult) (pat : Lookup.Patient) :
  App.stage s = App.COLLECTING_DATE ->
  App.agent_state s = App.StateDict state ->
  Session.status state = Some "returning" ->
  Session.lookup_result state = Some lr -> Lookup.patient lr = Some pat ->
  Scheduler.schedule_appointment w state date = Session.Return (st1, w1) ->
  Session.scheduled_slot st1 ≫= Session.slot_status = Some "confirmed" ->
  e <> "" -> p <> "" -> PyStr.upper (PyStr.strip d) = "CONFIRM" ->
  Session.read_fails w Session.APPOINTMENT_STATUS_FILE = false ->
  Session.write_fails w Session.APPOINTMENT_STATUS_FILE = false ->
  exists s' w',
    Intake.run env w s [date; e; p; d] = Some (s', w')
    /\ App.stage s' = App.DONE
    /\ Session.appointment_status w'
       = Some (default [] (Session.appointment_status w)
               ++ [{| Session.Patient_Name := Some (Lookup.name pat);
                      Session.Patient_DOB := Some (Lookup.dob pat);
                      Session.Doctor_Name :=
                        Session.extracted_info state ≫= Session.ei_doctor;
                      Session.DOA := Some date;
                      Session.Time_Slot :=
                        Session.scheduled_slot st1 ≫= Session.slot_time;
                      Session.Email := Some (PyStr.strip e);
                      Session.Phone_Number := Some (PyStr.strip p);
                      Session.Status := "Confirmed";
                      Session.Form_Filled := "No";
                      Session.Cancellation_Reason := "" |}])
    /\ Session.doctor_schedule w' = Session.doctor_schedule w1
    /\ Session.patient_db w' = Session.patient_db w.
Proof.
  intros Hstage Hag Hs Hlr Hpat Hrun Hok He Hp Hd Hr Hw.
  destruct (schedule_success_world _ _ _ _ _ Hrun Hok)
    as (dt & df & doctor & booked & Hdt & _ & _ & _ & _ & Hdoc & _ & _ & Hw1 & Hst1).
  assert (Hdate : date <> "").
  { intros ->. vm_compute in Hdt. discriminate Hdt. }
  rewrite run_cons, (turn_date env w s state date Hdate Hstage Hag).
  destruct (collecting_date_confirmed w (App.say s App.user date) state date
              st1 w1 Hrun Hok) as (s1 & Hcd & Hstage1 & Hag1 & _).
  rewrite Hcd.
  destruct (confirm_returning_ok w1 st1 lr pat (Some (PyStr.strip e))
              (Some (PyStr.strip p)) (Some "CONFIRM"))
    as (w' & Hconf & Hpdb & Hsch & Hled).
  { unfold Confirmation.has_booking. by rewrite Hok, bool_decide_eq_true_2. }
  { by rewrite Hst1. }
  { by rewrite Hst1. }
  { exact Hpat. }
  { reflexivity. }
  { by rewrite Hw1. }
  { by rewrite Hw1. }
  change st1 with (App.as_state (App.StateDict st1)) in Hconf at 1.
  rewrite <- Hag1 in Hconf.
  destruct (contact_then_confirm env w1 s1 e p d _ w' Hstage1 He Hp Hd Hconf)
    as (s' & Hrun' & Hdone & _).
  exists s', w'. split; [exact Hrun'|]. split; [exact Hdone|].
  split.
  { rewrite Hled. cbn [default from_option id]. rewrite !strip_idem.
    rewrite Hst1, Hw1. cbn. by rewrite Hdoc. }
  split; [exact Hsch|]. rewrite Hpdb, Hw1. reflexivity.
Qed.

Lemma returning_conversation_records_booking_witness :
  exists s' w',
    Intake.run
      {| App.sendgrid_configured := false; App.read_pdf := App.PdfOk;
         App.sendgrid_send := App.SendStatus 202 |}
      (Samples.world Samples.reed_schedule)
      {| App.stage := App.COLLECTING_DATE; App.messages := [];
         App.agent_state :=
           App.StateDict
             {| Session.extracted_info := Session.extracted_info Samples.existing;
                Session.status := Some "returning";
                Session.lookup_result := Session.lookup_result Samples.existing;
                Session.insurance_carrier := None; Session.member_id := None;
                Session.group_number := None; Session.scheduled_slot := None |};
         App.temp_email := None; App.temp_phone := None |}
      ["08-09-2025"; " existing@test.com "; "9876543210 "; " confirm"]
    = Some (s', w')
    /\ App.stage s' = App.DONE
    /\ (Session.Email <$> default [] (Session.appointment_status w'))
       = [Some "existing@test.com"]
    /\ (Session.Time_Slot <$> default [] (Session.appointment_status w'))
       = [Some "11:00-11:30"].
Proof.
  edestruct (returning_conversation_records_booking
               {| App.sendgrid_configured := false; App.read_pdf := App.PdfOk;
                  App.sendgrid_send := App.SendStatus 202 |}
               (Samples.world Samples.reed_schedule)
               {| App.stage := App.COLLECTING_DATE; App.messages := [];
                  App.agent_state :=
                    App.StateDict
                      {| Session.extracted_info := Session.extracted_info Samples.existing;
                         Session.status := Some "returning";
                         Session.lookup_result := Session.lookup_result Samples.existing;
                         Session.insurance_carrier := None; Session.member_id := None;
                         Session.group_number := None; Session.scheduled_slot := None |};
                  App.temp_email := None; App.temp_phone := None |}
               _ "08-09-2025" " existing@test.com " "9876543210 " " confirm"
               _ _ _ _ eq_refl eq_refl eq_refl eq_refl eq_refl
               ltac:(vm_compute; reflexivity) eq_refl
               ltac:(discriminate) ltac:(discriminate) eq_refl eq_refl eq_refl)
    as (s' & w' & Hrun & Hdone & Hled & _).
  exists s', w'. split; [exact Hrun|]. split; [exact Hdone|].
  rewrite Hled. split; reflexivity.
Defined.

Section NewConversation.
Import PyStr Session Confirmation App.

(** The three insurance questions. *)
Lemma insurance_turns env w s state c m g rest :
  stage s = COLLECTING_INSURANCE_CARRIER -> agent_state s = StateDict state ->
  c <> "" -> m <> "" -> g <> "" ->
  exists s3,
    Intake.run env w s (c :: m :: g :: rest) = Intake.run env w s3 rest
    /\ stage s3 = COLLECTING_DATE
    /\ agent_state s3
       = StateDict {| extracted_info := extracted_info state;
                      status := status state;
                      lookup_result := lookup_result state;
                      insurance_carrier := Some (strip c);
                      member_id := Some (strip m);
                      group_number := Some (strip g);
                      scheduled_slot := scheduled_slot state |}.
Proof.
  intros Hs Ha Hc Hm Hg.
  rewrite run_cons, (turn_carrier env w s state c Hc Hs Ha).
  rewrite run_cons. erewrite turn_member; [|exact Hm|reflexivity|reflexivity].
  rewrite run_cons. erewrite turn_group; [|exact Hg|reflexivity|reflexivity].
  eexists. split; [reflexivity|].
  unfold Intake.collecting_insurance_group_number, Intake.insurance_agent.
  cbn. by rewrite !strip_idem.
Qed.

Lemma confirm_new_ok w state email phone decision :
  has_booking state = true ->
  status state = Some "new" ->
  normalize_decision decision = "CONFIRM" ->
  read_fails w PATIENT_DB_FILE = false ->
  write_fails w PATIENT_DB_FILE = false ->
  read_fails w APPOINTMENT_STATUS_FILE = false ->
  write_fails w APPOINTMENT_STATUS_FILE = false ->
  let rec :=
    {| pr_Name := extracted_info state ≫= ei_name;
       pr_DOB := extracted_info state ≫= ei_dob;
       pr_Location := extracted_info state ≫= ei_location;
       pr_Insurance_Carrier := insurance_carrier state;
       pr_Member_ID := member_id state;
       pr_Group_Number := group_number state;
       pr_Email := strip (default "" email);
       pr_Phone := strip (default "" phone) |} in
  exists w',
    confirmation_agent w state email phone decision
    = Return ({| confirmation_status := appointment_confirmed;
                 patient_record := Some rec |}, w')
    /\ patient_db w'
       = Some (concat_patient
                 (default {| Lookup.columns := PATIENT_DB_COLUMNS; Lookup.rows := [] |}
                    (patient_db w)) rec)
    /\ doctor_schedule w' = doctor_schedule w
    /\ appointment_status w'
       = Some (default [] (appointment_status w)
               ++ [{| Patient_Name := pr_Name rec;
                      Patient_DOB := pr_DOB rec;
                      Doctor_Name := scheduled_slot state ≫= slot_doctor;
                      DOA := scheduled_slot state ≫= slot_date;
                      Time_Slot := scheduled_slot state ≫= slot_time;
                      Email := Some (pr_Email rec);
                      Phone_Number := Some (pr_Phone rec);
                      Status := "Confirmed"; Form_Filled := "No";
                      Cancellation_Reason := "" |}]).
Proof.
  intros Hb Hs Hd Hrp Hwp Hrl Hwl rec. unfold confirmation_agent.
  rewrite Hb. cbn [negb]. rewrite bool_decide_eq_true_2 by exact Hs.
  fold rec. rewrite (save_new_patient_ok w rec Hrp Hwp).
  set (w1 := log _ _).
  destruct (finalize_confirm_ok w1 state rec decision Hd Hrl Hwl)
    as (w' & Hfin & Hp & Hsch & Hl).
  exists w'. rewrite Hfin. done.
Qed.

End NewConversation.

(** A new patient's conversation, from the insurance questions to
    CONFIRM.  The three insurance answers, a date that gets a
    reservation, an email address, a telephone number and an answer that
    reads CONFIRM end in stage DONE; with files that can be read and
    written, the patient file has one row more, which carries the name,
    date of birth and city of the extracted details and the insurance
    answers, email address and telephone number as typed, without their
    surrounding whitespace; and the ledger has one row more for the time
    reserved. *)
Theorem new_conversation_saves_what_was_typed
    (env : App.Collaborators) (w : Session.World) (s : App.SessionState)
    (state : Session.State) (c m g date e p d : string)
    (st1 : Session.State) (w1 : Session.World) :
  App.stage s = App.COLLECTING_INSURANCE_CARRIER ->
  App.agent_state s = App.StateDict state ->
  Session.status state = Some "new" ->
  c <> "" -> m <> "" -> g <> "" -> e <> "" -> p <> "" ->
  PyStr.upper (PyStr.strip d) = "CONFIRM" ->
  Scheduler.schedule_appointment w
    {| Session.extracted_info := Session.extracted_info state;
       Session.status := Session.status state;
       Session.lookup_result := Session.lookup_result state;
       Session.insurance_carrier := Some (PyStr.strip c);
       Session.member_id := Some (PyStr.strip m);
       Session.group_number := Some (PyStr.strip g);
       Session.scheduled_slot := Session.scheduled_slot state |} date
  = Session.Return (st1, w1) ->
  Session.scheduled_slot st1 ≫= Session.slot_status = Some "confirmed" ->
  (forall f, Session.read_fails w f = false /\ Session.write_fails w f = false) ->
  exists s' w',
    Intake.run env w s [c; m; g; date; e; p; d] = Some (s', w')
    /\ App.stage s' = App.DONE
    /\ Session.patient_db w'
       = Some (Confirmation.concat_patient
                 (default {| Lookup.columns := Confirmation.PATIENT_DB_COLUMNS;
                             Lookup.rows := [] |} (Session.patient_db w))
                 {| Confirmation.pr_Name :=
                      Session.extracted_info state ≫= Session.ei_name;
                    Confirmation.pr_DOB :=
                      Session.extracted_info state ≫= Session.ei_dob;
                    Confirmation.pr_Location :=
                      Session.extracted_info state ≫= Session.ei_location;
                    Confirmation.pr_Insurance_Carrier := Some (PyStr.strip c);
                    Confirmation.pr_Member_ID := Some (PyStr.strip m);
                    Confirmation.pr_Group_Number := Some (PyStr.strip g);
                    Confirmation.pr_Email := PyStr.strip e;
                    Confirmation.pr_Phone := PyStr.strip p |})
    /\ Session.appointment_status w'
       = Some (default [] (Session.appointment_status w)
               ++ [{| Session.Patient_Name :=
                        Session.extracted_info state ≫= Session.ei_name;
                      Session.Patient_DOB :=
                        Session.extracted_info state ≫= Session.ei_dob;
                      Session.Doctor_Name :=
                        Session.extracted_info state ≫= Session.ei_doctor;
                      Session.DOA := Some date;
                      Session.Time_Slot :=
                        Session.scheduled_slot st1 ≫= Session.slot_time;
                      Session.Email := Some (PyStr.strip e);
                      Session.Phone_Number := Some (PyStr.strip p);
                      Session.Status := "Confirmed";
                      Session.Form_Filled := "No";
                      Session.Cancellation_Reason := "" |}])
    /\ Session.doctor_schedule w' = Session.doctor_schedule w1.
Proof.
  intros Hstage Hag Hs Hc Hm Hg He Hp Hd Hrun Hok Hfiles.
  destruct (insurance_turns env w s state c m g [date; e; p; d] Hstage Hag Hc Hm Hg)
    as (s3 & Hrun3 & Hstage3 & Hag3).
  rewrite Hrun3. clear Hrun3.
  set (state' := Session.Build_State _ _ _ _ _ _ _) in *.
  destruct (schedule_success_world _ _ _ _ _ Hrun Hok)
    as (dt & df & doctor & booked & Hdt & _ & _ & _ & _ & Hdoc & _ & _ & Hw1 & Hst1).
  assert (Hdate : date <> "").
  { intros ->. vm_compute in Hdt. discriminate Hdt. }
  rewrite run_cons, (turn_date env w s3 state' date Hdate Hstage3 Hag3).
  destruct (collecting_date_confirmed w (App.say s3 App.user date) state' date
              st1 w1 Hrun Hok) as (s4 & Hcd & Hstage4 & Hag4 & _).
  rewrite Hcd.
  destruct (confirm_new_ok w1 st1 (Some (PyStr.strip e)) (Some (PyStr.strip p))
              (Some "CONFIRM"))
    as (w' & Hconf & Hpdb & Hsch & Hled).
  { unfold Confirmation.has_booking. by rewrite Hok, bool_decide_eq_true_2. }
  { by rewrite Hst1. }
  { reflexivity. }
  { rewrite Hw1. apply Hfiles. }
  { rewrite Hw1. apply Hfiles. }
  { rewrite Hw1. apply Hfiles. }
  { rewrite Hw1. apply Hfiles. }
  change st1 with (App.as_state (App.StateDict st1)) in Hconf at 1.
  rewrite <- Hag4 in Hconf.
  destruct (contact_then_confirm env w1 s4 e p d _ w' Hstage4 He Hp Hd Hconf)
    as (s' & Hrun' & Hdone & _).
  exists s', w'. split; [exact Hrun'|]. split; [exact Hdone|].
  unfold state' in Hdoc. cbn [Session.extracted_info] in Hdoc.
  split.
  { rewrite Hpdb. cbn [default from_option id]. rewrite !strip_idem.
    rewrite Hst1, Hw1. reflexivity. }
  split; [|exact Hsch].
  rewrite Hled. cbn [default from_option id]. rewrite !strip_idem.
  rewrite Hst1, Hw1. cbn. by rewrite Hdoc.
Qed.

Lemma new_conversation_saves_what_was_typed_witness :
  exists s' w',
    Intake.run
      {| App.sendgrid_configured := false; App.read_pdf := App.PdfOk;
         App.sendgrid_send := App.SendStatus 202 |}
      (Samples.world Samples.morning_schedule)
      {| App.stage := App.COLLECTING_INSURANCE_CARRIER; App.messages := [];
         App.agent_state :=
           App.StateDict (Samples.with_class (Samples.unclassified "Dr. X") "new");
         App.temp_email := None; App.temp_phone := None |}
      ["HealthFirst "; " N123"; "G1"; "08-09-2025"; " ravi@mail.com"; "9032278543 ";
       "Confirm"]
    = Some (s', w')
    /\ App.stage s' = App.DONE
    /\ (last (Lookup.rows (default Samples.patients (Session.patient_db w'))))
       = Some ["Ravi Varma"; "01-01-1980"; ""; "HealthFirst"; "N123"; "G1";
               "ravi@mail.com"; "9032278543"].
Proof.
  edestruct (new_conversation_saves_what_was_typed
               {| App.sendgrid_configured := false; App.read_pdf := App.PdfOk;
                  App.sendgrid_send := App.SendStatus 202 |}
               (Samples.world Samples.morning_schedule)
               {| App.stage := App.COLLECTING_INSURANCE_CARRIER; App.messages := [];
                  App.agent_state :=
                    App.StateDict
                      (Samples.with_class (Samples.unclassified "Dr. X") "new");
                  App.temp_email := None; App.temp_phone := None |}
               _ "HealthFirst " " N123" "G1" "08-09-2025" " ravi@mail.com"
               "9032278543 " "Confirm" _ _
               eq_refl eq_refl eq_refl
               ltac:(discriminate) ltac:(discriminate) ltac:(discriminate)
               ltac:(discriminate) ltac:(discriminate) eq_refl
               ltac:(vm_compute; reflexivity) eq_refl
               ltac:(intros f; split; reflexivity))
    as (s' & w' & Hrun & Hdone & Hpdb & _).
  exists s', w'. split; [exact Hrun|]. split; [exact Hdone|].
  rewrite Hpdb. reflexivity.
Defined.

Section DateStage.
Import PyStr Session App.

Ltac world_of_failure := intros [= <- <-] _; reflexivity.

Lemma schedule_unconfirmed_world w state preferred_date st' w' :
  Scheduler.schedule_appointment w state preferred_date = Return (st', w') ->
  scheduled_slot st' ≫= slot_status <> Some "confirmed" ->
  w' = w.
Proof.
  unfold Scheduler.schedule_appointment.
  destruct (Scheduler._validate_date preferred_date) as [dt|];
    [|world_of_failure].
  destruct (read_fails w DOCTOR_SCHEDULE_FILE); [discriminate|].
  destruct (doctor_schedule w) as [df|]; [|discriminate].
  destruct (Scheduler.missing_columns df); [|world_of_failure].
  destruct (extracted_info state ≫= ei_doctor) as [doctor|]; [|discriminate].
  destruct (Scheduler.date_match_of (sched_rows df) doctor dt) as [|m dm];
    [world_of_failure|].
  case_bool_decide.
  - destruct (List.filter _ _) as [|[idx row] rest]; [world_of_failure|].
    destruct (Scheduler.to_excel _ _); [|discriminate].
    intros [= <- <-] Hne. by exfalso; apply Hne.
  - case_bool_decide; [|world_of_failure].
    destruct (Scheduler._find_consecutive_slots _) as [[i1 i2]|];
      [|world_of_failure].
    destruct (_ !! i1) as [[idx1 row1]|]; [|discriminate].
    destruct (_ !! i2) as [[idx2 row2]|]; [|discriminate].
    destruct (Scheduler.to_excel _ _); [|discriminate].
    intros [= <- <-] Hne. by exfalso; apply Hne.
Qed.

End DateStage.

(** The date question is asked until a reservation is made.  A run of the
    date stage moves on to the email question exactly when the allocator
    answered "confirmed"; with any other answer the stage is still the
    date stage, the assistant asks for another date, and no file has
    been written.  When the allocator raises, only the patient's message
    has been recorded. *)
Theorem date_stage_repeats_until_reserved
    (env : App.Collaborators) (w : Session.World) (s : App.SessionState)
    (state : Session.State) (date : string)
    (s' : App.SessionState) (w' : Session.World) :
  App.stage s = App.COLLECTING_DATE ->
  App.agent_state s = App.StateDict state ->
  date <> "" ->
  Intake.turn env w s date = Some (s', w') ->
  match Scheduler.schedule_appointment w state date with
  | Session.Raise _ => s' = App.say s App.user date /\ w' = w
  | Session.Return (st1, w1) =>
      w' = w1
      /\ App.agent_state s' = App.StateDict st1
      /\ (App.stage s' = App.COLLECTING_EMAIL <->
          Session.scheduled_slot st1 ≫= Session.slot_status = Some "confirmed")
      /\ (Session.scheduled_slot st1 ≫= Session.slot_status <> Some "confirmed" ->
          App.stage s' = App.COLLECTING_DATE
          /\ App.messages s'
             = App.messages s ++ [(App.user, date); (App.assistant, Intake.NO_SLOTS)]
          /\ w' = w)
  end.
Proof.
  intros Hstage Hag Hdate.
  rewrite (turn_date env w s state date Hdate Hstage Hag).
  unfold Intake.collecting_date.
  destruct (Scheduler.schedule_appointment w state date) as [[st1 w1]|exn] eqn:Hrun;
    [|by intros [= <- <-]].
  pose proof (schedule_unconfirmed_world _ _ _ _ _ Hrun) as Hsame.
  destruct (Session.scheduled_slot st1) as [slot|] eqn:Hslot.
  - cbn [mbind option_bind] in *. case_bool_decide as Hc.
    + intros [= <- <-]. split; [done|]. split; [done|].
      split; [done|]. intros Hne. by exfalso; apply Hne.
    + intros [= <- <-]. split; [done|]. split; [done|].
      split.
      * cbn. rewrite Hstage. split; [discriminate | intros H; by exfalso; apply Hc].
      * intros _. cbn. rewrite Hstage. split; [done|].
        split; [by rewrite <- app_assoc | by apply Hsame].
  - cbn [mbind option_bind] in *. intros [= <- <-].
    split; [done|]. split; [done|].
    split.
    + cbn. rewrite Hstage. split; discriminate.
    + intros _. cbn. rewrite Hstage. split; [done|].
      split; [by rewrite <- app_assoc | by apply Hsame].
Qed.

Lemma date_stage_repeats_until_reserved_witness :
  exists s' w',
    Intake.turn
      {| App.sendgrid_configured := false; App.read_pdf := App.PdfOk;
         App.sendgrid_send := App.SendStatus 202 |}
      (Samples.world Samples.reed_schedule)
      {| App.stage := App.COLLECTING_DATE; App.messages := [];
         App.agent_state :=
           App.StateDict (Samples.with_class (Samples.unclassified "Dr. Evelyn Reed") "new");
         App.temp_email := None; App.temp_phone := None |}
      "08-09-2025"
    = Some (s', w')
    /\ App.stage s' = App.COLLECTING_DATE
    /\ w' = Samples.world Samples.reed_schedule.
Proof.
  eexists _, _. split; [vm_compute; reflexivity|].
  pose proof (date_stage_repeats_until_reserved
              {| App.sendgrid_configured := false; App.read_pdf := App.PdfOk;
                 App.sendgrid_send := App.SendStatus 202 |}
              (Samples.world Samples.reed_schedule)
              {| App.stage := App.COLLECTING_DATE; App.messages := [];
                 App.agent_state :=
                   App.StateDict
                     (Samples.with_class (Samples.unclassified "Dr. Evelyn Reed") "new");
                 App.temp_email := None; App.temp_phone := None |}
              (Samples.with_class (Samples.unclassified "Dr. Evelyn Reed") "new")
              "08-09-2025" _ _ eq_refl eq_refl ltac:(discriminate)
              ltac:(vm_compute; reflexivity)) as H.
  vm_compute in H. destruct H as (_ & _ & _ & H).
  destruct H as (Hst & _ & Hw); [discriminate|].
  split; [exact Hst | exact Hw].
Defined.
